(** * my-tour: bookmark gateway, retry executor and error taxonomy

    A shallow embedding of the TypeScript sources of the tourism
    application:

    - [lib/utils/error-handler.ts]   error classification ([getErrorType],
      [getUserFriendlyMessage], [getErrorInfo]);
    - [lib/api/tour-api.ts]          the retrying [fetchTourAPI] loop and the
      detail endpoints built on it, in the two revisions the sources hold;
    - [app/page.tsx]                 [transformItems];
    - [lib/api/supabase-api.ts]      the bookmark CRUD helpers;
    - [actions/bookmarks.ts]         the three server actions;
    - [supabase/migrations/my_tour_schema.sql]
                                     the [bookmarks] table and its constraints;
    - [app/places/[contentId]/page.tsx], [app/bookmarks/page.tsx]
                                     the two pages that fan out over the API;
    - [lib/utils/env-validation.ts], [middleware.ts]
                                     the checks of the environment;
    - [components/pagination.tsx]    the page numbers and their handlers;
    - [components/bookmarks/bookmark-button.tsx],
      [components/bookmarks/bookmark-list.tsx]
                                     the handlers that call the actions.

    JavaScript strings are kept as UTF-8 byte strings ([string]); substring
    search on well-formed UTF-8 agrees with the search on UTF-16 code units.
    Asynchronous functions are written in direct style: every [await] in the
    sources is sequential, except the [Promise.all] of the bookmarks page,
    whose branches share no state.  Console output is not modelled.

    What lies outside the sources is a parameter: the case mapping of
    [toLowerCase], the answers of the network to each attempt of a request,
    Clerk's session, the column defaults of Postgres, what the browser
    receives of an error thrown by a server action.  Page counts and page
    sizes are integers. *)

From Stdlib Require Import String Ascii List ZArith Bool Lia Permutation Sorted.
From Stdlib Require Import DecimalString.
Import ListNotations.

Local Open Scope string_scope.

(* ================================================================== *)
(** * The JavaScript runtime fragment used by the sources *)
(* ================================================================== *)

Module Js.

(** ** Strings *)

(** [s.includes(sub)] *)
Fixpoint includes (s sub : string) : bool :=
  if String.prefix sub s then true
  else match s with
       | EmptyString => false
       | String _ rest => includes rest sub
       end.

Definition bytes (l : list nat) : string :=
  string_of_list_ascii (map ascii_of_nat l).

(** ECMAScript WhiteSpace and LineTerminator code points, UTF-8 encoded:
    TAB LF VT FF CR SP, U+00A0, U+1680, U+2000..U+200A, U+2028, U+2029,
    U+202F, U+205F, U+3000, U+FEFF. *)
Definition white_space : list string :=
  map bytes
    [ [9]; [10]; [11]; [12]; [13]; [32];
      [194; 160];
      [225; 154; 128];
      [226; 128; 128]; [226; 128; 129]; [226; 128; 130]; [226; 128; 131];
      [226; 128; 132]; [226; 128; 133]; [226; 128; 134]; [226; 128; 135];
      [226; 128; 136]; [226; 128; 137]; [226; 128; 138];
      [226; 128; 168]; [226; 128; 169]; [226; 128; 175];
      [226; 129; 159];
      [227; 128; 128];
      [239; 187; 191] ].

Definition is_ws (w : string) : bool :=
  existsb (String.eqb w) white_space.

Definition ws1 (a : ascii) : bool := is_ws (String a "").
Definition ws2 (a b : ascii) : bool := is_ws (String a (String b "")).
Definition ws3 (a b c : ascii) : bool :=
  is_ws (String a (String b (String c ""))).

(** [s.trimStart()] *)
Fixpoint trimStart (s : string) : string :=
  match s with
  | EmptyString => EmptyString
  | String a r1 =>
      if ws1 a then trimStart r1
      else match r1 with
           | EmptyString => s
           | String b r2 =>
               if ws2 a b then trimStart r2
               else match r2 with
                    | EmptyString => s
                    | String c r3 => if ws3 a b c then trimStart r3 else s
                    end
           end
  end.

Definition reverse (s : string) : string :=
  string_of_list_ascii (rev (list_ascii_of_string s)).

(** the same scan over the reversed string: the bytes of a white-space
    character are met last byte first *)
Fixpoint dropTrailing (r : string) : string :=
  match r with
  | EmptyString => EmptyString
  | String c r1 =>
      if ws1 c then dropTrailing r1
      else match r1 with
           | EmptyString => r
           | String b r2 =>
               if ws2 b c then dropTrailing r2
               else match r2 with
                    | EmptyString => r
                    | String a r3 => if ws3 a b c then dropTrailing r3 else r
                    end
           end
  end.

(** [s.trimEnd()] *)
Definition trimEnd (s : string) : string :=
  reverse (dropTrailing (reverse s)).

(** [s.trim()] *)
Definition trim (s : string) : string := trimEnd (trimStart s).

(** a string made of white space only *)
Inductive Blank : string -> Prop :=
| Blank_empty : Blank ""
| Blank_ws : forall w s, In w white_space -> Blank s -> Blank (w ++ s).

(** the ASCII part of [String.prototype.toLowerCase]; used where a
    concrete case mapping is needed to evaluate an example *)
Definition lowerAscii (c : ascii) : ascii :=
  let n := nat_of_ascii c in
  if (65 <=? n)%nat && (n <=? 90)%nat then ascii_of_nat (n + 32) else c.

Fixpoint toLowerCaseAscii (s : string) : string :=
  match s with
  | EmptyString => EmptyString
  | String c r => String (lowerAscii c) (toLowerCaseAscii r)
  end.

(** ** Thrown values and completions *)

(** What a [catch] clause can receive: an [Error] instance, with its
    [name] and [message], or any other value, kept as [String(value)]. *)
Inductive Thrown : Type :=
| JsError (name message : string)
| NonError (text : string).

(** [new Error(message)] *)
Definition Error (message : string) : Thrown := JsError "Error" message.
Definition TypeError (message : string) : Thrown := JsError "TypeError" message.

(** [error instanceof Error] *)
Definition instanceofError (e : Thrown) : bool :=
  match e with JsError _ _ => true | NonError _ => false end.

(** [String(error)] *)
Definition toString (e : Thrown) : string :=
  match e with
  | JsError name message =>
      if String.eqb message "" then name
      else if String.eqb name "" then message
      else name ++ ": " ++ message
  | NonError text => text
  end.

(** a normal or abrupt completion *)
Inductive Result (A : Type) : Type :=
| Ok (a : A)
| Throw (e : Thrown).
Arguments Ok {A} a.
Arguments Throw {A} e.

Definition bind {A B} (r : Result A) (k : A -> Result B) : Result B :=
  match r with
  | Ok a => k a
  | Throw e => Throw e
  end.

(** [try { body } catch (e) { handler(e) }] *)
Definition try_catch {A} (body : Result A) (handler : Thrown -> Result A)
  : Result A :=
  match body with
  | Ok a => Ok a
  | Throw e => handler e
  end.

(** ** Values of type [any]: parsed JSON, plus [undefined] *)

#[local] Set Warnings "-register-all".

Inductive Value : Type :=
| Undefined
| Null
| Bool (b : bool)
| Num (z : Z)
| Str (s : string)
| Arr (elems : list Value)
| Obj (props : list (string * Value)).

(** ToBoolean *)
Definition truthy (v : Value) : bool :=
  match v with
  | Undefined | Null => false
  | Bool b => b
  | Num z => negb (z =? 0)%Z
  | Str s => negb (String.eqb s "")
  | Arr _ | Obj _ => true
  end.

Definition isArray (v : Value) : bool :=
  match v with Arr _ => true | _ => false end.

Fixpoint lookup (k : string) (props : list (string * Value)) : Value :=
  match props with
  | [] => Undefined
  | (k', v) :: rest => if String.eqb k k' then v else lookup k rest
  end.

(** [v.k] for a data property name [k] that is neither an index nor a
    name found on a prototype (the sources read [addr1], [contentid],
    ... this way): reading from [undefined] or [null] throws, an object
    answers from its own properties, everything else has no such
    property. *)
Definition get (v : Value) (k : string) : Result Value :=
  match v with
  | Undefined =>
      Throw (TypeError ("Cannot read properties of undefined (reading '" ++ k ++ "')"))
  | Null =>
      Throw (TypeError ("Cannot read properties of null (reading '" ++ k ++ "')"))
  | Obj props => Ok (lookup k props)
  | _ => Ok Undefined
  end.

(** [v?.k] *)
Definition get_opt (v : Value) (k : string) : Value :=
  match v with
  | Obj props => lookup k props
  | _ => Undefined
  end.

End Js.

Export Js.

(* ================================================================== *)
(** * lib/utils/error-handler.ts *)
(* ================================================================== *)

Module ErrorHandler.

Inductive ErrorType : Type :=
| NETWORK | API | AUTH | VALIDATION | NOT_FOUND | SERVER | UNKNOWN.

Definition ErrorType_eqb (a b : ErrorType) : bool :=
  match a, b with
  | NETWORK, NETWORK | API, API | AUTH, AUTH | VALIDATION, VALIDATION
  | NOT_FOUND, NOT_FOUND | SERVER, SERVER | UNKNOWN, UNKNOWN => true
  | _, _ => false
  end.

Record ErrorInfo : Type := mkErrorInfo {
  type : ErrorType;
  message : string;
  userMessage : string;
  canRetry : bool;
  originalError : option Thrown
}.

Section WithCaseMapping.

(** [String.prototype.toLowerCase], a built-in of the runtime; nothing
    below depends on which mapping it is. *)
Variable toLowerCase : string -> string.

Definition getErrorType (error : Thrown) : ErrorType :=
  match error with
  | NonError _ => UNKNOWN
  | JsError error_name error_message =>
      let message := toLowerCase error_message in
      let name := toLowerCase error_name in
      (* network *)
      if String.eqb name "networkerror"
         || String.eqb name "typeerror"
         || includes message "network"
         || includes message "fetch"
         || includes message "failed to fetch"
         || includes message "network request failed"
      then NETWORK
      (* authentication *)
      else if includes message "인증"
         || includes message "api 키"
         || includes message "authentication"
         || includes message "unauthorized"
         || includes message "forbidden"
      then AUTH
      (* API *)
      else if includes message "api 에러"
         || includes message "api 호출"
         || includes message "resultcode"
         || includes message "service_key"
      then API
      (* validation *)
      else if includes message "필수 파라미터"
         || includes message "validation"
         || includes message "invalid"
      then VALIDATION
      (* 404 *)
      else if includes message "not found"
         || includes message "찾을 수 없"
         || includes message "존재하지 않"
      then NOT_FOUND
      (* server *)
      else if includes message "서버 에러"
         || includes message "server error"
         || includes message "500"
         || includes message "502"
         || includes message "503"
      then SERVER
      else UNKNOWN
  end.

Definition getUserFriendlyMessage
  (error : Thrown) (errorType : option ErrorType) : string :=
  let type :=
    match errorType with
    | Some t => t
    | None => getErrorType error
    end in
  let errorMessage :=
    match error with
    | JsError _ m => m
    | NonError _ => toString error
    end in
  match type with
  | NETWORK =>
      "네트워크 연결에 문제가 있습니다. 인터넷 연결을 확인하고 다시 시도해주세요."
  | AUTH =>
      if includes errorMessage "API 키"
      then "API 인증에 실패했습니다. 관리자에게 문의해주세요."
      else "인증에 실패했습니다. 다시 로그인해주세요."
  | API =>
      if includes errorMessage "호출 제한"
      then "API 호출 제한에 도달했습니다. 잠시 후 다시 시도해주세요."
      else if includes errorMessage "서버 에러"
      then "서버에 일시적인 문제가 발생했습니다. 잠시 후 다시 시도해주세요."
      else "데이터를 불러오는 중 오류가 발생했습니다. 잠시 후 다시 시도해주세요."
  | VALIDATION =>
      "입력한 정보를 확인해주세요. 필수 항목이 누락되었거나 형식이 올바르지 않습니다."
  | NOT_FOUND =>
      "요청하신 정보를 찾을 수 없습니다."
  | SERVER =>
      "서버에 일시적인 문제가 발생했습니다. 잠시 후 다시 시도해주세요."
  | UNKNOWN =>
      "예상치 못한 오류가 발생했습니다. 잠시 후 다시 시도해주세요."
  end.

Definition getErrorInfo (error : Thrown) : ErrorInfo :=
  let type := getErrorType error in
  let originalError := if instanceofError error then Some error else None in
  let userMessage := getUserFriendlyMessage error (Some type) in
  let canRetry :=
    ErrorType_eqb type NETWORK
    || ErrorType_eqb type API
    || ErrorType_eqb type SERVER in
  {| type := type;
     message :=
       match originalError with
       | Some (JsError _ m) => if String.eqb m "" then toString error else m
       | _ => toString error
       end;
     userMessage := userMessage;
     canRetry := canRetry;
     originalError := originalError |}.

Definition formatError (error : Thrown) : string :=
  getUserFriendlyMessage error None.

Definition isRetryableError (error : Thrown) : bool :=
  canRetry (getErrorInfo error).

End WithCaseMapping.

End ErrorHandler.

(* ================================================================== *)
(** * lib/types/tour.ts, lib/types/bookmark.ts *)
(* ================================================================== *)

(** An optional field ([addr2?: string]) is an [option]. *)

Module TourItem.
Record t : Type := mk {
  addr1 : string;
  addr2 : option string;
  areacode : string;
  contentid : string;
  contenttypeid : string;
  title : string;
  mapx : string;
  mapy : string;
  firstimage : option string;
  firstimage2 : option string;
  tel : option string;
  cat1 : option string;
  cat2 : option string;
  cat3 : option string;
  modifiedtime : string
}.
End TourItem.

Module TourDetail.
Record t : Type := mk {
  contentid : string;
  contenttypeid : string;
  title : string;
  addr1 : string;
  addr2 : option string;
  zipcode : option string;
  tel : option string;
  homepage : option string;
  overview : option string;
  firstimage : option string;
  firstimage2 : option string;
  mapx : string;
  mapy : string;
  cat1 : option string;
  cat2 : option string;
  cat3 : option string;
  cpyrhtDivCd : option string;
  modifiedtime : string
}.
End TourDetail.

Module TourImage.
Record t : Type := mk {
  contentid : string;
  originimgurl : option string;
  serialnum : string;
  smallimageurl : option string;
  imgname : option string
}.
End TourImage.

(** [TourIntro], and the [Record<string, string | undefined>] items of
    [detailIntro2]: an open map from field names to strings, in insertion
    order. *)
Module TourIntro.

Definition t : Type := list (string * string).

Fixpoint get (k : string) (o : t) : option string :=
  match o with
  | [] => None
  | (k', v) :: rest => if String.eqb k k' then Some v else get k rest
  end.

(** [o[k] = v]: an existing key keeps its place *)
Fixpoint set (k v : string) (o : t) : t :=
  match o with
  | [] => [(k, v)]
  | (k', v') :: rest =>
      if String.eqb k k' then (k, v) :: rest else (k', v') :: set k v rest
  end.

(** [{ ...target, ...source }] *)
Definition spread (target source : t) : t :=
  fold_left (fun acc kv => set (fst kv) (snd kv) acc) source target.

End TourIntro.

Module Bookmark.
Record t : Type := mk {
  id : string;
  user_id : string;
  content_id : string;
  created_at : Z                          (* timestamptz, as an instant *)
}.
End Bookmark.

(* ================================================================== *)
(** * lib/api/tour-api.ts *)
(* ================================================================== *)

Module TourApi.

Import ErrorHandler.

(** the part of the process environment read by [getApiKey] *)
Record Env : Type := mkEnv {
  isBrowser : bool;                        (* typeof window !== "undefined" *)
  TOUR_API_KEY : option string;
  NEXT_PUBLIC_TOUR_API_KEY : option string
}.

(** an environment variable that is set and not empty *)
Definition present (v : option string) : option string :=
  match v with
  | Some s => if String.eqb s "" then None else Some s
  | None => None
  end.

Definition getApiKey (env : Env) : Result string :=
  if isBrowser env then
    match present (NEXT_PUBLIC_TOUR_API_KEY env) with
    | None => Throw (Error "NEXT_PUBLIC_TOUR_API_KEY 환경변수가 설정되지 않았습니다.")
    | Some key => Ok key
    end
  else
    let serverKey := present (TOUR_API_KEY env) in
    let publicKey := present (NEXT_PUBLIC_TOUR_API_KEY env) in
    let apiKey := match serverKey with Some k => Some k | None => publicKey end in
    match apiKey with
    | None =>
        Throw (Error "TOUR_API_KEY 또는 NEXT_PUBLIC_TOUR_API_KEY 환경변수가 설정되지 않았습니다.")
    | Some key => Ok key
    end.

(** ** The provider's envelope, at its declared type
    [{ response: { header: { resultCode, resultMsg }, body: B } }];
    the sources read it with [?.], so every level may be missing. *)

Record Header : Type := mkHeader {
  resultCode : string;
  resultMsg : string
}.

Record Response (B : Type) : Type := mkResponse {
  header : option Header;
  body : option B
}.
Arguments mkResponse {B} header body.
Arguments header {B} _.
Arguments body {B} _.

Record Data (B : Type) : Type := mkData {
  response : option (Response B)
}.
Arguments mkData {B} response.
Arguments response {B} _.

(** ** What one call of [fetch] can do *)

Record HttpResponse (B : Type) : Type := mkHttpResponse {
  status : Z;
  statusText : string;
  json : Result (Data B)                    (* await response.json() *)
}.
Arguments mkHttpResponse {B} status statusText json.
Arguments status {B} _.
Arguments statusText {B} _.
Arguments json {B} _.

(** [response.ok] *)
Definition ok {B} (r : HttpResponse B) : bool :=
  (200 <=? status r)%Z && (status r <=? 299)%Z.

Inductive FetchOutcome (B : Type) : Type :=
| Rejected (reason : Thrown)               (* the promise of fetch rejects *)
| Responded (r : HttpResponse B).
Arguments Rejected {B} reason.
Arguments Responded {B} r.

(** the network seen by one call of [fetchTourAPI]: what the fetch of
    attempt 1, 2, ... does *)
Definition Network (B : Type) : Type := nat -> FetchOutcome B.

(** what [fetchTourAPI] does besides computing its result *)
Inductive Event : Type :=
| Fetch (attempt : nat)                    (* await fetch(url, ...) *)
| Sleep (ms : Z).                          (* await new Promise(r => setTimeout(r, ms)) *)

(** [Math.min(1000 * Math.pow(2, attempt - 1), 5000)].  The product is a
    power of two times 1000, exact in a double until it overflows to
    [Infinity]; the minimum with 5000 is the same integer either way. *)
Definition backoff (attempt : nat) : Z :=
  Z.min (1000 * 2 ^ (Z.of_nat attempt - 1)) 5000.

Section WithCaseMapping.

Variable toLowerCase : string -> string.

Section Fetch.

Context {B : Type}.
Variable net : Network B.
Variable retries : nat.

(** the body of the [try] block for one attempt *)
Definition attemptOnce (attempt : nat) : Result (Data B) :=
  match net attempt with
  | Rejected reason => Throw reason
  | Responded resp =>
      if negb (ok resp) then
        if (status resp =? 401)%Z || (status resp =? 403)%Z then
          Throw (Error "API 인증 실패: API 키를 확인해주세요.")
        else if (status resp =? 429)%Z then
          Throw (Error "API 호출 제한 초과: 잠시 후 다시 시도해주세요.")
        else if (status resp >=? 500)%Z then
          Throw (Error "서버 에러: 잠시 후 다시 시도해주세요.")
        else
          Throw (Error "데이터를 불러오는 중 오류가 발생했습니다.")
      else
        bind (json resp) (fun data =>
          match response data with
          | Some {| header := Some h |} =>
              if negb (String.eqb (resultCode h) "0000") then
                if String.eqb (resultCode h) "SERVICE_KEY_NOT_REGISTERED" then
                  Throw (Error "API 인증에 실패했습니다. 관리자에게 문의해주세요.")
                else if String.eqb (resultCode h) "SERVICE_KEY_IS_NOT_VALID" then
                  Throw (Error "API 인증에 실패했습니다. 관리자에게 문의해주세요.")
                else if String.eqb (resultCode h) "NO_MANDATORY_REQUEST_PARAMETERS_ERROR" then
                  Throw (Error "입력한 정보를 확인해주세요. 필수 항목이 누락되었습니다.")
                else
                  Throw (Error (formatError toLowerCase
                    (Error ("API 에러 (" ++ resultCode h ++ "): " ++ resultMsg h))))
              else Ok data
          | _ => Ok data
          end)
  end.

(** [error instanceof Error ? error : new Error(String(error))] *)
Definition asError (error : Thrown) : Thrown :=
  if instanceofError error then error else Error (toString error).

Definition errorMessage (e : Thrown) : string :=
  match e with
  | JsError _ m => m
  | NonError text => text
  end.

(** the test of the [catch] clause: authentication and validation errors
    leave the loop at once *)
Definition failsFast (caughtError : Thrown) : bool :=
  includes (errorMessage caughtError) "인증"
  || includes (errorMessage caughtError) "API 키"
  || includes (errorMessage caughtError) "필수"
  || includes (errorMessage caughtError) "누락".

(** the statements after the loop *)
Definition exhausted (lastError : option Thrown) : Result (Data B) :=
  match lastError with
  | Some e => Throw (Error (formatError toLowerCase e))
  | None => Throw (Error "데이터를 불러오는 중 오류가 발생했습니다.")
  end.

(** [for (let attempt = 1; attempt <= retries; attempt++) { ... }],
    entered at [attempt] with [remaining] iterations to go:
    [attempt + remaining = retries + 1] all along, so the loop test
    [attempt <= retries] holds exactly when [remaining] is a successor. *)
Fixpoint retryLoop (remaining attempt : nat) (lastError : option Thrown)
  : Result (Data B) * list Event :=
  match remaining with
  | O => (exhausted lastError, [])
  | S remaining' =>
      match attemptOnce attempt with
      | Ok data => (Ok data, [Fetch attempt])
      | Throw error =>
          let caughtError := asError error in
          if failsFast caughtError then
            (Throw caughtError, [Fetch attempt])
          else if (attempt <? retries)%nat then
            let delay := backoff attempt in
            let (r, events) := retryLoop remaining' (S attempt) (Some caughtError) in
            (r, Fetch attempt :: Sleep delay :: events)
          else
            let (r, events) := retryLoop remaining' (S attempt) (Some caughtError) in
            (r, Fetch attempt :: events)
      end
  end.

End Fetch.

(** [fetchTourAPI<T>(endpoint, params, retries = 3)].  The query string
    decides nothing here, so neither [endpoint] nor [params] is kept. *)
Definition fetchTourAPI {B} (env : Env) (net : Network B) (retries : nat)
  : Result (Data B) * list Event :=
  match getApiKey env with
  | Throw e => (Throw e, [])
  | Ok _ => retryLoop net retries retries 1 None
  end.

(** ** The detail endpoints *)

(** what [items.item] holds.  It is declared an array, and the provider
    sends the one object itself, not wrapped in an array, when there is a
    single result.  Such an object is an item of the provider, with the
    fields of its type: it has no property [length] and no property [0],
    so on it [x.length] and [x[0]] are [undefined]. *)
Inductive ItemField (T : Type) : Type :=
| Many (l : list T)
| One (x : T).
Arguments Many {T} l.
Arguments One {T} x.

Record Items (T : Type) : Type := mkItems { item : option (ItemField T) }.
Arguments mkItems {T} item.
Arguments item {T} _.

Record Body (T : Type) : Type := mkBody { items : option (Items T) }.
Arguments mkBody {T} items.
Arguments items {T} _.

(** [!contentId || contentId.trim().length === 0] *)
Definition blank (s : string) : bool :=
  String.eqb s "" || (String.length (trim s) =? 0)%nat.

Definition detailCommon2 (env : Env) (net : Network (Body TourDetail.t))
  (contentId : string) : Result (Data (Body TourDetail.t)) * list Event :=
  if blank contentId then
    (Throw (Error "관광지 정보를 찾을 수 없습니다."), [])
  else fetchTourAPI env net 3.

Definition detailIntro2 (env : Env) (net : Network (Body TourIntro.t))
  (contentId contentTypeId : string)
  : Result (Data (Body TourIntro.t)) * list Event :=
  if blank contentId then
    (Throw (Error "관광지 정보를 찾을 수 없습니다."), [])
  else if blank contentTypeId then
    (Throw (Error "관광지 정보를 찾을 수 없습니다."), [])
  else fetchTourAPI env net 3.

Definition detailImage2 (env : Env) (net : Network (Body TourImage.t))
  (contentId : string) : Result (Data (Body TourImage.t)) * list Event :=
  if blank contentId then
    (Throw (Error "관광지 정보를 찾을 수 없습니다."), [])
  else fetchTourAPI env net 3.

(** [response.response?.body?.items?.item] *)
Definition itemsOf {T} (d : Data (Body T)) : option (ItemField T) :=
  match response d with
  | Some {| body := Some {| items := Some {| item := Some l |} |} |} => Some l
  | _ => None
  end.

End WithCaseMapping.

Arguments Many {T} l.
Arguments One {T} x.

End TourApi.

(* ================================================================== *)
(** * lib/api/tour-api.ts, the earlier revision *)
(* ================================================================== *)

(** The sources hold two revisions of [tour-api.ts].  The one above is the
    later one, which logs and words its errors through [error-handler.ts].
    The earlier one has the same [getApiKey], the same loop and the same
    pause; it differs in the errors it builds, in the test of its [catch]
    clause and in what it throws once the attempts are spent. *)

Module TourApiEarlier.

Import TourApi.

(** [`${n}`] for an integer *)
Definition decimal (z : Z) : string := NilZero.string_of_int (Z.to_int z).

Section Fetch.

Context {B : Type}.
Variable net : Network B.
Variable retries : nat.

(** [(시도 ${attempt}/${retries})] *)
Definition attemptOf (attempt : nat) : string :=
  "(시도 " ++ decimal (Z.of_nat attempt) ++ "/" ++ decimal (Z.of_nat retries) ++ ")".

Definition attemptOnce (attempt : nat) : Result (Data B) :=
  match net attempt with
  | Rejected reason => Throw reason
  | Responded resp =>
      if negb (ok resp) then
        if (status resp =? 401)%Z || (status resp =? 403)%Z then
          Throw (Error ("API 인증 실패 (" ++ decimal (status resp)
                        ++ "): API 키를 확인해주세요."))
        else if (status resp =? 429)%Z then
          Throw (Error ("API 호출 제한 초과: 잠시 후 다시 시도해주세요. "
                        ++ attemptOf attempt))
        else if (status resp >=? 500)%Z then
          Throw (Error ("서버 에러 (" ++ decimal (status resp)
                        ++ "): 잠시 후 다시 시도해주세요. " ++ attemptOf attempt))
        else
          Throw (Error ("HTTP 에러 (" ++ decimal (status resp) ++ "): "
                        ++ statusText resp))
      else
        bind (json resp) (fun data =>
          match response data with
          | Some {| header := Some h |} =>
              if negb (String.eqb (resultCode h) "0000") then
                if String.eqb (resultCode h) "SERVICE_KEY_NOT_REGISTERED" then
                  Throw (Error "API 키가 등록되지 않았습니다.")
                else if String.eqb (resultCode h) "SERVICE_KEY_IS_NOT_VALID" then
                  Throw (Error "유효하지 않은 API 키입니다.")
                else if String.eqb (resultCode h) "NO_MANDATORY_REQUEST_PARAMETERS_ERROR" then
                  Throw (Error ("필수 파라미터 오류: " ++ resultMsg h))
                else
                  Throw (Error ("API 에러 (" ++ resultCode h ++ "): " ++ resultMsg h))
              else Ok data
          | _ => Ok data
          end)
  end.

(** [error instanceof Error && (error.message.includes(...) || ...)] *)
Definition failsFast (error : Thrown) : bool :=
  match error with
  | JsError _ message =>
      includes message "인증"
      || includes message "API 키"
      || includes message "필수 파라미터"
  | NonError _ => false
  end.

(** [throw lastError || new Error("API 호출 실패")] *)
Definition exhausted (lastError : option Thrown) : Result (Data B) :=
  match lastError with
  | Some e => Throw e
  | None => Throw (Error "API 호출 실패")
  end.

Fixpoint retryLoop (remaining attempt : nat) (lastError : option Thrown)
  : Result (Data B) * list Event :=
  match remaining with
  | O => (exhausted lastError, [])
  | S remaining' =>
      match attemptOnce attempt with
      | Ok data => (Ok data, [Fetch attempt])
      | Throw error =>
          let lastError' :=
            if instanceofError error then error else Error (toString error) in
          if failsFast error then
            (Throw error, [Fetch attempt])
          else if (attempt <? retries)%nat then
            let delay := backoff attempt in
            let (r, events) := retryLoop remaining' (S attempt) (Some lastError') in
            (r, Fetch attempt :: Sleep delay :: events)
          else
            let (r, events) := retryLoop remaining' (S attempt) (Some lastError') in
            (r, Fetch attempt :: events)
      end
  end.

End Fetch.

Definition fetchTourAPI {B} (env : Env) (net : Network B) (retries : nat)
  : Result (Data B) * list Event :=
  match getApiKey env with
  | Throw e => (Throw e, [])
  | Ok _ => retryLoop net retries retries 1 None
  end.

End TourApiEarlier.

(* ================================================================== *)
(** * app/page.tsx: normalising the [item] field of a list response *)
(* ================================================================== *)

Module Home.

(** the fields copied by the object literal of [transformItems] *)
Definition fields : list string :=
  [ "addr1"; "addr2"; "areacode"; "contentid"; "contenttypeid"; "title";
    "mapx"; "mapy"; "firstimage"; "firstimage2"; "tel";
    "cat1"; "cat2"; "cat3"; "modifiedtime" ].

(** [{ k1: item.k1, k2: item.k2, ... }], the reads in source order *)
Fixpoint pick (item : Value) (ks : list string)
  : Result (list (string * Value)) :=
  match ks with
  | [] => Ok []
  | k :: ks' =>
      bind (get item k) (fun v =>
      bind (pick item ks') (fun rest => Ok ((k, v) :: rest)))
  end.

Definition toTourItem (item : Value) : Result Value :=
  bind (pick item fields) (fun props => Ok (Obj props)).

(** [array.map(f)] for a callback that may throw *)
Fixpoint mapResult {A C} (f : A -> Result C) (l : list A) : Result (list C) :=
  match l with
  | [] => Ok []
  | x :: xs =>
      bind (f x) (fun y => bind (mapResult f xs) (fun ys => Ok (y :: ys)))
  end.

Definition elements (v : Value) : list Value :=
  match v with Arr elems => elems | _ => [] end.

(** [const transformItems = (items: any[] | any): TourItem[] => ...].
    The parameter is an [any], so it stays a [Value], and the items built
    from it stay object literals. *)
Definition transformItems (items : Value) : Result (list Value) :=
  if isArray items then mapResult toTourItem (elements items)
  else if truthy items then
    bind (toTourItem items) (fun tourItem => Ok [tourItem])
  else Ok [].

(** [response.response?.body?.items?.item], the body being whatever the
    provider sent *)
Definition itemField (d : TourApi.Data Value) : Value :=
  match TourApi.response d with
  | Some r =>
      match TourApi.body r with
      | Some b => get_opt (get_opt b "items") "item"
      | None => Undefined
      end
  | None => Undefined
  end.

(** the value handed to [setTours] at the end of the [try] block *)
Definition toursOf (d : TourApi.Data Value) : Result (list Value) :=
  if truthy (itemField d) then transformItems (itemField d)
  else Ok [].

End Home.

(* ================================================================== *)
(** * The persisted store *)
(* ================================================================== *)

Module Store.

(** Modelled from the spec: the [users] table, whose migration is not part
    of the sources: [users(id uuid pk, external_id text unique, name text,
    created_at timestamptz)]; the code names the external identifier
    column [clerk_id]. *)
Record User : Type := mkUser {
  id : string;
  clerk_id : string;
  name : string;
  created_at : Z
}.

(** the two tables; [bookmarks] is the table of the migration
    [create table public.bookmarks (... constraint unique_user_bookmark
    unique(user_id, content_id))] *)
Record Db : Type := mkDb {
  users : list User;
  bookmarks : list Bookmark.t
}.

(** what a server action touches outside itself *)
Inductive Call : Type :=
| AuthCall                                   (* await auth() *)
| DbCall (table verb : string).              (* one PostgREST request *)

Record World : Type := mkWorld {
  session : option string;                   (* Clerk's userId, if signed in *)
  db : Db;
  calls : list Call                          (* most recent last *)
}.

Definition record (c : Call) (w : World) : World :=
  {| session := session w; db := db w; calls := calls w ++ [c] |}.

Definition with_db (d : Db) (w : World) : World :=
  {| session := session w; db := d; calls := calls w |}.

(** [WHERE user_id = u AND content_id = c] *)
Definition is_pair (u c : string) (b : Bookmark.t) : bool :=
  String.eqb (Bookmark.user_id b) u && String.eqb (Bookmark.content_id b) c.

Definition owned_by (u : string) (b : Bookmark.t) : bool :=
  String.eqb (Bookmark.user_id b) u.

(** [ORDER BY created_at DESC], as an insertion sort *)
Fixpoint insert_desc (b : Bookmark.t) (l : list Bookmark.t) : list Bookmark.t :=
  match l with
  | [] => [b]
  | x :: rest =>
      if (Bookmark.created_at x <? Bookmark.created_at b)%Z
      then b :: x :: rest
      else x :: insert_desc b rest
  end.

Definition order_by_created_at_desc (l : list Bookmark.t) : list Bookmark.t :=
  fold_right insert_desc [] l.

(** [a] may come before [b] in a listing by creation time, descending *)
Definition newer_first (a b : Bookmark.t) : Prop :=
  (Bookmark.created_at b <= Bookmark.created_at a)%Z.

(** the constraint [unique_user_bookmark] as a property of a table *)
Definition unique_user_bookmark (d : Db) : Prop :=
  NoDup (map (fun b => (Bookmark.user_id b, Bookmark.content_id b)) (bookmarks d)).

End Store.

(* ================================================================== *)
(** * The Supabase client *)
(* ================================================================== *)

Module Supabase.

Import Store.

Record PostgrestError : Type := mkError {
  code : string;
  message : string
}.

(** [{ data, error }] *)
Record PostgrestResponse (A : Type) : Type := mkResponse {
  data : option A;
  error : option PostgrestError
}.
Arguments mkResponse {A} data error.
Arguments data {A} _.
Arguments error {A} _.

Definition success {A} (a : A) : PostgrestResponse A :=
  {| data := Some a; error := None |}.
Definition failure {A} (e : PostgrestError) : PostgrestResponse A :=
  {| data := None; error := Some e |}.

(** The five query chains the sources build on a [SupabaseClient]. *)
Record SupabaseClient : Type := mkClient {
  (* from("users").select("id").eq("clerk_id", clerkId).single() *)
  users_id_by_clerk_id :
    string -> World -> PostgrestResponse string * World;
  (* from("bookmarks").select("*").eq("user_id", userId)
       .order("created_at", { ascending: false }) *)
  bookmarks_of_user :
    string -> World -> PostgrestResponse (list Bookmark.t) * World;
  (* from("bookmarks").insert({ user_id, content_id }).select().single() *)
  bookmarks_insert :
    string -> string -> World -> PostgrestResponse Bookmark.t * World;
  (* from("bookmarks").delete().eq("user_id", userId).eq("content_id", contentId) *)
  bookmarks_delete :
    string -> string -> World -> PostgrestResponse unit * World;
  (* from("bookmarks").select("id").eq("user_id", userId)
       .eq("content_id", contentId).single() *)
  bookmarks_id_of_pair :
    string -> string -> World -> PostgrestResponse string * World
}.

(** [.single()]: exactly one row, or error PGRST116 *)
Definition single {A} (rows : list A) : PostgrestResponse A :=
  match rows with
  | [row] => success row
  | _ =>
      failure {| code := "PGRST116";
                 message := "JSON object requested, multiple (or no) rows returned" |}
  end.

Definition map_response {A C} (f : A -> C) (r : PostgrestResponse A)
  : PostgrestResponse C :=
  {| data := option_map f (data r); error := error r |}.

Section Postgres.

(** the column defaults [gen_random_uuid()] and [now()], supplied by the
    server when a row is inserted *)
Variable gen_random_uuid : Db -> string.
Variable now : Db -> Z.

(** [INSERT INTO bookmarks (user_id, content_id) VALUES (u, c) RETURNING *]:
    the unique index is checked when the row is written, the foreign key
    to [users(id)] after it *)
Definition insert_row (u c : string) (d : Db)
  : PostgrestResponse Bookmark.t * Db :=
  if existsb (is_pair u c) (bookmarks d) then
    (failure {| code := "23505";
                message := "duplicate key value violates unique constraint unique_user_bookmark" |},
     d)
  else if negb (existsb (fun usr => String.eqb (id usr) u) (users d)) then
    (failure {| code := "23503";
                message := "insert or update on table bookmarks violates foreign key constraint" |},
     d)
  else
    let row := {| Bookmark.id := gen_random_uuid d;
                  Bookmark.user_id := u;
                  Bookmark.content_id := c;
                  Bookmark.created_at := now d |} in
    (success row, {| users := users d; bookmarks := bookmarks d ++ [row] |}).

(** [DELETE FROM bookmarks WHERE user_id = u AND content_id = c] *)
Definition delete_rows (u c : string) (d : Db) : Db :=
  {| users := users d;
     bookmarks := filter (fun b => negb (is_pair u c b)) (bookmarks d) |}.

(** the client backed by the two tables *)
Definition postgres : SupabaseClient :=
  {| users_id_by_clerk_id := fun clerkId w =>
       (map_response id
          (single (filter (fun usr => String.eqb (clerk_id usr) clerkId)
                          (users (db w)))),
        record (DbCall "users" "select") w);
     bookmarks_of_user := fun userId w =>
       (success (order_by_created_at_desc
                   (filter (owned_by userId) (bookmarks (db w)))),
        record (DbCall "bookmarks" "select") w);
     bookmarks_insert := fun userId contentId w =>
       let (r, d) := insert_row userId contentId (db w) in
       (r, record (DbCall "bookmarks" "insert") (with_db d w));
     bookmarks_delete := fun userId contentId w =>
       ({| data := None; error := None |},
        record (DbCall "bookmarks" "delete")
               (with_db (delete_rows userId contentId (db w)) w));
     bookmarks_id_of_pair := fun userId contentId w =>
       (map_response Bookmark.id
          (single (filter (is_pair userId contentId) (bookmarks (db w)))),
        record (DbCall "bookmarks" "select") w) |}.

End Postgres.

End Supabase.

(* ================================================================== *)
(** * Server-side computations: a world and a completion *)
(* ================================================================== *)

Module Async.

Import Store.

(** an [async] function over the store: it leaves a world behind whether
    it resolves or rejects *)
Definition M (A : Type) : Type := World -> Result A * World.

Definition ret {A} (a : A) : M A := fun w => (Ok a, w).

Definition throw {A} (e : Thrown) : M A := fun w => (Throw e, w).

Definition bindM {A C} (m : M A) (k : A -> M C) : M C :=
  fun w =>
    match m w with
    | (Ok a, w') => k a w'
    | (Throw e, w') => (Throw e, w')
    end.

(** [try { body } catch (error) { handler(error) }] *)
Definition catch {A} (body : M A) (handler : Thrown -> M A) : M A :=
  fun w =>
    match body w with
    | (Ok a, w') => (Ok a, w')
    | (Throw e, w') => handler e w'
    end.

(** a query: the client never throws, it answers [{ data, error }] *)
Definition query {A} (q : World -> A * World) : M A :=
  fun w => let (a, w') := q w in (Ok a, w').

(** [const { userId } = await auth()] *)
Definition auth : M (option string) :=
  fun w => (Ok (session w), record AuthCall w).

End Async.

Declare Scope async_scope.
Delimit Scope async_scope with async.
Notation "x <- m ;; k" := (Async.bindM m (fun x => k))
  (at level 61, m at next level, right associativity) : async_scope.

(* ================================================================== *)
(** * lib/api/supabase-api.ts *)
(* ================================================================== *)

Module SupabaseApi.

Import Store Supabase Async.
Local Open Scope async_scope.

Definition getSupabaseUserId (supabase : SupabaseClient) (clerkId : string)
  : M (option string) :=
  catch
    (r <- query (users_id_by_clerk_id supabase clerkId) ;;
     match error r with
     | Some e =>
         if String.eqb (code e) "PGRST116" then ret None
         else throw (Error ("Failed to get Supabase user ID: " ++ message e))
     | None => ret (data r)                       (* data?.id ?? null *)
     end)
    (fun error => throw error).

Definition getBookmarks (supabase : SupabaseClient) (userId : string)
  : M (list Bookmark.t) :=
  catch
    (r <- query (bookmarks_of_user supabase userId) ;;
     match error r with
     | Some e => throw (Error ("Failed to get bookmarks: " ++ message e))
     | None =>
         ret (match data r with Some rows => rows | None => [] end)  (* data ?? [] *)
     end)
    (fun error => throw error).

Definition addBookmark (supabase : SupabaseClient) (userId contentId : string)
  : M Bookmark.t :=
  catch
    (r <- query (bookmarks_insert supabase userId contentId) ;;
     match error r with
     | Some e =>
         if String.eqb (code e) "23505" then
           throw (Error "이미 북마크한 관광지입니다.")
         else throw (Error ("Failed to add bookmark: " ++ message e))
     | None =>
         match data r with
         | None => throw (Error "북마크 추가 후 데이터를 가져올 수 없습니다.")
         | Some row => ret row
         end
     end)
    (fun error => throw error).

(** [{ success: boolean }] *)
Record Removed : Type := mkRemoved { success : bool }.

Definition removeBookmark (supabase : SupabaseClient) (userId contentId : string)
  : M Removed :=
  catch
    (r <- query (bookmarks_delete supabase userId contentId) ;;
     match error r with
     | Some e => throw (Error ("Failed to remove bookmark: " ++ message e))
     | None => ret {| success := true |}
     end)
    (fun error => throw error).

Definition checkBookmark (supabase : SupabaseClient) (userId contentId : string)
  : M bool :=
  catch
    (r <- query (bookmarks_id_of_pair supabase userId contentId) ;;
     match error r with
     | Some e =>
         if String.eqb (code e) "PGRST116" then ret false
         else throw (Error ("Failed to check bookmark: " ++ message e))
     | None =>
         ret (match data r with Some _ => true | None => false end)
     end)
    (fun error => throw error).

End SupabaseApi.

(* ================================================================== *)
(** * actions/bookmarks.ts *)
(* ================================================================== *)

Module Actions.

Import Store Supabase Async SupabaseApi.
Local Open Scope async_scope.

(** [!x] for an [x : string | null] *)
Definition missing (x : option string) : bool :=
  match x with
  | None => true
  | Some s => String.eqb s ""
  end.

Definition orEmpty (x : option string) : string :=
  match x with Some s => s | None => "" end.

Definition notAuthenticated : string := "로그인이 필요합니다.".
Definition notSynced : string :=
  "사용자 정보를 찾을 수 없습니다. 먼저 로그인해주세요.".
Definition contentIdRequired : string := "관광지 ID가 필요합니다.".

Section WithClient.

(** [createClerkSupabaseClient()] of lib/supabase/server.ts: building the
    client touches nothing; the client it returns is a parameter. *)
Variable createClerkSupabaseClient : SupabaseClient.

(** the [catch] clause of each action: an [Error] is thrown again as it
    is, anything else is replaced by the action's own message *)
Definition rethrow {A} (fallback : string) (error : Thrown) : M A :=
  if instanceofError error then throw error
  else throw (Error fallback).

Definition getBookmarksAction : M (list Bookmark.t) :=
  catch
    (clerkUserId <- auth ;;
     if missing clerkUserId then throw (Error notAuthenticated)
     else
       let supabase := createClerkSupabaseClient in
       supabaseUserId <- getSupabaseUserId supabase (orEmpty clerkUserId) ;;
       if missing supabaseUserId then throw (Error notSynced)
       else
         bookmarks <- getBookmarks supabase (orEmpty supabaseUserId) ;;
         ret bookmarks)
    (rethrow "북마크 목록을 가져오는 중 오류가 발생했습니다.").

(** [!contentId || typeof contentId !== "string" || contentId.trim() === ""]
    at the declared type [string] *)
Definition invalidContentId (contentId : string) : bool :=
  String.eqb contentId "" || String.eqb (trim contentId) "".

Definition addBookmarkAction (contentId : string) : M Bookmark.t :=
  catch
    (if invalidContentId contentId then throw (Error contentIdRequired)
     else
       clerkUserId <- auth ;;
       if missing clerkUserId then throw (Error notAuthenticated)
       else
         let supabase := createClerkSupabaseClient in
         supabaseUserId <- getSupabaseUserId supabase (orEmpty clerkUserId) ;;
         if missing supabaseUserId then throw (Error notSynced)
         else
           bookmark <- addBookmark supabase (orEmpty supabaseUserId) contentId ;;
           ret bookmark)
    (rethrow "북마크를 추가하는 중 오류가 발생했습니다.").

Definition removeBookmarkAction (contentId : string) : M Removed :=
  catch
    (if invalidContentId contentId then throw (Error contentIdRequired)
     else
       clerkUserId <- auth ;;
       if missing clerkUserId then throw (Error notAuthenticated)
       else
         let supabase := createClerkSupabaseClient in
         supabaseUserId <- getSupabaseUserId supabase (orEmpty clerkUserId) ;;
         if missing supabaseUserId then throw (Error notSynced)
         else
           result <- removeBookmark supabase (orEmpty supabaseUserId) contentId ;;
           ret result)
    (rethrow "북마크를 삭제하는 중 오류가 발생했습니다.").

End WithClient.

End Actions.

(* ================================================================== *)
(** * The two pages that fan out over the tourism API *)
(* ================================================================== *)

Module Pages.

Import Store Supabase Async TourApi.

(** what leaves a server component abruptly: a thrown value, or one of
    the framework's control-flow errors.  [notFound()] throws an [Error]
    carrying a digest; it is kept apart from ordinary errors. *)
Inductive Exn : Type :=
| Js (e : Thrown)
| NotFoundError                              (* thrown by notFound() *)
| RedirectError.                             (* thrown by a redirect *)

(** [err instanceof Error] *)
Definition isError (x : Exn) : bool :=
  match x with
  | Js e => instanceofError e
  | NotFoundError | RedirectError => true
  end.

Inductive Completion (V : Type) : Type :=
| Returns (view : V)
| Throws (x : Exn).
Arguments Returns {V} view.
Arguments Throws {V} x.

(** [a || b] for an optional string [a] *)
Definition orElse (a : option string) (b : string) : string :=
  match a with
  | Some s => if String.eqb s "" then b else s
  | None => b
  end.

(** what [PlaceDetailPage] hands to its three components *)
Record DetailView : Type := mkDetailView {
  detail : TourDetail.t;
  intro : option TourIntro.t;
  images : option (list TourImage.t)
}.

(** what [BookmarksPage] renders *)
Record BookmarksView : Type := mkBookmarksView {
  bookmarks : list Bookmark.t;
  tours : list TourItem.t;
  listShown : bool          (* bookmarks.length > 0 && tours.length > 0 *)
}.

(** [array.filter(x => x !== null)] *)
Fixpoint nonNull {A} (l : list (option A)) : list A :=
  match l with
  | [] => []
  | Some a :: rest => a :: nonNull rest
  | None :: rest => nonNull rest
  end.

Section WithEnvironment.

Variable toLowerCase : string -> string.
Variable env : Env.

(** ** app/places/[contentId]/page.tsx *)

(** the object literal assigned to [detail] *)
Definition toDetail (item : TourDetail.t) : TourDetail.t :=
  {| TourDetail.contentid := TourDetail.contentid item;
     TourDetail.contenttypeid := TourDetail.contenttypeid item;
     TourDetail.title := TourDetail.title item;
     TourDetail.addr1 := TourDetail.addr1 item;
     TourDetail.addr2 := TourDetail.addr2 item;
     TourDetail.zipcode := TourDetail.zipcode item;
     TourDetail.tel := TourDetail.tel item;
     TourDetail.homepage := TourDetail.homepage item;
     TourDetail.overview := TourDetail.overview item;
     TourDetail.firstimage := TourDetail.firstimage item;
     TourDetail.firstimage2 := TourDetail.firstimage2 item;
     TourDetail.mapx := TourDetail.mapx item;
     TourDetail.mapy := TourDetail.mapy item;
     TourDetail.cat1 := TourDetail.cat1 item;
     TourDetail.cat2 := TourDetail.cat2 item;
     TourDetail.cat3 := TourDetail.cat3 item;
     TourDetail.cpyrhtDivCd := TourDetail.cpyrhtDivCd item;
     TourDetail.modifiedtime := TourDetail.modifiedtime item |}.

(** the inner [try] around [detailIntro2]; its [catch] only warns *)
Definition fetchIntro (net : Network (Body TourIntro.t)) (item : TourDetail.t)
  : option TourIntro.t :=
  match fst (detailIntro2 toLowerCase env net
               (TourDetail.contentid item) (TourDetail.contenttypeid item)) with
  | Ok introResponse =>
      match itemsOf introResponse with
      | Some (Many (introItem :: _)) =>
          Some (TourIntro.spread
                  [ ("contentid",
                     orElse (TourIntro.get "contentid" introItem)
                            (TourDetail.contentid item));
                    ("contenttypeid",
                     orElse (TourIntro.get "contenttypeid" introItem)
                            (TourDetail.contenttypeid item)) ]
                  introItem)
      | Some (One _) => None     (* [introItems.length > 0] is false *)
      | _ => None
      end
  | Throw introErr => None
  end.

(** the inner [try] around [detailImage2]; its [catch] only warns *)
Definition fetchImages (net : Network (Body TourImage.t)) (item : TourDetail.t)
  : option (list TourImage.t) :=
  match fst (detailImage2 toLowerCase env net (TourDetail.contentid item)) with
  | Ok imageResponse =>
      match itemsOf imageResponse with
      | Some (Many ((_ :: _) as imageItems)) =>
          Some (map (fun img =>
                  {| TourImage.contentid :=
                       orElse (Some (TourImage.contentid img))
                              (TourDetail.contentid item);
                     TourImage.originimgurl := TourImage.originimgurl img;
                     TourImage.serialnum := TourImage.serialnum img;
                     TourImage.smallimageurl := TourImage.smallimageurl img;
                     TourImage.imgname := TourImage.imgname img |})
                  imageItems)
      | Some (One _) => None     (* [imageItems.length > 0] is false *)
      | _ => None
      end
  | Throw imageErr => None
  end.

(** the [TypeError] of the engine for [item.contentid] on an [item] that
    is [undefined] *)
Definition readOfUndefined (property : string) : Thrown :=
  TypeError ("Cannot read properties of undefined (reading '" ++ property ++ "')").

(** the outer [try] block *)
Definition loadDetail
  (netCommon : Network (Body TourDetail.t))
  (netIntro : Network (Body TourIntro.t))
  (netImage : Network (Body TourImage.t))
  (contentId : string) : Completion DetailView :=
  match fst (detailCommon2 toLowerCase env netCommon contentId) with
  | Throw err => Throws (Js err)
  | Ok response =>
      match itemsOf response with
      | Some (Many (item :: _)) =>
          Returns {| detail := toDetail item;
                     intro := fetchIntro netIntro item;
                     images := fetchImages netImage item |}
      | Some (One _) =>
          (* [items.length === 0] is false and [items[0]] is [undefined]:
             the object literal throws on its first field *)
          Throws (Js (readOfUndefined "contentid"))
      | _ => Throws NotFoundError              (* notFound() *)
      end
  end.

Definition PlaceDetailPage
  (netCommon : Network (Body TourDetail.t))
  (netIntro : Network (Body TourIntro.t))
  (netImage : Network (Body TourImage.t))
  (contentId : string) : Completion DetailView :=
  if blank contentId then Throws NotFoundError
  else
    match loadDetail netCommon netIntro netImage contentId with
    | Throws err =>
        (* catch (err) { error = ... }  if (error) { throw error } *)
        Throws (if isError err then err
                else Js (Error "관광지 정보를 불러오는 중 오류가 발생했습니다."))
    | Returns view => Returns view
    end.

(** ** app/bookmarks/page.tsx *)

Variable createClerkSupabaseClient : SupabaseClient.

(** [redirectToSignIn()] of Clerk: whether it returns or throws is the
    library's business *)
Variable redirectToSignIn : Completion unit.

(** the object literal assigned to [tourItem] *)
Definition toTourItem (item : TourDetail.t) : TourItem.t :=
  {| TourItem.contentid := TourDetail.contentid item;
     TourItem.contenttypeid := TourDetail.contenttypeid item;
     TourItem.title := TourDetail.title item;
     TourItem.addr1 := TourDetail.addr1 item;
     TourItem.addr2 := TourDetail.addr2 item;
     TourItem.areacode := "";
     TourItem.mapx := TourDetail.mapx item;
     TourItem.mapy := TourDetail.mapy item;
     TourItem.firstimage := TourDetail.firstimage item;
     TourItem.firstimage2 := TourDetail.firstimage2 item;
     TourItem.tel := TourDetail.tel item;
     TourItem.cat1 := TourDetail.cat1 item;
     TourItem.cat2 := TourDetail.cat2 item;
     TourItem.cat3 := TourDetail.cat3 item;
     TourItem.modifiedtime := TourDetail.modifiedtime item |}.

(** the body of the callback given to [bookmarks.map]: its own [try],
    whose [catch] warns and answers [null] *)
Definition fetchTour (net : Network (Body TourDetail.t)) (bookmark : Bookmark.t)
  : option TourItem.t :=
  match fst (detailCommon2 toLowerCase env net (Bookmark.content_id bookmark)) with
  | Ok response =>
      match itemsOf response with
      | Some (Many (item :: _)) => Some (toTourItem item)
      | Some (One _) =>
          (* [items[0]] is [undefined]: [item.contentid] throws a
             [TypeError], which the [catch] turns into [null] *)
          None
      | _ => None
      end
  | Throw err => None
  end.

(** [await Promise.all(bookmarks.map(async bookmark => ...))] followed by
    the filter: no branch rejects, and the branches share nothing, so the
    results are those of the branches taken one by one, in order.  Each
    branch sees the network of its own request. *)
Definition fetchTours (nets : Bookmark.t -> Network (Body TourDetail.t))
  (bookmarks : list Bookmark.t) : list TourItem.t :=
  let tourResults := map (fun bookmark => fetchTour (nets bookmark) bookmark) bookmarks in
  nonNull tourResults.

Definition BookmarksPage (nets : Bookmark.t -> Network (Body TourDetail.t))
  : World -> Completion BookmarksView * World :=
  fun w0 =>
    match auth w0 with
    | (Throw e, w1) => (Throws (Js e), w1)
    | (Ok userId, w1) =>
        match (if Actions.missing userId then redirectToSignIn else Returns tt) with
        | Throws x => (Throws x, w1)
        | Returns _ =>
            (* try { ... } catch (err) { error = ... } *)
            let (r, w2) := Actions.getBookmarksAction createClerkSupabaseClient w1 in
            let '(bookmarks, tours, error) :=
              match r with
              | Ok bookmarks =>
                  if (List.length bookmarks =? 0)%nat then (bookmarks, [], None)
                  else (bookmarks, fetchTours nets bookmarks, None)
              | Throw err =>
                  ([], [],
                   Some (if instanceofError err then err
                         else Error "북마크 목록을 불러오는 중 오류가 발생했습니다."))
              end in
            (* if (error) { tours = [] } *)
            let tours := match error with Some _ => [] | None => tours end in
            (Returns {| bookmarks := bookmarks;
                        tours := tours;
                        listShown := (0 <? List.length bookmarks)%nat
                                     && (0 <? List.length tours)%nat |},
             w2)
        end
    end.

End WithEnvironment.

End Pages.

(* ================================================================== *)
(** * Reference objects for the statements below *)
(* ================================================================== *)

Module Reference.

Import TourApi.

(** the events of [k] attempts in a row starting at [attempt]: a fetch,
    and before every further fetch the pause computed after the failed
    one *)
Fixpoint schedule (attempt k : nat) : list Event :=
  match k with
  | O => []
  | S k' =>
      match k' with
      | O => [Fetch attempt]
      | S _ => Fetch attempt :: Sleep (backoff attempt) :: schedule (S attempt) k'
      end
  end.

(** a server-side environment with its API key *)
Definition serverEnv : Env :=
  {| isBrowser := false;
     TOUR_API_KEY := Some "key";
     NEXT_PUBLIC_TOUR_API_KEY := None |}.

(** a server that answers every request with the same status *)
Definition always {B} (code : Z) : Network B :=
  fun _ => Responded {| status := code; statusText := ""; json := Throw (Error "no body") |}.

(** a server that fails with 500 before attempt [n] and answers [code]
    from then on *)
Definition failingUntil {B} (n : nat) (code : Z) : Network B :=
  fun attempt => if (attempt <? n)%nat then always 500 attempt else always code attempt.

(** a server that answers 200 and result code 0000 with the given items *)
Definition serving {T} (l : list T) : Network (Body T) :=
  fun _ =>
    Responded
      {| status := 200;
         statusText := "OK";
         json :=
           Ok {| response :=
                   Some {| header := Some {| resultCode := "0000"; resultMsg := "OK" |};
                           body :=
                             Some {| items := Some {| item := Some (Many l) |} |} |} |} |}.

(** the body of an answer with result code 0000 and the given [item] *)
Definition serving_answer {T} (i : ItemField T) : Result (Data (Body T)) :=
  Ok {| response :=
          Some {| header := Some {| resultCode := "0000"; resultMsg := "OK" |};
                  body := Some {| items := Some {| item := Some i |} |} |} |}.

(** the error thrown by [fetchTourAPI] on HTTP 401 and 403 *)
Definition authenticationFailure : Thrown :=
  Error "API 인증 실패: API 키를 확인해주세요.".

(** the error thrown by [addBookmark] on a unique violation *)
Definition duplicateBookmark : Thrown := Error "이미 북마크한 관광지입니다.".

(** a store with one synced user and one bookmark *)
Definition alice : Store.User :=
  {| Store.id := "7f9c2f6e-0001";
     Store.clerk_id := "user_2abc";
     Store.name := "Alice";
     Store.created_at := 0 |}.

Definition gyeongbokgung : Bookmark.t :=
  {| Bookmark.id := "b-0001";
     Bookmark.user_id := "7f9c2f6e-0001";
     Bookmark.content_id := "125266";
     Bookmark.created_at := 10 |}.

(** a second bookmark of the sample user, for a place the provider fails on *)
Definition namsan : Bookmark.t :=
  {| Bookmark.id := "b-0003";
     Bookmark.user_id := "7f9c2f6e-0001";
     Bookmark.content_id := "126535";
     Bookmark.created_at := 30 |}.

Definition sampleDb : Store.Db :=
  {| Store.users := [alice]; Store.bookmarks := [gyeongbokgung] |}.

(** a request made under Clerk identity [clerkId], or under none *)
Definition world (clerkId : option string) (d : Store.Db) : Store.World :=
  {| Store.session := clerkId; Store.db := d; Store.calls := [] |}.

(** column defaults for the examples *)
Definition sample_uuid (d : Store.Db) : string := "b-0002".
Definition sample_now (d : Store.Db) : Z :=
  20 + Z.of_nat (List.length (Store.bookmarks d)).

(** a place, its answer from [detailCommon2], and an image of it *)
Definition palace : TourDetail.t :=
  {| TourDetail.contentid := "125266";
     TourDetail.contenttypeid := "12";
     TourDetail.title := "경복궁";
     TourDetail.addr1 := "서울특별시 종로구 사직로 161";
     TourDetail.addr2 := None;
     TourDetail.zipcode := Some "03045";
     TourDetail.tel := None;
     TourDetail.homepage := None;
     TourDetail.overview := None;
     TourDetail.firstimage := None;
     TourDetail.firstimage2 := None;
     TourDetail.mapx := "126.9769930325";
     TourDetail.mapy := "37.5788222356";
     TourDetail.cat1 := Some "A02";
     TourDetail.cat2 := Some "A0201";
     TourDetail.cat3 := Some "A02010100";
     TourDetail.cpyrhtDivCd := None;
     TourDetail.modifiedtime := "20250101000000" |}.

Definition palaceImage : TourImage.t :=
  {| TourImage.contentid := "125266";
     TourImage.originimgurl := Some "http://tong.visitkorea.or.kr/cms/1.jpg";
     TourImage.serialnum := "1";
     TourImage.smallimageurl := None;
     TourImage.imgname := None |}.

(** the provider answers for the palace and is down for everything else *)
Definition palaceOnly (bookmark : Bookmark.t) : Network (Body TourDetail.t) :=
  if String.eqb (Bookmark.content_id bookmark) "125266"
  then serving [palace] else always 503.

End Reference.

(* ================================================================== *)
(** * More sample data *)
(* ================================================================== *)

Module Samples.

(** a second synced user, who bookmarked the same palace *)
Definition bob : Store.User :=
  {| Store.id := "7f9c2f6e-0002";
     Store.clerk_id := "user_2bob";
     Store.name := "Bob";
     Store.created_at := 5 |}.

Definition bobsPalace : Bookmark.t :=
  {| Bookmark.id := "b-0009";
     Bookmark.user_id := "7f9c2f6e-0002";
     Bookmark.content_id := "125266";
     Bookmark.created_at := 15 |}.

Definition sharedDb : Store.Db :=
  {| Store.users := [Reference.alice; bob];
     Store.bookmarks := [Reference.gyeongbokgung; bobsPalace] |}.

Definition pg : Supabase.SupabaseClient :=
  Supabase.postgres Reference.sample_uuid Reference.sample_now.

(** a server that answers 200 and result code 0000 with a single result,
    sent as the object itself *)
Definition servingOne {T} (x : T) : TourApi.Network (TourApi.Body T) :=
  fun _ =>
    TourApi.Responded
      {| TourApi.status := 200;
         TourApi.statusText := "OK";
         TourApi.json :=
           Ok {| TourApi.response :=
                   Some {| TourApi.header :=
                             Some {| TourApi.resultCode := "0000";
                                     TourApi.resultMsg := "OK" |};
                           TourApi.body :=
                             Some {| TourApi.items :=
                                       Some {| TourApi.item :=
                                                 Some (TourApi.One x) |} |} |} |} |}.

(** the provider answers for the palace, as a single object, and is down
    for everything else *)
Definition palaceAlone (bookmark : Bookmark.t)
  : TourApi.Network (TourApi.Body TourDetail.t) :=
  if String.eqb (Bookmark.content_id bookmark) "125266"
  then servingOne Reference.palace else Reference.always 503.

(** a 200 response whose envelope reports the given provider code *)
Definition reporting (code : string) : TourApi.HttpResponse unit :=
  {| TourApi.status := 200;
     TourApi.statusText := "OK";
     TourApi.json :=
       Ok {| TourApi.response :=
               Some {| TourApi.header :=
                         Some {| TourApi.resultCode := code;
                                 TourApi.resultMsg := "" |};
                       TourApi.body := None |} |} |}.

End Samples.

(* ================================================================== *)
(** * The steps an action takes before it calls its helper *)
(* ================================================================== *)

(** The three actions open alike: [auth()], the lookup of the internal
    user, the two tests.  [resolution] names where that prefix ends; it is
    used to state what the actions do, not to define them. *)

Module ActionSteps.

Import Store Supabase Async.

Inductive Resolution : Type :=
| Unauthenticated
| Unsynced
| Resolved (supabaseUserId : string).

Definition resolution (client : SupabaseClient) (w : World) : Resolution :=
  if Actions.missing (session w) then Unauthenticated
  else
    match fst (SupabaseApi.getSupabaseUserId client
                 (Actions.orEmpty (session w)) (record AuthCall w)) with
    | Ok found =>
        if Actions.missing found then Unsynced
        else Resolved (Actions.orEmpty found)
    | Throw _ => Unsynced
    end.

(** the world once [auth()] and the lookup have been recorded *)
Definition lookedUp (w : World) : World :=
  record (DbCall "users" "select") (record AuthCall w).

End ActionSteps.

(* ================================================================== *)
(** * lib/api/tour-api.ts: the request of each endpoint *)
(* ================================================================== *)

(** What [fetchTourAPI] does before its loop, and what each exported
    function hands to it.  Both revisions of the file agree on this part,
    up to the wording of the validation errors (the later revision is
    followed). *)

Module TourApiRequest.

Import TourApi.

(** a value of [Record<string, string | number | undefined>]; numbers are
    the integers the callers pass (page numbers, page sizes) *)
Inductive ParamValue : Type :=
| PStr (s : string)
| PNum (n : Z).

(** an object as its own properties in insertion order, keys distinct *)
Definition Object (V : Type) : Type := list (string * V).

Fixpoint getKey {V} (k : string) (o : Object V) : option V :=
  match o with
  | [] => None
  | (k', v) :: rest => if String.eqb k k' then Some v else getKey k rest
  end.

(** [o[k] = v]: an existing key keeps its place *)
Fixpoint assign {V} (k : string) (v : V) (o : Object V) : Object V :=
  match o with
  | [] => [(k, v)]
  | (k', v') :: rest =>
      if String.eqb k k' then (k, v) :: rest else (k', v') :: assign k v rest
  end.

(** [{ ...target, ...source }] *)
Definition spread {V} (target source : Object V) : Object V :=
  fold_left (fun acc kv => assign (fst kv) (snd kv) acc) source target.

(** [if (value) params[k] = value] for an optional string *)
Definition assignIfTruthy (k : string) (value : option string)
  (o : Object (option ParamValue)) : Object (option ParamValue) :=
  match value with
  | Some s => if String.eqb s "" then o else assign k (Some (PStr s)) o
  | None => o
  end.

Definition BASE_URL : string := "https://apis.data.go.kr/B551011/KorService2".

Definition DEFAULT_PARAMS : Object string :=
  [ ("MobileOS", "ETC"); ("MobileApp", "MyTrip"); ("_type", "json") ].

(** [String(value)], as [URLSearchParams] applies it to each value *)
Definition render (v : ParamValue) : string :=
  match v with
  | PStr s => s
  | PNum n => TourApiEarlier.decimal n
  end.

(** [Object.fromEntries(Object.entries(params)
       .filter(([_, value]) => value !== undefined))] *)
Fixpoint defined (params : Object (option ParamValue)) : Object string :=
  match params with
  | [] => []
  | (k, Some v) :: rest => (k, render v) :: defined rest
  | (_, None) :: rest => defined rest
  end.

(** the entries of
    [new URLSearchParams({ ...DEFAULT_PARAMS, serviceKey: apiKey, ...defined })] *)
Definition queryParams (apiKey : string) (params : Object (option ParamValue))
  : Object string :=
  spread (assign "serviceKey" apiKey DEFAULT_PARAMS) (defined params).

(** ** [URLSearchParams.prototype.toString]: the
    application/x-www-form-urlencoded serializer, over UTF-8 bytes *)

Definition hexDigit (n : nat) : ascii :=
  if (n <? 10)%nat then ascii_of_nat (48 + n) else ascii_of_nat (55 + n).

(** bytes left as they are: [*], [-], [.], [_], digits and ASCII letters *)
Definition urlSafe (c : ascii) : bool :=
  let n := nat_of_ascii c in
  (n =? 42)%nat || (n =? 45)%nat || (n =? 46)%nat || (n =? 95)%nat
  || ((48 <=? n)%nat && (n <=? 57)%nat)
  || ((65 <=? n)%nat && (n <=? 90)%nat)
  || ((97 <=? n)%nat && (n <=? 122)%nat).

Fixpoint urlencode (s : string) : string :=
  match s with
  | EmptyString => EmptyString
  | String c rest =>
      let n := nat_of_ascii c in
      if urlSafe c then String c (urlencode rest)
      else if (n =? 32)%nat then String "+" (urlencode rest)
      else String "%" (String (hexDigit (n / 16))
                         (String (hexDigit (n mod 16)) (urlencode rest)))
  end.

Fixpoint serialize (q : Object string) : string :=
  match q with
  | [] => ""
  | [(k, v)] => urlencode k ++ "=" ++ urlencode v
  | (k, v) :: rest => urlencode k ++ "=" ++ urlencode v ++ "&" ++ serialize rest
  end.

(** [`${BASE_URL}${endpoint}?${queryParams.toString()}`] *)
Definition url (apiKey endpoint : string) (params : Object (option ParamValue))
  : string :=
  BASE_URL ++ endpoint ++ "?" ++ serialize (queryParams apiKey params).

(** a call of [fetchTourAPI(endpoint, params)]: the URL it will fetch, if
    it gets as far as fetching *)
Record Request : Type := mkRequest {
  endpoint : string;
  params : Object (option ParamValue)
}.

Definition requestUrl (env : Env) (r : Request) : Result string :=
  bind (getApiKey env) (fun apiKey => Ok (url apiKey (endpoint r) (params r))).

(** ** The exported functions, up to their call of [fetchTourAPI] *)

Definition areaCode2 (areaCode : option string) : Result Request :=
  Ok {| endpoint := "/areaCode2";
        params := assignIfTruthy "areaCode" areaCode [] |}.

Record ListOptions : Type := mkListOptions {
  areaCode : option string;
  contentTypeId : option string;
  numOfRows : option Z;
  pageNo : option Z;
  sigunguCode : option string;
  cat1 : option string;
  cat2 : option string;
  cat3 : option string
}.

(** a destructuring default, [{ x = d } = options] *)
Definition orDefault {A} (x : option A) (d : A) : A :=
  match x with Some a => a | None => d end.

Definition areaBasedList2 (options : ListOptions) : Result Request :=
  let params :=
    [ ("numOfRows", Some (PNum (orDefault (numOfRows options) 20%Z)));
      ("pageNo", Some (PNum (orDefault (pageNo options) 1%Z))) ] in
  let params := assignIfTruthy "areaCode" (areaCode options) params in
  let params := assignIfTruthy "contentTypeId" (contentTypeId options) params in
  let params := assignIfTruthy "sigunguCode" (sigunguCode options) params in
  let params := assignIfTruthy "cat1" (cat1 options) params in
  let params := assignIfTruthy "cat2" (cat2 options) params in
  let params := assignIfTruthy "cat3" (cat3 options) params in
  Ok {| endpoint := "/areaBasedList2"; params := params |}.

Record SearchOptions : Type := mkSearchOptions {
  keyword : string;
  s_areaCode : option string;
  s_contentTypeId : option string;
  s_numOfRows : option Z;
  s_pageNo : option Z;
  listYN : option string;
  arrange : option string;
  s_cat1 : option string;
  s_cat2 : option string;
  s_cat3 : option string
}.

Definition searchKeyword2 (options : SearchOptions) : Result Request :=
  if blank (keyword options) then Throw (Error "검색어를 입력해주세요.")
  else
    let params :=
      [ ("keyword", Some (PStr (trim (keyword options))));
        ("numOfRows", Some (PNum (orDefault (s_numOfRows options) 20%Z)));
        ("pageNo", Some (PNum (orDefault (s_pageNo options) 1%Z)));
        ("listYN", Some (PStr (orDefault (listYN options) "Y"))) ] in
    let params := assignIfTruthy "areaCode" (s_areaCode options) params in
    let params := assignIfTruthy "contentTypeId" (s_contentTypeId options) params in
    let params := assignIfTruthy "arrange" (arrange options) params in
    let params := assignIfTruthy "cat1" (s_cat1 options) params in
    let params := assignIfTruthy "cat2" (s_cat2 options) params in
    let params := assignIfTruthy "cat3" (s_cat3 options) params in
    Ok {| endpoint := "/searchKeyword2"; params := params |}.

Definition detailCommon2 (contentId : string) : Result Request :=
  if blank contentId then Throw (Error "관광지 정보를 찾을 수 없습니다.")
  else Ok {| endpoint := "/detailCommon2";
             params := [("contentId", Some (PStr (trim contentId)))] |}.

Definition detailIntro2 (contentId contentTypeId : string) : Result Request :=
  if blank contentId then Throw (Error "관광지 정보를 찾을 수 없습니다.")
  else if blank contentTypeId then Throw (Error "관광지 정보를 찾을 수 없습니다.")
  else Ok {| endpoint := "/detailIntro2";
             params := [ ("contentId", Some (PStr (trim contentId)));
                         ("contentTypeId", Some (PStr (trim contentTypeId))) ] |}.

Definition detailImage2 (contentId : string) : Result Request :=
  if blank contentId then Throw (Error "관광지 정보를 찾을 수 없습니다.")
  else Ok {| endpoint := "/detailImage2";
             params := [("contentId", Some (PStr (trim contentId)))] |}.

End TourApiRequest.

(* ================================================================== *)
(** * Measures of a run of [fetchTourAPI] *)
(* ================================================================== *)

Module Trace.

Import TourApi.

(** how many times [fetch] was called *)
Fixpoint fetchCount (events : list Event) : nat :=
  match events with
  | [] => 0
  | Fetch _ :: rest => S (fetchCount rest)
  | Sleep _ :: rest => fetchCount rest
  end.

(** the time spent in [setTimeout], in milliseconds *)
Fixpoint totalPause (events : list Event) : Z :=
  match events with
  | [] => 0
  | Fetch _ :: rest => totalPause rest
  | Sleep ms :: rest => ms + totalPause rest
  end.

End Trace.

(** * Measures on a serialized query *)

Module UrlText.

(** how often a character occurs in a string *)
Fixpoint count (c : ascii) (s : string) : nat :=
  match s with
  | EmptyString => 0
  | String c' rest => (if Ascii.eqb c c' then 1 else 0) + count c rest
  end.

(** an optional text as [if (value)] sees it: given and not empty, or not *)
Definition given (value : option string) : option string :=
  match value with
  | Some s => if String.eqb s "" then None else Some s
  | None => None
  end.

(** the parameter names the exported functions of tour-api.ts use *)
Definition parameterNames : list string :=
  [ "keyword"; "numOfRows"; "pageNo"; "listYN"; "areaCode"; "contentTypeId";
    "sigunguCode"; "arrange"; "cat1"; "cat2"; "cat3"; "contentId" ].

End UrlText.

(** * components/pagination.tsx

    [currentPage] and [totalPages] are page counts: integers. *)

Module Pagination.

Local Open Scope Z_scope.
Local Open Scope list_scope.

(** the component renders nothing: [if (totalPages <= 1) return null] *)
Definition hidden (totalPages : Z) : bool := totalPages <=? 1.

(** the values of [i] in [for (let i = start; i <= end; i++)] *)
Fixpoint upFrom (start : Z) (n : nat) : list Z :=
  match n with
  | O => []
  | S n' => start :: upFrom (start + 1) n'
  end.

Definition range (start end_ : Z) : list Z :=
  upFrom start (Z.to_nat (end_ + 1 - start)).

(** [Array.from(new Set(pages))]: the first occurrence of each number, in
    order *)
Fixpoint unique (seen pages : list Z) : list Z :=
  match pages with
  | [] => []
  | p :: rest =>
      if existsb (Z.eqb p) seen then unique seen rest
      else p :: unique (p :: seen) rest
  end.

(** [.sort((a, b) => a - b)] on numbers that are pairwise different *)
Fixpoint insert (p : Z) (sorted : list Z) : list Z :=
  match sorted with
  | [] => [p]
  | q :: rest => if p <=? q then p :: sorted else q :: insert p rest
  end.

Definition sort (pages : list Z) : list Z := fold_right insert [] pages.

(** the last loop: [-1] stands for an ellipsis between two numbers that
    do not follow each other *)
Fixpoint withEllipses (uniquePages : list Z) : list Z :=
  match uniquePages with
  | [] => []
  | p :: rest =>
      match rest with
      | [] => [p]
      | next :: _ =>
          if next - p >? 1 then p :: -1 :: withEllipses rest
          else p :: withEllipses rest
      end
  end.

Definition getPageNumbers (currentPage totalPages : Z) : list Z :=
  let maxVisible := 5 in
  if totalPages <=? maxVisible then range 1 totalPages
  else
    let pages := [1] in
    let start := Z.max 2 (currentPage - 1) in
    let end_ := Z.min (totalPages - 1) (currentPage + 1) in
    let '(start, end_) :=
      if currentPage <=? 3 then (2, Z.min 5 (totalPages - 1)) else (start, end_) in
    let '(start, end_) :=
      if currentPage >=? totalPages - 2
      then (Z.max 2 (totalPages - 4), totalPages - 1) else (start, end_) in
    let pages :=
      pages ++ filter (fun i => negb (i =? 1) && negb (i =? totalPages))
                 (range start end_) in
    let pages := if totalPages >? 1 then pages ++ [totalPages] else pages in
    withEllipses (sort (unique [] pages)).

(** the page each handler passes to [onPageChange], if it calls it *)
Definition handlePrevious (currentPage : Z) : option Z :=
  if currentPage >? 1 then Some (currentPage - 1) else None.

Definition handleNext (currentPage totalPages : Z) : option Z :=
  if currentPage <? totalPages then Some (currentPage + 1) else None.

Definition handlePageClick (totalPages page : Z) : option Z :=
  if (page >? 0) && (page <=? totalPages) then Some page else None.

(** the entries rendered as buttons: [page === -1] is rendered as text *)
Definition buttons (pageNumbers : list Z) : list Z :=
  filter (fun page => negb (page =? -1)) pageNumbers.

End Pagination.

(** * lib/utils/env-validation.ts and middleware.ts *)

Module EnvValidation.

Record EnvVariable : Type := mkEnvVariable {
  name : string;
  description : string;
  isPublic : bool;
  required : bool;
  serverOnly : option bool                       (* serverOnly?: boolean *)
}.

(** [v.serverOnly] as a condition *)
Definition isServerOnly (v : EnvVariable) : bool :=
  match serverOnly v with
  | Some b => b
  | None => false
  end.

Definition REQUIRED_ENV_VARIABLES : list EnvVariable :=
  [ {| name := "NEXT_PUBLIC_CLERK_PUBLISHABLE_KEY";
       description := "Clerk 인증 공개 키 (클라이언트 노출 가능)";
       isPublic := true; required := true; serverOnly := None |};
    {| name := "CLERK_SECRET_KEY";
       description := "Clerk 인증 비밀 키 (서버 전용)";
       isPublic := false; required := true; serverOnly := Some true |};
    {| name := "NEXT_PUBLIC_SUPABASE_URL";
       description := "Supabase 프로젝트 URL (클라이언트 노출 가능)";
       isPublic := true; required := true; serverOnly := None |};
    {| name := "NEXT_PUBLIC_SUPABASE_ANON_KEY";
       description := "Supabase Anon 키 (클라이언트 노출 가능)";
       isPublic := true; required := true; serverOnly := None |};
    {| name := "SUPABASE_SERVICE_ROLE_KEY";
       description := "Supabase Service Role 키 (서버 전용)";
       isPublic := false; required := true; serverOnly := Some true |};
    {| name := "NEXT_PUBLIC_STORAGE_BUCKET";
       description := "Supabase Storage 버킷 이름 (클라이언트 노출 가능)";
       isPublic := true; required := true; serverOnly := None |};
    {| name := "NEXT_PUBLIC_TOUR_API_KEY";
       description := "한국관광공사 API 키 (클라이언트 노출 가능, 기본 사용)";
       isPublic := true; required := false; serverOnly := None |};
    {| name := "TOUR_API_KEY";
       description := "한국관광공사 API 키 (서버 전용, NEXT_PUBLIC_TOUR_API_KEY 대체용)";
       isPublic := false; required := false; serverOnly := Some true |};
    {| name := "NEXT_PUBLIC_NAVER_MAP_CLIENT_ID";
       description := "네이버 지도 API 클라이언트 ID (클라이언트 노출 가능)";
       isPublic := true; required := true; serverOnly := None |} ].

(** [process.env]: a variable is a string or is not set *)
Definition ProcessEnv : Type := string -> option string.

(** [value] as a condition, for a [string | undefined] *)
Definition isSet (value : option string) : bool :=
  match value with
  | Some s => negb (String.eqb s "")
  | None => false
  end.

(** [name.startsWith(prefix)] *)
Definition startsWith (s prefix : string) : bool := String.prefix prefix s.

Record ValidationResult : Type := mkValidationResult {
  isValid : bool;
  missing : list EnvVariable;
  invalidPrefix : list EnvVariable;
  warnings : list string
}.

Section WithProcessEnv.

Variable env : ProcessEnv.

(** the first [for] loop, with the two arrays it pushes to *)
Fixpoint checkEach (variablesToCheck missing invalidPrefix : list EnvVariable)
  : list EnvVariable * list EnvVariable :=
  match variablesToCheck with
  | [] => (missing, invalidPrefix)
  | envVar :: rest =>
      let value := env (name envVar) in
      if required envVar && negb (isSet value) then
        checkEach rest (missing ++ [envVar])%list invalidPrefix       (* continue *)
      else
        let invalidPrefix :=
          if isServerOnly envVar && startsWith (name envVar) "NEXT_PUBLIC_"
          then (invalidPrefix ++ [envVar])%list else invalidPrefix in
        let invalidPrefix :=
          if isSet value && isServerOnly envVar
             && startsWith (name envVar) "NEXT_PUBLIC_"
          then (invalidPrefix ++ [envVar])%list else invalidPrefix in
        checkEach rest missing invalidPrefix
  end.

(** the second [for] loop, over the server-only variables *)
Fixpoint checkExposed (serverOnlyVars invalidPrefix : list EnvVariable)
  : list EnvVariable :=
  match serverOnlyVars with
  | [] => invalidPrefix
  | envVar :: rest =>
      checkExposed rest
        (if startsWith (name envVar) "NEXT_PUBLIC_"
         then (invalidPrefix ++ [envVar])%list else invalidPrefix)
  end.

Definition validateEnvVariables (isServer : bool) : ValidationResult :=
  let variablesToCheck :=
    if isServer then REQUIRED_ENV_VARIABLES
    else filter (fun v => negb (isServerOnly v)) REQUIRED_ENV_VARIABLES in
  let '(missing, invalidPrefix) := checkEach variablesToCheck [] [] in
  let tourApiKeyPublic := env "NEXT_PUBLIC_TOUR_API_KEY" in
  let tourApiKeyServer := env "TOUR_API_KEY" in
  let warnings :=
    if negb (isSet tourApiKeyPublic) && negb (isSet tourApiKeyServer) then
      [ "한국관광공사 API 키가 누락되었습니다. NEXT_PUBLIC_TOUR_API_KEY 또는 TOUR_API_KEY 중 하나를 설정하세요." ]
    else [] in
  let invalidPrefix :=
    if isServer then
      checkExposed (filter isServerOnly REQUIRED_ENV_VARIABLES) invalidPrefix
    else invalidPrefix in
  {| isValid := (List.length missing =? 0)%nat
                && (List.length invalidPrefix =? 0)%nat;
     missing := missing;
     invalidPrefix := invalidPrefix;
     warnings := warnings |}.

(** the line feed of the template literals *)
Definition LF : string := String "010" EmptyString.

(** [lines.join("\n")] *)
Fixpoint join (lines : list string) : string :=
  match lines with
  | [] => ""
  | [line] => line
  | line :: rest => line ++ LF ++ join rest
  end.

(** [`  - ${envVar.name} (${envVar.description})`] *)
Definition bullet (envVar : EnvVariable) : string :=
  "  - " ++ name envVar ++ " (" ++ description envVar ++ ")".

Definition isDevelopment : bool :=
  match env "NODE_ENV" with
  | Some mode => String.eqb mode "development"
  | None => false
  end.

(** the text of the error, built when the result is not valid *)
Definition errorMessage (result : ValidationResult) : string :=
  let errorMessages := [] in
  let errorMessages :=
    if (0 <? List.length (missing result))%nat then
      (errorMessages ++ [(LF ++ "❌ 누락된 필수 환경변수:")%string]
         ++ map bullet (missing result))%list
    else errorMessages in
  let errorMessages :=
    if (0 <? List.length (invalidPrefix result))%nat then
      (errorMessages
         ++ [(LF ++ "⚠️  보안 경고: 서버 전용 키에 NEXT_PUBLIC_ 접두사가 사용되었습니다:")%string]
         ++ map bullet (invalidPrefix result)
         ++ ["  → 서버 전용 키는 클라이언트에 노출되면 안 됩니다!"])%list
    else errorMessages in
  let errorMessages :=
    if (0 <? List.length (warnings result))%nat then
      (errorMessages ++ [(LF ++ "⚠️  경고:")%string]
         ++ map (fun warning => ("  - " ++ warning)%string) (warnings result))%list
    else errorMessages in
  "환경변수 검증 실패:" ++ join errorMessages ++ LF ++ LF
  ++ ".env.example 파일을 참고하여 필수 환경변수를 설정하세요.".

(** what is written to the console is left out *)
Definition validateAndThrow (isServer : bool) : Result unit :=
  let result := validateEnvVariables isServer in
  if negb (isValid result) then
    if isDevelopment then Throw (Error (errorMessage result))
    else Ok tt
  else Ok tt.

Definition hasEnvVariable (name : string) : bool := isSet (env name).

(** [process.env[name] ?? defaultValue] *)
Definition getEnvVariable (name : string) (defaultValue : option string)
  : option string :=
  match env name with
  | Some value => Some value
  | None => defaultValue
  end.

Definition getRequiredEnvVariable (name : string) : Result string :=
  match env name with
  | Some value =>
      if String.eqb value "" then
        Throw (Error ("필수 환경변수 " ++ name ++ "가 설정되지 않았습니다."))
      else Ok value
  | None => Throw (Error ("필수 환경변수 " ++ name ++ "가 설정되지 않았습니다."))
  end.

(** middleware.ts: the statements run when the module is loaded *)
Definition middleware : Result unit :=
  try_catch (validateAndThrow true)
    (fun error => if isDevelopment then Throw error else Ok tt).

End WithProcessEnv.

End EnvValidation.

(** * The environment, as the checks and [getApiKey] see it *)

Module EnvNames.

Import EnvValidation.

(** the names that must be set: everywhere, and on the server only *)
Definition publicNames : list string :=
  [ "NEXT_PUBLIC_CLERK_PUBLISHABLE_KEY"; "NEXT_PUBLIC_SUPABASE_URL";
    "NEXT_PUBLIC_SUPABASE_ANON_KEY"; "NEXT_PUBLIC_STORAGE_BUCKET";
    "NEXT_PUBLIC_NAVER_MAP_CLIENT_ID" ].

Definition secretNames : list string :=
  [ "CLERK_SECRET_KEY"; "SUPABASE_SERVICE_ROLE_KEY" ].

(** an environment given by its entries *)
Definition ofEntries (entries : list (string * string)) : ProcessEnv :=
  fun name =>
    match find (fun entry => String.eqb (fst entry) name) entries with
    | Some entry => Some (snd entry)
    | None => None
    end.

(** the part of [process.env] that [getApiKey] reads *)
Definition tourEnv (env : ProcessEnv) (isBrowser : bool) : TourApi.Env :=
  {| TourApi.isBrowser := isBrowser;
     TourApi.TOUR_API_KEY := env "TOUR_API_KEY";
     TourApi.NEXT_PUBLIC_TOUR_API_KEY := env "NEXT_PUBLIC_TOUR_API_KEY" |}.

End EnvNames.

(** * components/bookmarks/bookmark-button.tsx

    One run of a handler, from the state it was rendered with to the
    state after its last setter. *)

Module BookmarkButton.

Import Store Supabase Async Actions.

Record State : Type := mkState {
  isBookmarked : bool;
  isLoading : bool;
  isChecking : bool
}.

Inductive Toast : Type :=
| ToastError (title : string) (description : option string)
| ToastSuccess (text : string)
| ToastInfo (text : string).

Section WithClient.

Variable createClerkSupabaseClient : SupabaseClient.

(** what the browser receives of an error thrown by a server action; the
    framework carries it over *)
Variable received : Thrown -> Thrown.

Definition call {A} (action : M A) : M A :=
  fun w =>
    match action w with
    | (Ok a, w') => (Ok a, w')
    | (Throw e, w') => (Throw (received e), w')
    end.

(** the effect run on mount; [userId] and [isLoaded] come from [useAuth] *)
Definition checkBookmarkStatus (isLoaded : bool) (userId : option string)
  (contentId : string) (s : State) : World -> State * World :=
  fun w =>
    if negb isLoaded || missing userId then
      ({| isBookmarked := false; isLoading := isLoading s; isChecking := false |}, w)
    else
      match call (getBookmarksAction createClerkSupabaseClient) w with
      | (Ok bookmarks, w') =>
          let isCurrentBookmarked :=
            existsb (fun bookmark => String.eqb (Bookmark.content_id bookmark) contentId)
              bookmarks in
          ({| isBookmarked := isCurrentBookmarked;
              isLoading := isLoading s;
              isChecking := false |}, w')
      | (Throw error, w') =>
          ({| isBookmarked := false; isLoading := isLoading s; isChecking := false |},
           w')
      end.

(** the [catch] clause of [handleToggle], followed by its [finally] *)
Definition toggleFailed (s : State) (error : Thrown) : State * list Toast :=
  let errorMessage :=
    match error with
    | JsError _ message => message
    | NonError _ => "북마크 작업에 실패했습니다."
    end in
  if includes errorMessage "이미 북마크한" || includes errorMessage "already" then
    ({| isBookmarked := true; isLoading := false; isChecking := isChecking s |},
     [ToastInfo "이미 북마크한 관광지입니다."])
  else
    ({| isBookmarked := isBookmarked s; isLoading := false; isChecking := isChecking s |},
     [ToastError "오류가 발생했습니다." (Some errorMessage)]).

Definition handleToggle (userId : option string) (contentId : string) (s : State)
  : World -> (State * list Toast) * World :=
  fun w =>
    if missing userId then
      ((s, [ToastError "로그인이 필요합니다."
              (Some "북마크 기능을 사용하려면 로그인해주세요.")]), w)
    else if isLoading s then ((s, []), w)
    else if isBookmarked s then
      match call (removeBookmarkAction createClerkSupabaseClient contentId) w with
      | (Ok _, w') =>
          (({| isBookmarked := false; isLoading := false; isChecking := isChecking s |},
            [ToastSuccess "북마크가 제거되었습니다."]), w')
      | (Throw error, w') => (toggleFailed s error, w')
      end
    else
      match call (addBookmarkAction createClerkSupabaseClient contentId) w with
      | (Ok _, w') =>
          (({| isBookmarked := true; isLoading := false; isChecking := isChecking s |},
            [ToastSuccess "북마크에 추가되었습니다."]), w')
      | (Throw error, w') => (toggleFailed s error, w')
      end.

End WithClient.

End BookmarkButton.

(** * components/bookmarks/bookmark-list.tsx *)

Module BookmarkList.

Record BookmarkItem : Type := mkBookmarkItem {
  bookmark : Bookmark.t;
  tour : TourItem.t
}.

(** the loop of the [bookmarkItems] memo *)
Fixpoint bookmarkItems (bookmarks : list Bookmark.t) (tours : list TourItem.t)
  : list BookmarkItem :=
  match bookmarks with
  | [] => []
  | bookmark :: rest =>
      match find (fun t => String.eqb (TourItem.contentid t)
                             (Bookmark.content_id bookmark)) tours with
      | Some tour => {| bookmark := bookmark; tour := tour |} :: bookmarkItems rest tours
      | None => bookmarkItems rest tours
      end
  end.

(** a [Set<string>]: its elements in insertion order, each once *)
Definition has (selectedIds : list string) (contentId : string) : bool :=
  existsb (String.eqb contentId) selectedIds.

(** the updater given to [setSelectedIds] by [handleToggleCheck] *)
Definition handleToggleCheck (contentId : string) (prev : list string)
  : list string :=
  if has prev contentId
  then filter (fun x => negb (String.eqb contentId x)) prev     (* next.delete *)
  else (prev ++ [contentId])%list.                               (* next.add *)

End BookmarkList.

(* ================================================================== *)
(** * Properties *)
(* ================================================================== *)

(** ** Strings *)

Lemma includes_nil (s : string) : includes s "" = true.
Proof. destruct s; reflexivity. Qed.

Lemma trimStart_ws (w s : string) :
  In w white_space -> trimStart (w ++ s) = trimStart s.
Proof.
  unfold white_space; simpl.
  intros H.
  repeat (destruct H as [<- | H]; [reflexivity | ]).
  destruct H.
Qed.

Lemma trimStart_Blank (s : string) : Blank s -> trimStart s = "".
Proof.
  induction 1 as [ | w s Hw _ IH].
  - reflexivity.
  - rewrite trimStart_ws by assumption. exact IH.
Qed.

Lemma trim_Blank (s : string) : Blank s -> trim s = "".
Proof.
  intros H. unfold trim. rewrite (trimStart_Blank s H). reflexivity.
Qed.

Example trim_example :
  trim (" " ++ bytes [9] ++ "125266" ++ "　") = "125266".
Proof. reflexivity. Qed.

Example trim_keeps_inner_space : trim " a b " = "a b".
Proof. reflexivity. Qed.

(** ** Error classification *)

Example getErrorType_failed_fetch :
  ErrorHandler.getErrorType toLowerCaseAscii (JsError "TypeError" "Failed to fetch")
  = ErrorHandler.NETWORK.
Proof. reflexivity. Qed.

Example getErrorType_server_error :
  ErrorHandler.getErrorType toLowerCaseAscii
    (Error "서버 에러: 잠시 후 다시 시도해주세요.")
  = ErrorHandler.SERVER.
Proof. vm_compute. reflexivity. Qed.

Example getErrorType_non_error :
  ErrorHandler.getErrorType toLowerCaseAscii (NonError "network down")
  = ErrorHandler.UNKNOWN.
Proof. reflexivity. Qed.

Section ErrorHandlerFacts.

Import ErrorHandler.

Variable toLowerCase : string -> string.

Lemma getErrorInfo_type (error : Thrown) :
  type (getErrorInfo toLowerCase error) = getErrorType toLowerCase error.
Proof. reflexivity. Qed.

Lemma canRetry_by_type (error : Thrown) :
  canRetry (getErrorInfo toLowerCase error) =
  match getErrorType toLowerCase error with
  | NETWORK | API | SERVER => true
  | AUTH | VALIDATION | NOT_FOUND | UNKNOWN => false
  end.
Proof.
  unfold getErrorInfo; cbn [canRetry].
  destruct (getErrorType toLowerCase error); reflexivity.
Qed.

End ErrorHandlerFacts.

(** C7. For every thrown value, the [canRetry] flag of [getErrorInfo] is
    [true] exactly when [getErrorType] classifies it as [NETWORK], [API]
    (which holds the rate-limit message) or [SERVER], and [false] exactly
    for [AUTH], [VALIDATION], [NOT_FOUND] and [UNKNOWN]; the duplicate
    bookmark message has no class of its own, falls under [UNKNOWN] and is
    not retryable, while the rate-limit message of the retry loop falls
    under [API] and is. *)
Theorem getErrorInfo_canRetry_iff :
  (forall (toLowerCase : string -> string) (error : Thrown),
     let info := ErrorHandler.getErrorInfo toLowerCase error in
     ErrorHandler.type info = ErrorHandler.getErrorType toLowerCase error
     /\ (ErrorHandler.canRetry info = true <->
           ErrorHandler.type info = ErrorHandler.NETWORK
           \/ ErrorHandler.type info = ErrorHandler.API
           \/ ErrorHandler.type info = ErrorHandler.SERVER)
     /\ (ErrorHandler.canRetry info = false <->
           ErrorHandler.type info = ErrorHandler.AUTH
           \/ ErrorHandler.type info = ErrorHandler.VALIDATION
           \/ ErrorHandler.type info = ErrorHandler.NOT_FOUND
           \/ ErrorHandler.type info = ErrorHandler.UNKNOWN))
  /\ (let info := ErrorHandler.getErrorInfo toLowerCaseAscii
                    (Error "이미 북마크한 관광지입니다.") in
      ErrorHandler.type info = ErrorHandler.UNKNOWN
      /\ ErrorHandler.canRetry info = false)
  /\ (let info := ErrorHandler.getErrorInfo toLowerCaseAscii
                    (Error "API 호출 제한 초과: 잠시 후 다시 시도해주세요.") in
      ErrorHandler.type info = ErrorHandler.API
      /\ ErrorHandler.canRetry info = true).
Proof.
  split; [ | split; split; vm_compute; reflexivity ].
  intros lower error info.
  split; [reflexivity | ].
  unfold info.
  rewrite canRetry_by_type, getErrorInfo_type.
  destruct (ErrorHandler.getErrorType lower error);
    split; split; intros H; try reflexivity; try discriminate;
    repeat (destruct H as [H | H]; try discriminate); auto 6.
Qed.

(** ** The retry loop *)

Section RetryFacts.

Import TourApi Reference.
Local Open Scope list_scope.

Variable toLowerCase : string -> string.
Context {B : Type}.
Variable net : Network B.
Variable retries : nat.

Lemma schedule_step (attempt k : nat) :
  schedule attempt (S (S k)) =
  Fetch attempt :: Sleep (backoff attempt) :: schedule (S attempt) (S k).
Proof. reflexivity. Qed.

(** the events of the loop are a schedule: every iteration but the last
    pauses, and the last one is the one numbered [retries] *)
Lemma retryLoop_schedule (remaining : nat) :
  forall attempt lastError r events,
    attempt + remaining = S retries ->
    retryLoop toLowerCase net retries remaining attempt lastError = (r, events) ->
    exists k, k <= remaining /\ events = schedule attempt k.
Proof.
  induction remaining as [ | remaining IH]; intros attempt lastError r events Hinv Hrun.
  - simpl in Hrun. injection Hrun as _ <-. exists 0. split; [lia | reflexivity].
  - simpl in Hrun.
    destruct (attemptOnce toLowerCase net attempt) as [data | error].
    + injection Hrun as _ <-. exists 1. split; [lia | reflexivity].
    + destruct (failsFast (asError error)).
      * injection Hrun as _ <-. exists 1. split; [lia | reflexivity].
      * destruct (Nat.ltb_spec attempt retries) as [Hlt | Hge].
        -- destruct (retryLoop toLowerCase net retries remaining (S attempt)
                       (Some (asError error))) as [r' events'] eqn:Hrest.
           injection Hrun as _ <-.
           destruct (IH (S attempt) _ _ _ ltac:(lia) Hrest) as (k & Hk & ->).
           destruct k as [ | k].
           ++ (* the next iteration exists, so it leaves an event *)
              destruct remaining as [ | remaining']; [lia | ].
              simpl in Hrest.
              destruct (attemptOnce toLowerCase net (S attempt)).
              ** discriminate.
              ** destruct (failsFast (asError e)); [discriminate | ].
                 destruct (S attempt <? retries)%nat;
                   destruct (retryLoop toLowerCase net retries remaining'
                               (S (S attempt)) (Some (asError e)));
                   discriminate.
           ++ exists (S (S k)). split; [lia | reflexivity].
        -- assert (remaining = 0) by lia. subst remaining.
           simpl in Hrun. injection Hrun as _ <-.
           exists 1. split; [lia | reflexivity].
Qed.

Lemma schedule_fetch_ge (k : nat) :
  forall attempt n, In (Fetch n) (schedule attempt k) -> attempt <= n.
Proof.
  induction k as [ | k IH]; intros attempt n Hin.
  - destruct Hin.
  - destruct k as [ | k].
    + destruct Hin as [H | []]. injection H as <-. lia.
    + rewrite schedule_step in Hin.
      destruct Hin as [H | [H | Hin]].
      * injection H as <-. lia.
      * discriminate.
      * apply IH in Hin. lia.
Qed.

Lemma schedule_tail_gt (k : nat) :
  forall attempt e rest n,
    schedule attempt k = e :: rest -> In (Fetch n) rest -> attempt < n.
Proof.
  intros attempt e rest n Heq Hin.
  destruct k as [ | k]; [discriminate | ].
  destruct k as [ | k].
  - injection Heq as _ <-. destruct Hin.
  - rewrite schedule_step in Heq. injection Heq as _ <-.
    destruct Hin as [H | Hin]; [discriminate | ].
    apply (schedule_fetch_ge (S k) (S attempt) n) in Hin. lia.
Qed.

(** in a schedule, a fetch other than the first comes right after the
    previous fetch and its pause *)
Lemma schedule_pause_before (k : nat) :
  forall attempt pre post n,
    schedule attempt k = pre ++ Fetch n :: post ->
    attempt < n ->
    exists pre', pre = pre' ++ [Fetch (n - 1); Sleep (backoff (n - 1))].
Proof.
  induction k as [ | k IH]; intros attempt pre post n Heq Hlt.
  - destruct pre; discriminate.
  - destruct k as [ | k].
    + destruct pre as [ | e pre]; cbn [app] in Heq.
      * injection Heq as ->. lia.
      * injection Heq as _ Heq. destruct pre; discriminate.
    + rewrite schedule_step in Heq.
      destruct pre as [ | e1 pre]; cbn [app] in Heq.
      { injection Heq as -> _. lia. }
      injection Heq as <- Heq.
      destruct pre as [ | e2 pre]; cbn [app] in Heq.
      { discriminate. }
      injection Heq as <- Heq.
      destruct pre as [ | e3 pre].
      * (* the fetch opens the rest of the schedule *)
        exists [].
        assert (Hn : n = S attempt).
        { destruct k; cbn in Heq; injection Heq as <-; reflexivity. }
        subst n. replace (S attempt - 1) with attempt by lia. reflexivity.
      * assert (Hgt : S attempt < n).
        { apply (schedule_tail_gt (S k) (S attempt) e3 (pre ++ Fetch n :: post)).
          - exact Heq.
          - apply in_or_app. right. left. reflexivity. }
        destruct (IH (S attempt) (e3 :: pre) post n Heq Hgt) as (pre' & ->).
        exists (Fetch attempt :: Sleep (backoff attempt) :: pre').
        reflexivity.
Qed.

End RetryFacts.

(** three attempts against a server that is down: two pauses, then the
    last error, reworded *)
Example server_down_three_attempts :
  TourApi.fetchTourAPI toLowerCaseAscii Reference.serverEnv
    (Reference.always (B := unit) 500) 3
  = (Throw (Error "서버에 일시적인 문제가 발생했습니다. 잠시 후 다시 시도해주세요."),
     [ TourApi.Fetch 1; TourApi.Sleep 1000; TourApi.Fetch 2; TourApi.Sleep 2000;
       TourApi.Fetch 3 ]).
Proof. vm_compute. reflexivity. Qed.

(** without an API key nothing is fetched *)
Example no_key_no_fetch :
  TourApi.fetchTourAPI toLowerCaseAscii
    {| TourApi.isBrowser := false;
       TourApi.TOUR_API_KEY := None;
       TourApi.NEXT_PUBLIC_TOUR_API_KEY := Some "" |}
    (Reference.always (B := unit) 200) 3
  = (Throw (Error "TOUR_API_KEY 또는 NEXT_PUBLIC_TOUR_API_KEY 환경변수가 설정되지 않았습니다."),
     []).
Proof. reflexivity. Qed.

Section UnauthorizedFacts.

Import TourApi Reference.
Local Open Scope list_scope.

Variable toLowerCase : string -> string.
Context {B : Type}.
Variable net : Network B.
Variable retries : nat.

Lemma attemptOnce_unauthorized (n : nat) (resp : HttpResponse B) :
  net n = Responded resp ->
  (status resp = 401 \/ status resp = 403)%Z ->
  attemptOnce toLowerCase net n = Throw authenticationFailure.
Proof.
  intros Hnet Hstatus. unfold attemptOnce, ok. rewrite Hnet.
  destruct Hstatus as [-> | ->]; reflexivity.
Qed.

Lemma singleton_split {A} (x y : A) (pre post : list A) :
  [x] = pre ++ y :: post -> pre = [] /\ post = [] /\ x = y.
Proof.
  destruct pre as [ | z pre]; cbn [app]; intros H.
  - injection H as -> <-. auto.
  - injection H as _ H. destruct pre; discriminate.
Qed.

(** once an attempt is answered 401 or 403, it is the last event of the
    loop and the loop throws the authentication error *)
Lemma retryLoop_unauthorized (n : nat) (resp : HttpResponse B) :
  net n = Responded resp ->
  (status resp = 401 \/ status resp = 403)%Z ->
  forall remaining attempt lastError r events pre post,
    retryLoop toLowerCase net retries remaining attempt lastError = (r, events) ->
    events = pre ++ Fetch n :: post ->
    post = [] /\ r = Throw authenticationFailure.
Proof.
  intros Hnet Hstatus.
  induction remaining as [ | remaining IH];
    intros attempt lastError r events pre post Hrun Hsplit.
  - simpl in Hrun. injection Hrun as _ <-. destruct pre; discriminate.
  - simpl in Hrun.
    destruct (Nat.eq_dec attempt n) as [-> | Hne].
    + rewrite (attemptOnce_unauthorized n resp Hnet Hstatus) in Hrun.
      change (failsFast (asError authenticationFailure)) with true in Hrun.
      cbn iota in Hrun. injection Hrun as <- <-.
      apply singleton_split in Hsplit. intuition.
    + assert (Hhead : forall rest, Fetch attempt :: rest = pre ++ Fetch n :: post ->
                exists pre', pre = Fetch attempt :: pre'
                             /\ rest = pre' ++ Fetch n :: post).
      { intros rest H. destruct pre as [ | e pre]; cbn [app] in H.
        - injection H as H _. congruence.
        - injection H as <- H. eauto. }
      destruct (attemptOnce toLowerCase net attempt) as [data | error].
      { injection Hrun as _ <-. apply singleton_split in Hsplit.
        destruct Hsplit as (_ & _ & H). injection H as H. congruence. }
      destruct (failsFast (asError error)).
      { injection Hrun as _ <-. apply singleton_split in Hsplit.
        destruct Hsplit as (_ & _ & H). injection H as H. congruence. }
      destruct (retryLoop toLowerCase net retries remaining (S attempt)
                  (Some (asError error))) as [r' events'] eqn:Hrest.
      destruct (attempt <? retries)%nat; injection Hrun as <- <-;
        apply Hhead in Hsplit; destruct Hsplit as (pre' & -> & Hsplit).
      * destruct pre' as [ | e pre']; cbn [app] in Hsplit; [discriminate | ].
        injection Hsplit as _ Hsplit.
        exact (IH _ _ _ _ _ _ Hrest Hsplit).
      * exact (IH _ _ _ _ _ _ Hrest Hsplit).
Qed.

End UnauthorizedFacts.

(** C4. In every run of [fetchTourAPI], attempt [n >= 2] is reached only
    through a pause of exactly [min(1000 * 2^(n-2), 5000)] milliseconds
    taken right after attempt [n - 1]: 1000, 2000 and 4000 before attempts
    2, 3 and 4, and 5000 before any later one. *)
Theorem backoff_before_attempt :
  forall (toLowerCase : string -> string) (B : Type) (env : TourApi.Env)
         (net : TourApi.Network B) (retries : nat)
         (r : Result (TourApi.Data B)) (events pre post : list TourApi.Event)
         (n : nat),
    TourApi.fetchTourAPI toLowerCase env net retries = (r, events) ->
    events = (pre ++ TourApi.Fetch n :: post)%list ->
    2 <= n ->
    let delay := Z.min (1000 * 2 ^ (Z.of_nat n - 2)) 5000 in
    (exists pre',
       pre = (pre' ++ [TourApi.Fetch (n - 1); TourApi.Sleep delay])%list)
    /\ (n = 2 -> delay = 1000%Z)
    /\ (n = 3 -> delay = 2000%Z)
    /\ (n = 4 -> delay = 4000%Z)
    /\ (5 <= n -> delay = 5000%Z).
Proof.
  intros lower B env net retries r events pre post n Hrun Hsplit Hn delay.
  split.
  - unfold TourApi.fetchTourAPI in Hrun.
    destruct (TourApi.getApiKey env) as [key | e].
    + destruct (retryLoop_schedule lower net retries retries 1 None r events
                  ltac:(lia) Hrun) as (k & _ & Hk).
      rewrite Hk in Hsplit.
      destruct (schedule_pause_before k 1 pre post n Hsplit ltac:(lia))
        as (pre' & ->).
      exists pre'. unfold delay, TourApi.backoff.
      replace (Z.of_nat (n - 1) - 1)%Z with (Z.of_nat n - 2)%Z by lia.
      reflexivity.
    + injection Hrun as _ <-. destruct pre; discriminate.
  - unfold delay.
    repeat split; intros H; try (subst n; reflexivity).
    assert (2 ^ 3 <= 2 ^ (Z.of_nat n - 2))%Z
      by (apply Z.pow_le_mono_r; lia).
    change (2 ^ 3)%Z with 8%Z in *. lia.
Qed.

(** the run of C4 at a server that always answers 500, five attempts
    allowed, read before the fifth attempt *)
Lemma backoff_before_attempt_witness :
  snd (TourApi.fetchTourAPI toLowerCaseAscii Reference.serverEnv
         (Reference.always (B := unit) 500) 5) =
    ([ TourApi.Fetch 1; TourApi.Sleep 1000; TourApi.Fetch 2; TourApi.Sleep 2000;
       TourApi.Fetch 3; TourApi.Sleep 4000; TourApi.Fetch 4; TourApi.Sleep 5000 ]
     ++ TourApi.Fetch 5 :: [])%list
  /\ 2 <= 5
  /\ exists pre',
       [ TourApi.Fetch 1; TourApi.Sleep 1000; TourApi.Fetch 2; TourApi.Sleep 2000;
         TourApi.Fetch 3; TourApi.Sleep 4000; TourApi.Fetch 4; TourApi.Sleep 5000 ]
       = (pre' ++ [TourApi.Fetch 4; TourApi.Sleep 5000])%list.
Proof.
  assert (Hevents :
    snd (TourApi.fetchTourAPI toLowerCaseAscii Reference.serverEnv
           (Reference.always (B := unit) 500) 5) =
    ([ TourApi.Fetch 1; TourApi.Sleep 1000; TourApi.Fetch 2; TourApi.Sleep 2000;
       TourApi.Fetch 3; TourApi.Sleep 4000; TourApi.Fetch 4; TourApi.Sleep 5000 ]
     ++ TourApi.Fetch 5 :: [])%list) by (vm_compute; reflexivity).
  split; [exact Hevents | split; [lia | ]].
  exact (proj1 (backoff_before_attempt toLowerCaseAscii unit Reference.serverEnv
                  (Reference.always 500) 5 _ _ _ [] 5
                  (surjective_pairing _) Hevents ltac:(lia))).
Defined.

(** C9. Whatever the attempt cap, an attempt answered with HTTP 401 or 403
    is the last event of the run, which throws the authentication error
    at once: no pause and no further fetch follow it. *)
Theorem unauthorized_never_retried :
  forall (toLowerCase : string -> string) (B : Type) (env : TourApi.Env)
         (net : TourApi.Network B) (retries n : nat)
         (resp : TourApi.HttpResponse B)
         (r : Result (TourApi.Data B)) (events : list TourApi.Event),
    net n = TourApi.Responded resp ->
    (TourApi.status resp = 401 \/ TourApi.status resp = 403)%Z ->
    TourApi.fetchTourAPI toLowerCase env net retries = (r, events) ->
    In (TourApi.Fetch n) events ->
    r = Throw (Error "API 인증 실패: API 키를 확인해주세요.")
    /\ (exists pre, events = (pre ++ [TourApi.Fetch n])%list)
    /\ ErrorHandler.getErrorType toLowerCaseAscii
         (Error "API 인증 실패: API 키를 확인해주세요.") = ErrorHandler.AUTH.
Proof.
  intros lower B env net retries n resp r events Hnet Hstatus Hrun Hin.
  apply in_split in Hin. destruct Hin as (pre & post & Hsplit).
  unfold TourApi.fetchTourAPI in Hrun.
  destruct (TourApi.getApiKey env) as [key | e].
  - destruct (retryLoop_unauthorized lower net retries n resp Hnet Hstatus
                _ _ _ _ _ _ _ Hrun Hsplit) as (-> & ->).
    split; [reflexivity | split; [ | vm_compute; reflexivity]].
    exists pre. exact Hsplit.
  - injection Hrun as _ <-. destruct pre; discriminate.
Qed.

(** the run of C9 at a server that answers 500 twice and then 401, five
    attempts allowed *)
Lemma unauthorized_never_retried_witness :
  In (TourApi.Fetch 3)
     (snd (TourApi.fetchTourAPI toLowerCaseAscii Reference.serverEnv
             (Reference.failingUntil (B := unit) 3 401) 5))
  /\ fst (TourApi.fetchTourAPI toLowerCaseAscii Reference.serverEnv
            (Reference.failingUntil (B := unit) 3 401) 5)
     = Throw (Error "API 인증 실패: API 키를 확인해주세요.")
  /\ exists pre,
       snd (TourApi.fetchTourAPI toLowerCaseAscii Reference.serverEnv
              (Reference.failingUntil (B := unit) 3 401) 5)
       = (pre ++ [TourApi.Fetch 3])%list.
Proof.
  assert (Hin : In (TourApi.Fetch 3)
     (snd (TourApi.fetchTourAPI toLowerCaseAscii Reference.serverEnv
             (Reference.failingUntil (B := unit) 3 401) 5)))
    by (vm_compute; do 4 right; left; reflexivity).
  split; [exact Hin | ].
  destruct (unauthorized_never_retried toLowerCaseAscii unit Reference.serverEnv
              (Reference.failingUntil 3 401) 5 3 _ _ _
              eq_refl (or_introl eq_refl) (surjective_pairing _) Hin)
    as (Hr & Hpre & _).
  split; assumption.
Defined.

(** with at least one attempt allowed and an API key configured, a first
    answer 401 or 403 ends the call after that single fetch *)
Lemma unauthorized_first_attempt :
  forall (toLowerCase : string -> string) (B : Type) (env : TourApi.Env)
         (net : TourApi.Network B) (retries : nat)
         (resp : TourApi.HttpResponse B) (key : string),
    TourApi.getApiKey env = Ok key ->
    1 <= retries ->
    net 1 = TourApi.Responded resp ->
    (TourApi.status resp = 401 \/ TourApi.status resp = 403)%Z ->
    TourApi.fetchTourAPI toLowerCase env net retries
    = (Throw Reference.authenticationFailure, [TourApi.Fetch 1]).
Proof.
  intros lower B env net retries resp key Hkey Hretries Hnet Hstatus.
  unfold TourApi.fetchTourAPI. rewrite Hkey.
  destruct retries as [ | retries]; [lia | ].
  simpl. rewrite (attemptOnce_unauthorized lower net 1 resp Hnet Hstatus).
  reflexivity.
Qed.

(** ** The earlier revision of the loop paces and stops the same way *)

Section EarlierRetryFacts.

Import TourApi Reference.
Local Open Scope list_scope.

Context {B : Type}.
Variable net : Network B.
Variable retries : nat.

Lemma earlier_retryLoop_schedule (remaining : nat) :
  forall attempt lastError r events,
    attempt + remaining = S retries ->
    TourApiEarlier.retryLoop net retries remaining attempt lastError = (r, events) ->
    exists k, k <= remaining /\ events = schedule attempt k.
Proof.
  induction remaining as [ | remaining IH]; intros attempt lastError r events Hinv Hrun.
  - simpl in Hrun. injection Hrun as _ <-. exists 0. split; [lia | reflexivity].
  - simpl in Hrun.
    destruct (TourApiEarlier.attemptOnce net retries attempt) as [data | error].
    + injection Hrun as _ <-. exists 1. split; [lia | reflexivity].
    + destruct (TourApiEarlier.failsFast error).
      * injection Hrun as _ <-. exists 1. split; [lia | reflexivity].
      * destruct (Nat.ltb_spec attempt retries) as [Hlt | Hge].
        -- match type of Hrun with
           | (let (_, _) := ?call in _) = _ =>
               destruct call as [r' events'] eqn:Hrest
           end.
           injection Hrun as _ <-.
           destruct (IH (S attempt) _ _ _ ltac:(lia) Hrest) as (k & Hk & ->).
           destruct k as [ | k].
           ++ destruct remaining as [ | remaining']; [lia | ].
              simpl in Hrest.
              destruct (TourApiEarlier.attemptOnce net retries (S attempt)).
              ** discriminate.
              ** destruct (TourApiEarlier.failsFast e); [discriminate | ].
                 destruct (S attempt <? retries)%nat;
                   match type of Hrest with
                   | (let (_, _) := ?call in _) = _ => destruct call
                   end; discriminate.
           ++ exists (S (S k)). split; [lia | reflexivity].
        -- assert (remaining = 0) by lia. subst remaining.
           simpl in Hrun. injection Hrun as _ <-.
           exists 1. split; [lia | reflexivity].
Qed.

Lemma earlier_attemptOnce_unauthorized (n : nat) (resp : HttpResponse B) :
  net n = Responded resp ->
  (status resp = 401 \/ status resp = 403)%Z ->
  exists e, TourApiEarlier.attemptOnce net retries n = Throw e
            /\ TourApiEarlier.failsFast e = true
            /\ ErrorHandler.getErrorType toLowerCaseAscii e = ErrorHandler.AUTH.
Proof.
  intros Hnet Hstatus. unfold TourApiEarlier.attemptOnce, ok. rewrite Hnet.
  destruct Hstatus as [-> | ->]; eexists; (split; [reflexivity | ]);
    split; vm_compute; reflexivity.
Qed.

Lemma earlier_retryLoop_unauthorized (n : nat) (resp : HttpResponse B) :
  net n = Responded resp ->
  (status resp = 401 \/ status resp = 403)%Z ->
  forall remaining attempt lastError r events pre post,
    TourApiEarlier.retryLoop net retries remaining attempt lastError = (r, events) ->
    events = pre ++ Fetch n :: post ->
    post = [] /\ r = TourApiEarlier.attemptOnce net retries n.
Proof.
  intros Hnet Hstatus.
  destruct (earlier_attemptOnce_unauthorized n resp Hnet Hstatus)
    as (err & Herr & Hfast & _).
  induction remaining as [ | remaining IH];
    intros attempt lastError r events pre post Hrun Hsplit.
  - simpl in Hrun. injection Hrun as _ <-. destruct pre; discriminate.
  - simpl in Hrun.
    destruct (Nat.eq_dec attempt n) as [-> | Hne].
    + rewrite Herr in Hrun |- *. rewrite Hfast in Hrun.
      injection Hrun as <- <-.
      apply singleton_split in Hsplit. intuition.
    + assert (Hhead : forall rest, Fetch attempt :: rest = pre ++ Fetch n :: post ->
                exists pre', pre = Fetch attempt :: pre'
                             /\ rest = pre' ++ Fetch n :: post).
      { intros rest H. destruct pre as [ | e pre]; cbn [app] in H.
        - injection H as H _. congruence.
        - injection H as <- H. eauto. }
      destruct (TourApiEarlier.attemptOnce net retries attempt) as [data | error].
      { injection Hrun as _ <-. apply singleton_split in Hsplit.
        destruct Hsplit as (_ & _ & H). injection H as H. congruence. }
      destruct (TourApiEarlier.failsFast error).
      { injection Hrun as _ <-. apply singleton_split in Hsplit.
        destruct Hsplit as (_ & _ & H). injection H as H. congruence. }
      match type of Hrun with
      | context [TourApiEarlier.retryLoop net retries remaining (S attempt) ?le] =>
          destruct (TourApiEarlier.retryLoop net retries remaining (S attempt) le)
            as [r' events'] eqn:Hrest
      end.
      destruct (attempt <? retries)%nat; injection Hrun as <- <-;
        apply Hhead in Hsplit; destruct Hsplit as (pre' & -> & Hsplit).
      * destruct pre' as [ | e pre']; cbn [app] in Hsplit; [discriminate | ].
        injection Hsplit as _ Hsplit.
        exact (IH _ _ _ _ _ _ Hrest Hsplit).
      * exact (IH _ _ _ _ _ _ Hrest Hsplit).
Qed.

End EarlierRetryFacts.

(** the pause before attempt [n >= 2], in the earlier revision *)
Lemma earlier_backoff_before_attempt :
  forall (B : Type) (env : TourApi.Env) (net : TourApi.Network B) (retries : nat)
         (r : Result (TourApi.Data B)) (events pre post : list TourApi.Event)
         (n : nat),
    TourApiEarlier.fetchTourAPI env net retries = (r, events) ->
    events = (pre ++ TourApi.Fetch n :: post)%list ->
    2 <= n ->
    exists pre',
      pre = (pre' ++ [TourApi.Fetch (n - 1);
                      TourApi.Sleep (Z.min (1000 * 2 ^ (Z.of_nat n - 2)) 5000)])%list.
Proof.
  intros B env net retries r events pre post n Hrun Hsplit Hn.
  unfold TourApiEarlier.fetchTourAPI in Hrun.
  destruct (TourApi.getApiKey env) as [key | e].
  - destruct (earlier_retryLoop_schedule net retries retries 1 None r events
                ltac:(lia) Hrun) as (k & _ & Hk).
    rewrite Hk in Hsplit.
    destruct (schedule_pause_before k 1 pre post n Hsplit ltac:(lia))
      as (pre' & ->).
    exists pre'. unfold TourApi.backoff.
    replace (Z.of_nat (n - 1) - 1)%Z with (Z.of_nat n - 2)%Z by lia.
    reflexivity.
  - injection Hrun as _ <-. destruct pre; discriminate.
Qed.

(** an attempt answered 401 or 403 is the last one, in the earlier revision *)
Lemma earlier_unauthorized_never_retried :
  forall (B : Type) (env : TourApi.Env) (net : TourApi.Network B) (retries n : nat)
         (resp : TourApi.HttpResponse B)
         (r : Result (TourApi.Data B)) (events : list TourApi.Event),
    net n = TourApi.Responded resp ->
    (TourApi.status resp = 401 \/ TourApi.status resp = 403)%Z ->
    TourApiEarlier.fetchTourAPI env net retries = (r, events) ->
    In (TourApi.Fetch n) events ->
    (exists e, r = Throw e
               /\ ErrorHandler.getErrorType toLowerCaseAscii e = ErrorHandler.AUTH)
    /\ exists pre, events = (pre ++ [TourApi.Fetch n])%list.
Proof.
  intros B env net retries n resp r events Hnet Hstatus Hrun Hin.
  apply in_split in Hin. destruct Hin as (pre & post & Hsplit).
  unfold TourApiEarlier.fetchTourAPI in Hrun.
  destruct (TourApi.getApiKey env) as [key | e].
  - destruct (earlier_retryLoop_unauthorized net retries n resp Hnet Hstatus
                _ _ _ _ _ _ _ Hrun Hsplit) as (-> & ->).
    destruct (earlier_attemptOnce_unauthorized net retries n resp Hnet Hstatus)
      as (err & -> & _ & Hauth).
    split; [exists err; auto | exists pre; exact Hsplit].
  - injection Hrun as _ <-. destruct pre; discriminate.
Qed.

(** ** Normalising [items.item] *)

Lemma toTourItem_total (v : Value) :
  v <> Undefined -> v <> Null ->
  exists tourItem, Home.toTourItem v = Ok tourItem.
Proof.
  intros Hu Hn. destruct v; try congruence; eexists; reflexivity.
Qed.

(** any value that is neither an array nor falsy is treated as the array
    holding just it *)
Lemma transformItems_non_array (items : Value) :
  isArray items = false ->
  truthy items = true ->
  Home.transformItems items = Home.transformItems (Arr [items]).
Proof.
  intros Harr Htruthy. unfold Home.transformItems.
  rewrite Harr, Htruthy. cbn [isArray Home.elements Home.mapResult].
  destruct (Home.toTourItem items); reflexivity.
Qed.

(** C5. [transformItems] maps a single result object to the one-element
    list it maps the one-element array of that object to, the element
    being the object literal of the fifteen copied fields; an absent
    [item] field, whichever level of [response.body.items.item] is
    missing (the provider sends [items: ""] for an empty result), gives
    the empty list. *)
Theorem transformItems_single_object :
  forall (props : list (string * Value)) (h : option TourApi.Header),
    Home.transformItems (Obj props) = Home.transformItems (Arr [Obj props])
    /\ Home.transformItems (Obj props)
       = Ok [Obj (map (fun k => (k, lookup k props)) Home.fields)]
    /\ Home.toursOf
         {| TourApi.response :=
              Some {| TourApi.header := h;
                      TourApi.body :=
                        Some (Obj [("items", Obj [("item", Obj props)])]) |} |}
       = Home.toursOf
           {| TourApi.response :=
                Some {| TourApi.header := h;
                        TourApi.body :=
                          Some (Obj [("items", Obj [("item", Arr [Obj props])])]) |} |}
    /\ Home.transformItems Undefined = Ok []
    /\ Home.toursOf {| TourApi.response := None |} = Ok []
    /\ Home.toursOf
         {| TourApi.response :=
              Some {| TourApi.header := h; TourApi.body := None |} |} = Ok []
    /\ Home.toursOf
         {| TourApi.response :=
              Some {| TourApi.header := h; TourApi.body := Some (Obj props) |} |}
       = (if truthy (get_opt (lookup "items" props) "item")
          then Home.transformItems (get_opt (lookup "items" props) "item")
          else Ok [])
    /\ Home.toursOf
         {| TourApi.response :=
              Some {| TourApi.header := h;
                      TourApi.body := Some (Obj [("items", Str "")]) |} |} = Ok []
    /\ Home.toursOf
         {| TourApi.response :=
              Some {| TourApi.header := h;
                      TourApi.body := Some (Obj [("items", Obj [])]) |} |} = Ok [].
Proof.
  intros props h.
  repeat split; reflexivity.
Qed.

(** ** The bookmarks table *)

Section StoreFacts.

Import Store.
Local Open Scope list_scope.

Lemma insert_desc_perm (b : Bookmark.t) (l : list Bookmark.t) :
  Permutation (b :: l) (insert_desc b l).
Proof.
  induction l as [ | x l IH]; simpl.
  - apply Permutation_refl.
  - destruct (Bookmark.created_at x <? Bookmark.created_at b)%Z.
    + apply Permutation_refl.
    + eapply perm_trans; [apply perm_swap | ].
      apply perm_skip. exact IH.
Qed.

Lemma order_by_created_at_desc_perm (l : list Bookmark.t) :
  Permutation l (order_by_created_at_desc l).
Proof.
  induction l as [ | b l IH]; simpl.
  - apply perm_nil.
  - eapply perm_trans; [apply perm_skip; exact IH | ].
    apply insert_desc_perm.
Qed.

Lemma insert_desc_sorted (b : Bookmark.t) (l : list Bookmark.t) :
  StronglySorted newer_first l -> StronglySorted newer_first (insert_desc b l).
Proof.
  induction 1 as [ | x l Hsorted IH Hall]; simpl.
  - repeat constructor.
  - destruct (Z.ltb_spec (Bookmark.created_at x) (Bookmark.created_at b)) as [Hlt | Hge].
    + constructor.
      * constructor; assumption.
      * constructor.
        -- unfold newer_first. lia.
        -- eapply Forall_impl; [ | exact Hall].
           unfold newer_first. intros a Ha. lia.
    + constructor; [exact IH | ].
      eapply Permutation_Forall; [apply insert_desc_perm | ].
      constructor; [exact Hge | exact Hall].
Qed.

Lemma order_by_created_at_desc_sorted (l : list Bookmark.t) :
  StronglySorted newer_first (order_by_created_at_desc l).
Proof.
  induction l as [ | b l IH]; simpl.
  - constructor.
  - apply insert_desc_sorted. exact IH.
Qed.

Lemma filter_length_perm {A} (f : A -> bool) (l l' : list A) :
  Permutation l l' -> length (filter f l) = length (filter f l').
Proof.
  induction 1 as [ | x l l' _ IH | x y l | l l' l'' _ IH1 _ IH2]; simpl.
  - reflexivity.
  - destruct (f x); simpl; congruence.
  - destruct (f x), (f y); reflexivity.
  - congruence.
Qed.

Lemma is_pair_true (u c : string) (b : Bookmark.t) :
  is_pair u c b = true <-> Bookmark.user_id b = u /\ Bookmark.content_id b = c.
Proof.
  unfold is_pair. rewrite andb_true_iff, !String.eqb_eq. tauto.
Qed.

(** the rows of user [u] holding content [c] are the rows of the pair *)
Lemma pair_among_owned (u c : string) (l : list Bookmark.t) :
  filter (fun b => String.eqb (Bookmark.content_id b) c) (filter (owned_by u) l)
  = filter (is_pair u c) l.
Proof.
  induction l as [ | b l IH]; simpl.
  - reflexivity.
  - unfold is_pair, owned_by in *.
    destruct (String.eqb (Bookmark.user_id b) u); simpl.
    + destruct (String.eqb (Bookmark.content_id b) c); simpl; congruence.
    + exact IH.
Qed.

Lemma existsb_false_filter {A} (f : A -> bool) (l : list A) :
  existsb f l = false -> filter f l = [].
Proof.
  induction l as [ | x l IH]; simpl.
  - reflexivity.
  - destruct (f x); simpl; [discriminate | exact IH].
Qed.

(** under the unique constraint a pair has at most one row *)
Lemma unique_pair_once (u c : string) (l : list Bookmark.t) :
  NoDup (map (fun b => (Bookmark.user_id b, Bookmark.content_id b)) l) ->
  existsb (is_pair u c) l = true ->
  length (filter (is_pair u c) l) = 1.
Proof.
  induction l as [ | b l IH]; simpl; intros Hnodup Hex.
  - discriminate.
  - inversion Hnodup as [ | k ks Hnotin Hrest]; subst.
    destruct (is_pair u c b) eqn:Hb; simpl.
    + f_equal.
      destruct (existsb (is_pair u c) l) eqn:Hl.
      * exfalso. apply Hnotin.
        apply existsb_exists in Hl. destruct Hl as (b' & Hin & Hb').
        apply is_pair_true in Hb, Hb'. destruct Hb as [-> ->], Hb' as [<- <-].
        apply (in_map (fun b => (Bookmark.user_id b, Bookmark.content_id b))).
        exact Hin.
      * rewrite existsb_false_filter by assumption. reflexivity.
    + apply IH; assumption.
Qed.

Section Postgres.

Variable gen_random_uuid : Db -> string.
Variable now : Db -> Z.

Lemma insert_row_duplicate (u c : string) (d : Db) :
  existsb (is_pair u c) (bookmarks d) = true ->
  exists e, Supabase.insert_row gen_random_uuid now u c d = (Supabase.failure e, d)
            /\ Supabase.code e = "23505".
Proof.
  intros H. unfold Supabase.insert_row. rewrite H.
  eexists. split; reflexivity.
Qed.

(** the constraint is an invariant of the two writes *)
Lemma insert_row_unique (u c : string) (d : Db) :
  unique_user_bookmark d ->
  unique_user_bookmark (snd (Supabase.insert_row gen_random_uuid now u c d)).
Proof.
  unfold unique_user_bookmark, Supabase.insert_row. intros Hd.
  destruct (existsb (is_pair u c) (bookmarks d)) eqn:Hex; [exact Hd | ].
  destruct (negb (existsb (fun usr => String.eqb (id usr) u) (users d)));
    [exact Hd | ].
  cbn [snd bookmarks]. rewrite map_app. cbn [map Bookmark.user_id Bookmark.content_id].
  apply NoDup_app.
  - exact Hd.
  - constructor; [intros [] | constructor].
  - intros k Hk [<- | []].
    apply in_map_iff in Hk. destruct Hk as (b & Hb & Hin).
    assert (Hpair : is_pair u c b = true).
    { apply is_pair_true. injection Hb as -> ->. auto. }
    assert (existsb (is_pair u c) (bookmarks d) = true)
      by (apply existsb_exists; eauto).
    congruence.
Qed.

Lemma NoDup_map_filter {A K} (key : A -> K) (f : A -> bool) (l : list A) :
  NoDup (map key l) -> NoDup (map key (filter f l)).
Proof.
  induction l as [ | x l IH]; simpl; intros H.
  - constructor.
  - inversion H as [ | k ks Hnotin Hrest]; subst.
    destruct (f x); simpl.
    + constructor; [ | auto].
      intros Hin. apply Hnotin.
      apply in_map_iff in Hin. destruct Hin as (y & Hy & Hin).
      apply filter_In in Hin. destruct Hin as [Hin _].
      rewrite <- Hy. apply in_map. exact Hin.
    + auto.
Qed.

Lemma delete_rows_unique (u c : string) (d : Db) :
  unique_user_bookmark d ->
  unique_user_bookmark (Supabase.delete_rows u c d).
Proof.
  unfold unique_user_bookmark, Supabase.delete_rows. cbn [bookmarks].
  apply NoDup_map_filter.
Qed.

Lemma delete_rows_idempotent (u c : string) (d : Db) :
  Supabase.delete_rows u c (Supabase.delete_rows u c d) = Supabase.delete_rows u c d.
Proof.
  unfold Supabase.delete_rows. cbn [users bookmarks]. f_equal.
  induction (bookmarks d) as [ | b l IH]; simpl.
  - reflexivity.
  - destruct (is_pair u c b) eqn:Hb; simpl.
    + exact IH.
    + rewrite Hb. simpl. f_equal. exact IH.
Qed.

Lemma filter_all {A} (f : A -> bool) (l : list A) :
  filter f l = l <-> forallb f l = true.
Proof.
  induction l as [ | x l IH]; simpl.
  - tauto.
  - destruct (f x) eqn:Hx; simpl.
    + rewrite <- IH. split; [intros H; injection H; auto | intros ->; reflexivity].
    + split; [ | discriminate].
      intros H. exfalso.
      assert (Hlen : length (filter f l) <= length l) by apply filter_length_le.
      rewrite H in Hlen. simpl in Hlen. lia.
Qed.

Lemma delete_rows_noop (u c : string) (d : Db) :
  Supabase.delete_rows u c d = d <-> existsb (is_pair u c) (bookmarks d) = false.
Proof.
  unfold Supabase.delete_rows. destruct d as [us bs]. cbn [users bookmarks].
  split.
  - intros H. injection H as H. apply filter_all in H.
    induction bs as [ | b bs IH]; simpl in *.
    + reflexivity.
    + apply andb_true_iff in H. destruct H as [Hb H].
      apply negb_true_iff in Hb. rewrite Hb. simpl. auto.
  - intros H. f_equal. apply filter_all.
    induction bs as [ | b bs IH]; simpl in *.
    + reflexivity.
    + apply orb_false_iff in H. destruct H as [Hb H].
      rewrite Hb. simpl. auto.
Qed.

End Postgres.

End StoreFacts.

(** ** The bookmark helpers over the Postgres-backed client *)

Section GatewayFacts.

Import Store Supabase Async SupabaseApi Reference.
Local Open Scope list_scope.

Variable gen_random_uuid : Db -> string.
Variable now : Db -> Z.

Local Notation "'pg'" := (postgres gen_random_uuid now).

Lemma addBookmark_duplicate (u c : string) (w : World) :
  existsb (is_pair u c) (bookmarks (db w)) = true ->
  addBookmark pg u c w
  = (Throw duplicateBookmark, record (DbCall "bookmarks" "insert") w).
Proof.
  intros H.
  unfold addBookmark, catch, bindM, query, postgres, insert_row;
    cbn [bookmarks_insert].
  rewrite H. destruct w; reflexivity.
Qed.

Lemma addBookmark_fresh (u c : string) (w : World) :
  existsb (is_pair u c) (bookmarks (db w)) = false ->
  existsb (fun usr => String.eqb (id usr) u) (users (db w)) = true ->
  let row := {| Bookmark.id := gen_random_uuid (db w);
                Bookmark.user_id := u;
                Bookmark.content_id := c;
                Bookmark.created_at := now (db w) |} in
  addBookmark pg u c w
  = (Ok row,
     record (DbCall "bookmarks" "insert")
       (with_db {| users := users (db w); bookmarks := bookmarks (db w) ++ [row] |} w)).
Proof.
  intros Hpair Huser row.
  unfold addBookmark, catch, bindM, query, postgres, insert_row;
    cbn [bookmarks_insert].
  rewrite Hpair, Huser. reflexivity.
Qed.

Lemma getBookmarks_postgres (u : string) (w : World) :
  getBookmarks pg u w
  = (Ok (order_by_created_at_desc (filter (owned_by u) (bookmarks (db w)))),
     record (DbCall "bookmarks" "select") w).
Proof. reflexivity. Qed.

Lemma removeBookmark_postgres (u c : string) (w : World) :
  removeBookmark pg u c w
  = (Ok {| success := true |},
     record (DbCall "bookmarks" "delete") (with_db (delete_rows u c (db w)) w)).
Proof. reflexivity. Qed.

Lemma user_exists (u : string) (d : Db) :
  In u (map id (users d)) ->
  existsb (fun usr => String.eqb (id usr) u) (users d) = true.
Proof.
  intros H. apply in_map_iff in H. destruct H as (usr & <- & Hin).
  apply existsb_exists. exists usr. split; [exact Hin | apply String.eqb_refl].
Qed.

End GatewayFacts.

Section GatewayStateFacts.

Import Store Supabase Async SupabaseApi Reference.
Local Open Scope list_scope.

Variable gen_random_uuid : Db -> string.
Variable now : Db -> Z.

Local Notation "'pg'" := (postgres gen_random_uuid now).

(** [addBookmark] leaves the tables as the INSERT leaves them *)
Lemma addBookmark_db (u c : string) (w : World) :
  db (snd (addBookmark pg u c w)) = snd (insert_row gen_random_uuid now u c (db w)).
Proof.
  unfold addBookmark, catch, bindM, query, postgres, insert_row;
    cbn [bookmarks_insert].
  destruct (existsb (is_pair u c) (bookmarks (db w))); [reflexivity | ].
  destruct (negb (existsb (fun usr => String.eqb (id usr) u) (users (db w))));
    reflexivity.
Qed.

(** after an INSERT for an existing user the pair is in the table *)
Lemma insert_row_present (u c : string) (d : Db) :
  In u (map id (users d)) ->
  existsb (is_pair u c)
    (bookmarks (snd (insert_row gen_random_uuid now u c d))) = true.
Proof.
  intros Huser. unfold insert_row.
  destruct (existsb (is_pair u c) (bookmarks d)) eqn:Hex; [exact Hex | ].
  rewrite (user_exists u d Huser). cbn [negb snd bookmarks].
  rewrite existsb_app. cbn [existsb].
  unfold is_pair at 2. cbn [Bookmark.user_id Bookmark.content_id].
  rewrite !String.eqb_refl. apply orb_true_r.
Qed.

End GatewayStateFacts.

(** C1. Over any table that satisfies [unique_user_bookmark] and for any
    existing user: adding a bookmark for a pair that is already present
    is refused by the store with code 23505, surfaces from [addBookmark]
    as the error "이미 북마크한 관광지입니다." and leaves the tables as they
    were; after insert, insert again, list, the second insert is such a
    duplicate and the user's list holds exactly one bookmark with that
    content identifier. *)
Theorem duplicate_bookmark_rejected :
  forall (gen_random_uuid : Store.Db -> string) (now : Store.Db -> Z)
         (w : Store.World) (userId contentId : string),
    Store.unique_user_bookmark (Store.db w) ->
    In userId (map Store.id (Store.users (Store.db w))) ->
    let pg := Supabase.postgres gen_random_uuid now in
    let w1 := snd (SupabaseApi.addBookmark pg userId contentId w) in
    let w2 := snd (SupabaseApi.addBookmark pg userId contentId w1) in
    (existsb (Store.is_pair userId contentId) (Store.bookmarks (Store.db w)) = true ->
       fst (SupabaseApi.addBookmark pg userId contentId w)
       = Throw (Error "이미 북마크한 관광지입니다.")
       /\ Store.db w1 = Store.db w)
    /\ (exists e,
          fst (Supabase.bookmarks_insert pg userId contentId w1) = Supabase.failure e
          /\ Supabase.code e = "23505")
    /\ fst (SupabaseApi.addBookmark pg userId contentId w1)
       = Throw (Error "이미 북마크한 관광지입니다.")
    /\ Store.db w2 = Store.db w1
    /\ Store.unique_user_bookmark (Store.db w2)
    /\ exists rows,
         fst (SupabaseApi.getBookmarks pg userId w2) = Ok rows
         /\ List.length
              (filter (fun b => String.eqb (Bookmark.content_id b) contentId) rows)
            = 1.
Proof.
  intros gen now w u c Hunique Huser pg w1 w2. subst pg.
  assert (Hdb1 : Store.db w1 = snd (Supabase.insert_row gen now u c (Store.db w)))
    by apply addBookmark_db.
  assert (Hpresent : existsb (Store.is_pair u c) (Store.bookmarks (Store.db w1)) = true).
  { rewrite Hdb1. apply insert_row_present. exact Huser. }
  assert (Hunique1 : Store.unique_user_bookmark (Store.db w1)).
  { rewrite Hdb1. apply insert_row_unique. exact Hunique. }
  assert (Hsecond : SupabaseApi.addBookmark (Supabase.postgres gen now) u c w1
                    = (Throw Reference.duplicateBookmark,
                       Store.record (Store.DbCall "bookmarks" "insert") w1))
    by (apply addBookmark_duplicate; exact Hpresent).
  assert (Hdb2 : Store.db w2 = Store.db w1).
  { unfold w2. rewrite Hsecond. reflexivity. }
  split; [ | split; [ | split; [ | split; [ | split]]]].
  - intros Hex. unfold w1.
    rewrite (addBookmark_duplicate gen now u c w Hex). split; reflexivity.
  - destruct (insert_row_duplicate gen now u c (Store.db w1) Hpresent)
      as (e & He & Hcode).
    exists e. split; [ | exact Hcode].
    unfold Supabase.postgres; cbn [Supabase.bookmarks_insert].
    rewrite He. reflexivity.
  - rewrite Hsecond. reflexivity.
  - exact Hdb2.
  - rewrite Hdb2. exact Hunique1.
  - eexists. split; [apply (f_equal fst (getBookmarks_postgres gen now u w2)) | ].
    rewrite <- (filter_length_perm _ _ _
                  (order_by_created_at_desc_perm
                     (filter (Store.owned_by u) (Store.bookmarks (Store.db w2))))).
    rewrite pair_among_owned, Hdb2.
    apply unique_pair_once; assumption.
Qed.

(** C1 at the sample store: the one user bookmarks a new place twice *)
Lemma duplicate_bookmark_rejected_witness :
  Store.unique_user_bookmark Reference.sampleDb
  /\ In "7f9c2f6e-0001" (map Store.id (Store.users Reference.sampleDb))
  /\ fst (SupabaseApi.addBookmark
            (Supabase.postgres Reference.sample_uuid Reference.sample_now)
            "7f9c2f6e-0001" "126508"
            (snd (SupabaseApi.addBookmark
                    (Supabase.postgres Reference.sample_uuid Reference.sample_now)
                    "7f9c2f6e-0001" "126508"
                    (Reference.world (Some "user_2abc") Reference.sampleDb))))
     = Throw (Error "이미 북마크한 관광지입니다.").
Proof.
  assert (Hunique : Store.unique_user_bookmark Reference.sampleDb).
  { unfold Store.unique_user_bookmark. simpl.
    constructor; [intros [] | constructor]. }
  assert (Huser : In "7f9c2f6e-0001" (map Store.id (Store.users Reference.sampleDb)))
    by (left; reflexivity).
  split; [exact Hunique | split; [exact Huser | ]].
  exact (proj1 (proj2 (proj2
           (duplicate_bookmark_rejected Reference.sample_uuid Reference.sample_now
              (Reference.world (Some "user_2abc") Reference.sampleDb)
              "7f9c2f6e-0001" "126508" Hunique Huser)))).
Defined.

(** at the sample store: the pair is created, refused the second time,
    and listed once, newest first *)
Example add_twice_then_list :
  let pg := Supabase.postgres Reference.sample_uuid Reference.sample_now in
  let w0 := Reference.world (Some "user_2abc") Reference.sampleDb in
  let w1 := snd (SupabaseApi.addBookmark pg "7f9c2f6e-0001" "126508" w0) in
  let w2 := snd (SupabaseApi.addBookmark pg "7f9c2f6e-0001" "126508" w1) in
  fst (SupabaseApi.addBookmark pg "7f9c2f6e-0001" "126508" w1)
  = Throw Reference.duplicateBookmark
  /\ fst (SupabaseApi.getBookmarks pg "7f9c2f6e-0001" w2)
     = Ok [ {| Bookmark.id := "b-0002";
               Bookmark.user_id := "7f9c2f6e-0001";
               Bookmark.content_id := "126508";
               Bookmark.created_at := 21 |};
            Reference.gyeongbokgung ].
Proof. split; reflexivity. Qed.

(** an unknown user cannot bookmark: the foreign key refuses the row, and
    the refusal is not reported as a duplicate *)
Example add_for_unknown_user :
  SupabaseApi.addBookmark
    (Supabase.postgres Reference.sample_uuid Reference.sample_now)
    "00000000-0000" "126508" (Reference.world None Reference.sampleDb)
  = (Throw (Error "Failed to add bookmark: insert or update on table bookmarks violates foreign key constraint"),
     Store.record (Store.DbCall "bookmarks" "insert")
       (Reference.world None Reference.sampleDb)).
Proof. reflexivity. Qed.

(** removing a pair that has no bookmark, at the sample store *)
Example remove_absent :
  let pg := Supabase.postgres Reference.sample_uuid Reference.sample_now in
  let w0 := Reference.world (Some "user_2abc") Reference.sampleDb in
  fst (SupabaseApi.removeBookmark pg "7f9c2f6e-0001" "999999" w0)
  = Ok {| SupabaseApi.success := true |}
  /\ Store.db (snd (SupabaseApi.removeBookmark pg "7f9c2f6e-0001" "999999" w0))
     = Reference.sampleDb.
Proof. split; reflexivity. Qed.

(** C2. [removeBookmark] always resolves to [{ success: true }], also when
    the pair has no bookmark, in which case (and only then) the tables are
    left as they were; afterwards the pair has no bookmark, every other
    row is kept, and removing the same pair again resolves the same way
    and leaves the same tables. *)
Theorem removeBookmark_idempotent :
  forall (gen_random_uuid : Store.Db -> string) (now : Store.Db -> Z)
         (w : Store.World) (userId contentId : string),
    let pg := Supabase.postgres gen_random_uuid now in
    let w1 := snd (SupabaseApi.removeBookmark pg userId contentId w) in
    let w2 := snd (SupabaseApi.removeBookmark pg userId contentId w1) in
    fst (SupabaseApi.removeBookmark pg userId contentId w)
    = Ok {| SupabaseApi.success := true |}
    /\ fst (SupabaseApi.removeBookmark pg userId contentId w1)
       = Ok {| SupabaseApi.success := true |}
    /\ Store.db w2 = Store.db w1
    /\ (Store.db w1 = Store.db w <->
          existsb (Store.is_pair userId contentId) (Store.bookmarks (Store.db w)) = false)
    /\ existsb (Store.is_pair userId contentId) (Store.bookmarks (Store.db w1)) = false
    /\ (forall b, In b (Store.bookmarks (Store.db w1)) <->
                  In b (Store.bookmarks (Store.db w))
                  /\ Store.is_pair userId contentId b = false)
    /\ Store.users (Store.db w1) = Store.users (Store.db w).
Proof.
  intros gen now w u c pg w1 w2.
  assert (Hdb1 : Store.db w1 = Supabase.delete_rows u c (Store.db w)) by reflexivity.
  assert (Hdb2 : Store.db w2 = Supabase.delete_rows u c (Store.db w1)) by reflexivity.
  assert (Hin : forall b, In b (Store.bookmarks (Store.db w1)) <->
                  In b (Store.bookmarks (Store.db w)) /\ Store.is_pair u c b = false).
  { intros b. rewrite Hdb1. unfold Supabase.delete_rows. cbn [Store.bookmarks].
    rewrite filter_In, negb_true_iff. tauto. }
  split; [reflexivity | ].
  split; [reflexivity | ].
  split; [rewrite Hdb2, Hdb1; apply delete_rows_idempotent | ].
  split; [rewrite Hdb1; apply delete_rows_noop | ].
  split; [ | split; [exact Hin | reflexivity]].
  destruct (existsb (Store.is_pair u c) (Store.bookmarks (Store.db w1))) eqn:Hex;
    [ | reflexivity].
  apply existsb_exists in Hex. destruct Hex as (b & Hb & Hpair).
  apply Hin in Hb. destruct Hb as [_ Hb]. congruence.
Qed.

(** C3. [getBookmarks] resolves to a list that holds exactly the rows of
    the user (a permutation of them), newest first; it is empty exactly
    when the user has no bookmark, and the tables are not changed. *)
Theorem getBookmarks_newest_first :
  forall (gen_random_uuid : Store.Db -> string) (now : Store.Db -> Z)
         (w : Store.World) (userId : string),
    let pg := Supabase.postgres gen_random_uuid now in
    exists rows,
      fst (SupabaseApi.getBookmarks pg userId w) = Ok rows
      /\ Permutation rows
           (filter (Store.owned_by userId) (Store.bookmarks (Store.db w)))
      /\ (forall b, In b rows <->
                    In b (Store.bookmarks (Store.db w)) /\ Bookmark.user_id b = userId)
      /\ StronglySorted Store.newer_first rows
      /\ (rows = [] <->
            forall b, In b (Store.bookmarks (Store.db w)) -> Bookmark.user_id b <> userId)
      /\ Store.db (snd (SupabaseApi.getBookmarks pg userId w)) = Store.db w.
Proof.
  intros gen now w u pg.
  set (mine := filter (Store.owned_by u) (Store.bookmarks (Store.db w))).
  assert (Hperm : Permutation (Store.order_by_created_at_desc mine) mine)
    by (apply Permutation_sym, order_by_created_at_desc_perm).
  assert (Hmine : forall b, In b mine <->
            In b (Store.bookmarks (Store.db w)) /\ Bookmark.user_id b = u).
  { intros b. unfold mine, Store.owned_by. rewrite filter_In, String.eqb_eq. tauto. }
  exists (Store.order_by_created_at_desc mine).
  split; [reflexivity | ].
  split; [exact Hperm | ].
  split.
  { intros b. rewrite <- Hmine. split; intros H.
    - eapply Permutation_in; [exact Hperm | exact H].
    - eapply Permutation_in; [apply Permutation_sym; exact Hperm | exact H]. }
  split; [apply order_by_created_at_desc_sorted | ].
  split; [ | reflexivity].
  split.
  - intros Hempty b Hb Hu.
    rewrite Hempty in Hperm. apply Permutation_nil in Hperm.
    assert (Hin : In b mine) by (apply Hmine; auto).
    rewrite Hperm in Hin. exact Hin.
  - intros Hnone.
    assert (Hnil : mine = []).
    { destruct mine as [ | b rest]; [reflexivity | ].
      exfalso.
      destruct (proj1 (Hmine b) (or_introl eq_refl)) as [Hin Hu].
      exact (Hnone b Hin Hu). }
    rewrite Hnil. reflexivity.
Qed.

(** ** The server actions *)

Section ActionFacts.

Import Store Supabase Async SupabaseApi Actions.
Local Open Scope list_scope.

Lemma invalidContentId_Blank (contentId : string) :
  Blank contentId -> invalidContentId contentId = true.
Proof.
  intros H. unfold invalidContentId.
  rewrite (trim_Blank contentId H). apply orb_true_r.
Qed.

Lemma invalidContentId_false (contentId : string) :
  trim contentId <> "" -> invalidContentId contentId = false.
Proof.
  intros H. unfold invalidContentId. apply orb_false_iff. split.
  - apply String.eqb_neq. intros ->. apply H. reflexivity.
  - apply String.eqb_neq. exact H.
Qed.

Lemma no_user_for (clerkId : string) (l : list User) :
  (forall usr, In usr l -> clerk_id usr <> clerkId) ->
  filter (fun usr => String.eqb (clerk_id usr) clerkId) l = [].
Proof.
  induction l as [ | usr l IH]; simpl; intros H.
  - reflexivity.
  - destruct (String.eqb_spec (clerk_id usr) clerkId) as [Heq | _].
    + exfalso. apply (H usr); auto.
    + apply IH. intros usr' Hin. apply H. auto.
Qed.

Variable gen_random_uuid : Db -> string.
Variable now : Db -> Z.

Local Notation "'pg'" := (postgres gen_random_uuid now).

(** with no row for the Clerk identity the lookup answers [null], having
    only read the [users] table *)
Lemma getSupabaseUserId_unsynced (clerkId : string) (w : World) :
  (forall usr, In usr (users (db w)) -> clerk_id usr <> clerkId) ->
  getSupabaseUserId pg clerkId w = (Ok None, record (DbCall "users" "select") w).
Proof.
  intros H.
  unfold getSupabaseUserId, catch, bindM, query, postgres;
    cbn [users_id_by_clerk_id].
  rewrite (no_user_for clerkId _ H). reflexivity.
Qed.

End ActionFacts.

(** C8. For a signed-in Clerk identity that has no row in [users]: the
    lookup [getSupabaseUserId] answers [null] (the store reports PGRST116),
    and each of the three actions, given an acceptable content identifier,
    throws the error "사용자 정보를 찾을 수 없습니다. 먼저 로그인해주세요.",
    which differs from the error "로그인이 필요합니다." thrown when nobody
    is signed in; both tables, [users] included, are left as they were. *)
Theorem unsynced_account_is_reported :
  forall (gen_random_uuid : Store.Db -> string) (now : Store.Db -> Z)
         (w : Store.World) (clerkId contentId : string),
    Store.session w = Some clerkId ->
    clerkId <> "" ->
    (forall usr, In usr (Store.users (Store.db w)) -> Store.clerk_id usr <> clerkId) ->
    trim contentId <> "" ->
    let pg := Supabase.postgres gen_random_uuid now in
    let unsynced : Result string :=
      Throw (Error "사용자 정보를 찾을 수 없습니다. 먼저 로그인해주세요.") in
    (exists e,
       fst (Supabase.users_id_by_clerk_id pg clerkId w) = Supabase.failure e
       /\ Supabase.code e = "PGRST116")
    /\ fst (SupabaseApi.getSupabaseUserId pg clerkId w) = Ok None
    /\ Store.db (snd (SupabaseApi.getSupabaseUserId pg clerkId w)) = Store.db w
    /\ fst (Actions.getBookmarksAction pg w)
       = Throw (Error "사용자 정보를 찾을 수 없습니다. 먼저 로그인해주세요.")
    /\ Store.db (snd (Actions.getBookmarksAction pg w)) = Store.db w
    /\ fst (Actions.addBookmarkAction pg contentId w)
       = Throw (Error "사용자 정보를 찾을 수 없습니다. 먼저 로그인해주세요.")
    /\ Store.db (snd (Actions.addBookmarkAction pg contentId w)) = Store.db w
    /\ fst (Actions.removeBookmarkAction pg contentId w)
       = Throw (Error "사용자 정보를 찾을 수 없습니다. 먼저 로그인해주세요.")
    /\ Store.db (snd (Actions.removeBookmarkAction pg contentId w)) = Store.db w
    /\ fst (Actions.addBookmarkAction pg contentId
              {| Store.session := None; Store.db := Store.db w;
                 Store.calls := Store.calls w |})
       = Throw (Error "로그인이 필요합니다.")
    /\ Error "사용자 정보를 찾을 수 없습니다. 먼저 로그인해주세요."
       <> Error "로그인이 필요합니다.".
Proof.
  intros gen now w clerkId contentId Hsession Hclerk Hnone Hcontent pg unsynced.
  subst pg unsynced.
  destruct w as [s d cs]. cbn [Store.session Store.db Store.calls] in *. subst s.
  assert (Hvalid := invalidContentId_false contentId Hcontent).
  assert (Hmissing : String.eqb clerkId "" = false)
    by (apply String.eqb_neq; exact Hclerk).
  assert (Hlookup : forall cs',
            SupabaseApi.getSupabaseUserId (Supabase.postgres gen now) clerkId
              {| Store.session := Some clerkId; Store.db := d; Store.calls := cs' |}
            = (Ok None,
               Store.record (Store.DbCall "users" "select")
                 {| Store.session := Some clerkId; Store.db := d;
                    Store.calls := cs' |})).
  { intros cs'. apply getSupabaseUserId_unsynced. exact Hnone. }
  split.
  { eexists. unfold Supabase.postgres; cbn [Supabase.users_id_by_clerk_id fst Store.db].
    rewrite (no_user_for clerkId _ Hnone). split; reflexivity. }
  split; [rewrite Hlookup; reflexivity | ].
  split; [rewrite Hlookup; reflexivity | ].
  cbv beta iota zeta delta
    [Actions.getBookmarksAction Actions.addBookmarkAction
     Actions.removeBookmarkAction Async.catch Async.bindM Async.auth
     Store.record Store.session Store.db Store.calls
     Actions.orEmpty Actions.missing].
  rewrite Hvalid, Hmissing, Hlookup.
  repeat (split; [reflexivity | ]).
  discriminate.
Qed.

(** C8 at the sample store, for a Clerk identity that was never synced *)
Lemma unsynced_account_is_reported_witness :
  Store.session (Reference.world (Some "user_9zzz") Reference.sampleDb)
  = Some "user_9zzz"
  /\ "user_9zzz" <> ""
  /\ trim "125266" <> ""
  /\ fst (Actions.addBookmarkAction
            (Supabase.postgres Reference.sample_uuid Reference.sample_now)
            "125266" (Reference.world (Some "user_9zzz") Reference.sampleDb))
     = Throw (Error "사용자 정보를 찾을 수 없습니다. 먼저 로그인해주세요.")
  /\ Store.db (snd (Actions.addBookmarkAction
            (Supabase.postgres Reference.sample_uuid Reference.sample_now)
            "125266" (Reference.world (Some "user_9zzz") Reference.sampleDb)))
     = Reference.sampleDb.
Proof.
  assert (Hclerk : "user_9zzz" <> "") by discriminate.
  assert (Hcontent : trim "125266" <> "") by (vm_compute; discriminate).
  assert (Hnone : forall usr,
            In usr (Store.users
                      (Store.db (Reference.world (Some "user_9zzz") Reference.sampleDb))) ->
            Store.clerk_id usr <> "user_9zzz").
  { intros usr [<- | []]. discriminate. }
  split; [reflexivity | split; [exact Hclerk | split; [exact Hcontent | ]]].
  destruct (unsynced_account_is_reported Reference.sample_uuid Reference.sample_now
              (Reference.world (Some "user_9zzz") Reference.sampleDb)
              "user_9zzz" "125266" eq_refl Hclerk Hnone Hcontent)
    as (_ & _ & _ & _ & _ & Hadd & Hdb & _).
  split; [exact Hadd | exact Hdb].
Defined.

(** C10. For a content identifier that is empty or made of white space
    only, [addBookmarkAction] and [removeBookmarkAction] throw the error
    "관광지 ID가 필요합니다." and leave the world exactly as it was, its
    record of calls included: neither [auth()] nor any query was issued,
    whichever client the action would have used. *)
Theorem blank_content_id_rejected :
  forall (client : Supabase.SupabaseClient) (contentId : string) (w : Store.World),
    Blank contentId ->
    Actions.addBookmarkAction client contentId w
    = (Throw (Error "관광지 ID가 필요합니다."), w)
    /\ Actions.removeBookmarkAction client contentId w
       = (Throw (Error "관광지 ID가 필요합니다."), w).
Proof.
  intros client contentId w Hblank.
  unfold Actions.addBookmarkAction, Actions.removeBookmarkAction, Async.catch.
  rewrite (invalidContentId_Blank contentId Hblank).
  split; reflexivity.
Qed.

(** C10 at a string made of a space, a tab and an ideographic space *)
Lemma blank_content_id_rejected_witness :
  Blank (" " ++ bytes [9] ++ "　")
  /\ Actions.addBookmarkAction
       (Supabase.postgres Reference.sample_uuid Reference.sample_now)
       (" " ++ bytes [9] ++ "　")
       (Reference.world (Some "user_2abc") Reference.sampleDb)
     = (Throw (Error "관광지 ID가 필요합니다."),
        Reference.world (Some "user_2abc") Reference.sampleDb).
Proof.
  assert (Hblank : Blank (" " ++ bytes [9] ++ "　")).
  { apply Blank_ws; [do 5 right; left; reflexivity | ].
    apply Blank_ws; [left; reflexivity | ].
    apply (Blank_ws "　" ""); [do 23 right; left; reflexivity | ].
    apply Blank_empty. }
  split; [exact Hblank | ].
  exact (proj1 (blank_content_id_rejected
                  (Supabase.postgres Reference.sample_uuid Reference.sample_now)
                  _ (Reference.world (Some "user_2abc") Reference.sampleDb) Hblank)).
Defined.

(** ** The fan-out of the two pages *)

Section FanOutFacts.

Import Store TourApi Pages.
Local Open Scope list_scope.

Variable toLowerCase : string -> string.
Variable env : Env.

Lemma fetchIntro_failure (net : Network (Body TourIntro.t)) (item : TourDetail.t)
  (e : Thrown) :
  fst (detailIntro2 toLowerCase env net
         (TourDetail.contentid item) (TourDetail.contenttypeid item)) = Throw e ->
  fetchIntro toLowerCase env net item = None.
Proof. intros H. unfold fetchIntro. rewrite H. reflexivity. Qed.

Lemma fetchImages_failure (net : Network (Body TourImage.t)) (item : TourDetail.t)
  (e : Thrown) :
  fst (detailImage2 toLowerCase env net (TourDetail.contentid item)) = Throw e ->
  fetchImages toLowerCase env net item = None.
Proof. intros H. unfold fetchImages. rewrite H. reflexivity. Qed.

Lemma fetchTour_failure (net : Network (Body TourDetail.t)) (bookmark : Bookmark.t)
  (e : Thrown) :
  fst (detailCommon2 toLowerCase env net (Bookmark.content_id bookmark)) = Throw e ->
  fetchTour toLowerCase env net bookmark = None.
Proof. intros H. unfold fetchTour. rewrite H. reflexivity. Qed.

(** a branch that is answered with an array of items keeps its first item,
    or all of them *)
Lemma fetchIntro_success (net : Network (Body TourIntro.t)) (item : TourDetail.t)
  (introResponse : Data (Body TourIntro.t)) (introItem : TourIntro.t)
  (more : list TourIntro.t) :
  fst (detailIntro2 toLowerCase env net
         (TourDetail.contentid item) (TourDetail.contenttypeid item))
  = Ok introResponse ->
  itemsOf introResponse = Some (Many (introItem :: more)) ->
  fetchIntro toLowerCase env net item
  = Some (TourIntro.spread
            [ ("contentid",
               orElse (TourIntro.get "contentid" introItem)
                      (TourDetail.contentid item));
              ("contenttypeid",
               orElse (TourIntro.get "contenttypeid" introItem)
                      (TourDetail.contenttypeid item)) ]
            introItem).
Proof. intros H Hitems. unfold fetchIntro. rewrite H, Hitems. reflexivity. Qed.

Lemma fetchImages_success (net : Network (Body TourImage.t)) (item : TourDetail.t)
  (imageResponse : Data (Body TourImage.t)) (img : TourImage.t)
  (more : list TourImage.t) :
  fst (detailImage2 toLowerCase env net (TourDetail.contentid item))
  = Ok imageResponse ->
  itemsOf imageResponse = Some (Many (img :: more)) ->
  fetchImages toLowerCase env net item
  = Some (map (fun img =>
                 {| TourImage.contentid :=
                      orElse (Some (TourImage.contentid img))
                             (TourDetail.contentid item);
                    TourImage.originimgurl := TourImage.originimgurl img;
                    TourImage.serialnum := TourImage.serialnum img;
                    TourImage.smallimageurl := TourImage.smallimageurl img;
                    TourImage.imgname := TourImage.imgname img |})
              (img :: more)).
Proof. intros H Hitems. unfold fetchImages. rewrite H, Hitems. reflexivity. Qed.

Lemma fetchTour_success (net : Network (Body TourDetail.t)) (bookmark : Bookmark.t)
  (response : Data (Body TourDetail.t)) (item : TourDetail.t)
  (more : list TourDetail.t) :
  fst (detailCommon2 toLowerCase env net (Bookmark.content_id bookmark))
  = Ok response ->
  itemsOf response = Some (Many (item :: more)) ->
  fetchTour toLowerCase env net bookmark = Some (toTourItem item).
Proof. intros H Hitems. unfold fetchTour. rewrite H, Hitems. reflexivity. Qed.

(** a branch that is answered with a single object is read as empty *)
Lemma fetchIntro_single (net : Network (Body TourIntro.t)) (item : TourDetail.t)
  (introResponse : Data (Body TourIntro.t)) (x : TourIntro.t) :
  fst (detailIntro2 toLowerCase env net
         (TourDetail.contentid item) (TourDetail.contenttypeid item))
  = Ok introResponse ->
  itemsOf introResponse = Some (One x) ->
  fetchIntro toLowerCase env net item = None.
Proof. intros H Hitems. unfold fetchIntro. rewrite H, Hitems. reflexivity. Qed.

Lemma fetchImages_single (net : Network (Body TourImage.t)) (item : TourDetail.t)
  (imageResponse : Data (Body TourImage.t)) (x : TourImage.t) :
  fst (detailImage2 toLowerCase env net (TourDetail.contentid item))
  = Ok imageResponse ->
  itemsOf imageResponse = Some (One x) ->
  fetchImages toLowerCase env net item = None.
Proof. intros H Hitems. unfold fetchImages. rewrite H, Hitems. reflexivity. Qed.

Lemma fetchTour_single (net : Network (Body TourDetail.t)) (bookmark : Bookmark.t)
  (response : Data (Body TourDetail.t)) (x : TourDetail.t) :
  fst (detailCommon2 toLowerCase env net (Bookmark.content_id bookmark))
  = Ok response ->
  itemsOf response = Some (One x) ->
  fetchTour toLowerCase env net bookmark = None.
Proof. intros H Hitems. unfold fetchTour. rewrite H, Hitems. reflexivity. Qed.

(** the tours around one bookmark, by what its branch gives *)
Lemma fetchTours_around (nets : Bookmark.t -> Network (Body TourDetail.t))
  (before after : list Bookmark.t) (bookmark : Bookmark.t) :
  fetchTours toLowerCase env nets (before ++ bookmark :: after)
  = fetchTours toLowerCase env nets before
    ++ match fetchTour toLowerCase env (nets bookmark) bookmark with
       | Some tour => [tour]
       | None => []
       end
    ++ fetchTours toLowerCase env nets after.
Proof.
  unfold fetchTours. rewrite map_app. cbn [map].
  induction (map (fun b => fetchTour toLowerCase env (nets b) b) before)
    as [ | [t | ] l IH]; cbn [nonNull app].
  - destruct (fetchTour toLowerCase env (nets bookmark) bookmark); reflexivity.
  - f_equal. exact IH.
  - exact IH.
Qed.

Lemma nonNull_app {A} (l1 l2 : list (option A)) :
  nonNull (l1 ++ l2) = nonNull l1 ++ nonNull l2.
Proof.
  induction l1 as [ | [a | ] l1 IH]; simpl; congruence.
Qed.

Lemma fetchTours_app (nets : Bookmark.t -> Network (Body TourDetail.t))
  (l1 l2 : list Bookmark.t) :
  fetchTours toLowerCase env nets (l1 ++ l2)
  = fetchTours toLowerCase env nets l1 ++ fetchTours toLowerCase env nets l2.
Proof. unfold fetchTours. rewrite map_app. apply nonNull_app. Qed.

(** the page reaches its fan-out as soon as the common detail is there *)
Lemma PlaceDetailPage_renders
  (netCommon : Network (Body TourDetail.t))
  (netIntro : Network (Body TourIntro.t))
  (netImage : Network (Body TourImage.t))
  (contentId : string) (response : Data (Body TourDetail.t))
  (item : TourDetail.t) (rest : list TourDetail.t) :
  blank contentId = false ->
  fst (detailCommon2 toLowerCase env netCommon contentId) = Ok response ->
  itemsOf response = Some (Many (item :: rest)) ->
  PlaceDetailPage toLowerCase env netCommon netIntro netImage contentId
  = Returns {| detail := toDetail item;
               intro := fetchIntro toLowerCase env netIntro item;
               images := fetchImages toLowerCase env netImage item |}.
Proof.
  intros Hblank Hcommon Hitems.
  unfold PlaceDetailPage, loadDetail. rewrite Hblank, Hcommon, Hitems.
  reflexivity.
Qed.

(** past the sign-in guard the bookmarks page always renders *)
Lemma BookmarksPage_renders
  (client : Supabase.SupabaseClient) (redirectToSignIn : Completion unit)
  (nets : Bookmark.t -> Network (Body TourDetail.t)) (w : World) :
  Actions.missing (session w) = false ->
  exists view w',
    BookmarksPage toLowerCase env client redirectToSignIn nets w = (Returns view, w')
    /\ forall bookmarks,
         fst (Actions.getBookmarksAction client (record AuthCall w)) = Ok bookmarks ->
         Pages.bookmarks view = bookmarks
         /\ tours view = fetchTours toLowerCase env nets bookmarks.
Proof.
  intros Hsigned. unfold BookmarksPage, Async.auth. rewrite Hsigned.
  destruct (Actions.getBookmarksAction client (record AuthCall w)) as [[bs | err] w2].
  - destruct bs as [ | b bs]; cbn [List.length Nat.eqb];
      eexists; eexists; (split; [reflexivity | ]);
      intros bookmarks H; injection H as <-; split; reflexivity.
  - eexists; eexists. split; [reflexivity | ].
    intros bookmarks H. discriminate.
Qed.

End FanOutFacts.

(** C6. The claim does not hold of the two pages for a branch whose
    request succeeds with a single result sent as the object itself.  On
    the palace page, with the intro request failing on every attempt and
    the image request answered with one image as a single object, the
    page renders and the failed intro is absent, but the image is absent
    too, although its request resolved with it; sent as a one-element
    array the same image is kept.  On the bookmarks page, with the
    provider down for the second bookmark and answering the first with a
    single object, no tour is left, where the array form keeps the tour
    of the first bookmark. *)
Theorem fan_out_drops_single_result :
  (fst (TourApi.detailImage2 toLowerCaseAscii Reference.serverEnv
          (Samples.servingOne Reference.palaceImage) "125266")
   = Reference.serving_answer (TourApi.One Reference.palaceImage))
  /\ Pages.PlaceDetailPage toLowerCaseAscii Reference.serverEnv
       (Reference.serving [Reference.palace]) (Reference.always 500)
       (Samples.servingOne Reference.palaceImage) "125266"
     = Pages.Returns
         {| Pages.detail := Reference.palace;
            Pages.intro := None;
            Pages.images := None |}
  /\ Pages.PlaceDetailPage toLowerCaseAscii Reference.serverEnv
       (Reference.serving [Reference.palace]) (Reference.always 500)
       (Reference.serving [Reference.palaceImage]) "125266"
     = Pages.Returns
         {| Pages.detail := Reference.palace;
            Pages.intro := None;
            Pages.images := Some [Reference.palaceImage] |}
  /\ (fst (TourApi.detailCommon2 toLowerCaseAscii Reference.serverEnv
             (Samples.palaceAlone Reference.gyeongbokgung) "125266")
      = Reference.serving_answer (TourApi.One Reference.palace))
  /\ Pages.fetchTours toLowerCaseAscii Reference.serverEnv Samples.palaceAlone
       [Reference.gyeongbokgung; Reference.namsan]
     = []
  /\ Pages.fetchTours toLowerCaseAscii Reference.serverEnv Reference.palaceOnly
       [Reference.gyeongbokgung; Reference.namsan]
     = [Pages.toTourItem Reference.palace].
Proof.
  repeat split; vm_compute; reflexivity.
Qed.

(** X30. On the detail page, once the common detail is there (its
    request answered with an array of items), the page renders the first
    item whatever the intro and image requests do.  Each of the two
    results is computed from its own request alone: it is absent when
    that request fails, it holds the first intro item, or all the images,
    when that request is answered with an array of items, and it is
    absent when the answer is a single object.  On the bookmarks page,
    past the sign-in guard, the page always renders; with the bookmarks
    listed, its tours are those of the per-bookmark requests: a bookmark
    whose request fails, or is answered with a single object, contributes
    nothing, one answered with an array contributes its first item, and
    in each case the tours of the bookmarks before and after it are
    kept. *)
Theorem fan_out_tolerates_branch_failure :
  forall (toLowerCase : string -> string) (env : TourApi.Env),
    (forall (netCommon : TourApi.Network (TourApi.Body TourDetail.t))
            (netIntro : TourApi.Network (TourApi.Body TourIntro.t))
            (netImage : TourApi.Network (TourApi.Body TourImage.t))
            (contentId : string) (response : TourApi.Data (TourApi.Body TourDetail.t))
            (item : TourDetail.t) (rest : list TourDetail.t),
       TourApi.blank contentId = false ->
       fst (TourApi.detailCommon2 toLowerCase env netCommon contentId) = Ok response ->
       TourApi.itemsOf response = Some (TourApi.Many (item :: rest)) ->
       Pages.PlaceDetailPage toLowerCase env netCommon netIntro netImage contentId
       = Pages.Returns
           {| Pages.detail := Pages.toDetail item;
              Pages.intro := Pages.fetchIntro toLowerCase env netIntro item;
              Pages.images := Pages.fetchImages toLowerCase env netImage item |}
       /\ (forall e,
             fst (TourApi.detailIntro2 toLowerCase env netIntro
                    (TourDetail.contentid item) (TourDetail.contenttypeid item))
             = Throw e ->
             Pages.fetchIntro toLowerCase env netIntro item = None)
       /\ (forall e,
             fst (TourApi.detailImage2 toLowerCase env netImage
                    (TourDetail.contentid item))
             = Throw e ->
             Pages.fetchImages toLowerCase env netImage item = None)
       /\ (forall introResponse introItem more,
             fst (TourApi.detailIntro2 toLowerCase env netIntro
                    (TourDetail.contentid item) (TourDetail.contenttypeid item))
             = Ok introResponse ->
             TourApi.itemsOf introResponse
             = Some (TourApi.Many (introItem :: more)) ->
             Pages.fetchIntro toLowerCase env netIntro item
             = Some (TourIntro.spread
                       [ ("contentid",
                          Pages.orElse (TourIntro.get "contentid" introItem)
                            (TourDetail.contentid item));
                         ("contenttypeid",
                          Pages.orElse (TourIntro.get "contenttypeid" introItem)
                            (TourDetail.contenttypeid item)) ]
                       introItem))
       /\ (forall imageResponse img more,
             fst (TourApi.detailImage2 toLowerCase env netImage
                    (TourDetail.contentid item))
             = Ok imageResponse ->
             TourApi.itemsOf imageResponse = Some (TourApi.Many (img :: more)) ->
             Pages.fetchImages toLowerCase env netImage item
             = Some (map (fun img =>
                            {| TourImage.contentid :=
                                 Pages.orElse (Some (TourImage.contentid img))
                                   (TourDetail.contentid item);
                               TourImage.originimgurl := TourImage.originimgurl img;
                               TourImage.serialnum := TourImage.serialnum img;
                               TourImage.smallimageurl := TourImage.smallimageurl img;
                               TourImage.imgname := TourImage.imgname img |})
                         (img :: more)))
       /\ (forall introResponse x,
             fst (TourApi.detailIntro2 toLowerCase env netIntro
                    (TourDetail.contentid item) (TourDetail.contenttypeid item))
             = Ok introResponse ->
             TourApi.itemsOf introResponse = Some (TourApi.One x) ->
             Pages.fetchIntro toLowerCase env netIntro item = None)
       /\ (forall imageResponse x,
             fst (TourApi.detailImage2 toLowerCase env netImage
                    (TourDetail.contentid item))
             = Ok imageResponse ->
             TourApi.itemsOf imageResponse = Some (TourApi.One x) ->
             Pages.fetchImages toLowerCase env netImage item = None))
    /\ (forall (client : Supabase.SupabaseClient)
               (redirectToSignIn : Pages.Completion unit)
               (nets : Bookmark.t -> TourApi.Network (TourApi.Body TourDetail.t))
               (w : Store.World),
          Actions.missing (Store.session w) = false ->
          exists view w',
            Pages.BookmarksPage toLowerCase env client redirectToSignIn nets w
            = (Pages.Returns view, w')
            /\ forall bookmarks,
                 fst (Actions.getBookmarksAction client
                        (Store.record Store.AuthCall w)) = Ok bookmarks ->
                 Pages.bookmarks view = bookmarks
                 /\ Pages.tours view
                    = Pages.fetchTours toLowerCase env nets bookmarks)
    /\ (forall (nets : Bookmark.t -> TourApi.Network (TourApi.Body TourDetail.t))
               (before after : list Bookmark.t) (bookmark : Bookmark.t),
          (forall e,
             fst (TourApi.detailCommon2 toLowerCase env (nets bookmark)
                    (Bookmark.content_id bookmark)) = Throw e ->
             Pages.fetchTours toLowerCase env nets (before ++ bookmark :: after)%list
             = (Pages.fetchTours toLowerCase env nets before
                ++ Pages.fetchTours toLowerCase env nets after)%list)
          /\ (forall response item more,
                fst (TourApi.detailCommon2 toLowerCase env (nets bookmark)
                       (Bookmark.content_id bookmark)) = Ok response ->
                TourApi.itemsOf response = Some (TourApi.Many (item :: more)) ->
                Pages.fetchTours toLowerCase env nets (before ++ bookmark :: after)%list
                = (Pages.fetchTours toLowerCase env nets before
                   ++ Pages.toTourItem item
                      :: Pages.fetchTours toLowerCase env nets after)%list)
          /\ (forall response x,
                fst (TourApi.detailCommon2 toLowerCase env (nets bookmark)
                       (Bookmark.content_id bookmark)) = Ok response ->
                TourApi.itemsOf response = Some (TourApi.One x) ->
                Pages.fetchTours toLowerCase env nets (before ++ bookmark :: after)%list
                = (Pages.fetchTours toLowerCase env nets before
                   ++ Pages.fetchTours toLowerCase env nets after)%list)).
Proof.
  intros lower env. split; [ | split].
  - intros netCommon netIntro netImage contentId response item rest
      Hblank Hcommon Hitems.
    split; [ | split; [ | split; [ | split; [ | split; [ | split]]]]].
    + exact (PlaceDetailPage_renders lower env netCommon netIntro netImage
               contentId response item rest Hblank Hcommon Hitems).
    + intros e. apply fetchIntro_failure.
    + intros e. apply fetchImages_failure.
    + intros introResponse introItem more. apply fetchIntro_success.
    + intros imageResponse img more. apply fetchImages_success.
    + intros introResponse x. apply fetchIntro_single.
    + intros imageResponse x. apply fetchImages_single.
  - intros client redirect nets w. apply BookmarksPage_renders.
  - intros nets before after bookmark. rewrite fetchTours_around.
    split; [ | split].
    + intros e Hfail.
      rewrite (fetchTour_failure lower env (nets bookmark) bookmark e Hfail).
      reflexivity.
    + intros response item more Hok Hitems.
      rewrite (fetchTour_success lower env (nets bookmark) bookmark
                 response item more Hok Hitems).
      reflexivity.
    + intros response x Hok Hitems.
      rewrite (fetchTour_single lower env (nets bookmark) bookmark
                 response x Hok Hitems).
      reflexivity.
Qed.

(** X30 on the samples: the palace page with the intro request failing on
    every attempt, and the sample user's two bookmarks with the provider
    down for the second place *)
Lemma fan_out_tolerates_branch_failure_witness :
  Pages.PlaceDetailPage toLowerCaseAscii Reference.serverEnv
    (Reference.serving [Reference.palace]) (Reference.always 500)
    (Reference.serving [Reference.palaceImage]) "125266"
  = Pages.Returns
      {| Pages.detail := Reference.palace;
         Pages.intro := None;
         Pages.images := Some [Reference.palaceImage] |}
  /\ Pages.fetchTours toLowerCaseAscii Reference.serverEnv Reference.palaceOnly
       ([Reference.gyeongbokgung] ++ Reference.namsan :: [])%list
     = [Pages.toTourItem Reference.palace].
Proof.
  destruct (fan_out_tolerates_branch_failure toLowerCaseAscii Reference.serverEnv)
    as (Hdetail & _ & Htours).
  split.
  - destruct (Hdetail (Reference.serving [Reference.palace]) (Reference.always 500)
                (Reference.serving [Reference.palaceImage]) "125266"
                _ Reference.palace []
                ltac:(vm_compute; reflexivity) ltac:(vm_compute; reflexivity)
                ltac:(reflexivity))
      as (Hpage & Hintro & _ & _ & Himages & _).
    rewrite Hpage.
    rewrite (Hintro _ ltac:(vm_compute; reflexivity)).
    rewrite (Himages _ Reference.palaceImage []
               ltac:(vm_compute; reflexivity) ltac:(reflexivity)).
    vm_compute. reflexivity.
  - destruct (Htours Reference.palaceOnly [Reference.gyeongbokgung] []
                Reference.namsan) as (Hfail & _).
    rewrite (Hfail _ ltac:(vm_compute; reflexivity)).
    vm_compute. reflexivity.
Defined.

(* ================================================================== *)
(** * Further properties of the bookmark helpers *)
(* ================================================================== *)

Section MoreGatewayFacts.

Import Store Supabase Async SupabaseApi Reference.
Local Open Scope list_scope.

Variable gen_random_uuid : Db -> string.
Variable now : Db -> Z.

Local Notation "'pg'" := (postgres gen_random_uuid now).

Lemma unique_pair_rows (u c : string) (l : list Bookmark.t) :
  NoDup (map (fun b => (Bookmark.user_id b, Bookmark.content_id b)) l) ->
  filter (is_pair u c) l = []
  \/ exists row, filter (is_pair u c) l = [row].
Proof.
  intros Hnodup.
  destruct (existsb (is_pair u c) l) eqn:Hex.
  - right. pose proof (unique_pair_once u c l Hnodup Hex) as Hlen.
    destruct (filter (is_pair u c) l) as [ | row [ | row' rest]];
      try discriminate. eauto.
  - left. apply existsb_false_filter. exact Hex.
Qed.

Lemma filter_nil_existsb {A} (f : A -> bool) (l : list A) :
  filter f l = [] -> existsb f l = false.
Proof.
  induction l as [ | x l IH]; simpl; [reflexivity | ].
  destruct (f x); [discriminate | exact IH].
Qed.

Lemma filter_cons_existsb {A} (f : A -> bool) (l : list A) (x : A) (rest : list A) :
  filter f l = x :: rest -> existsb f l = true.
Proof.
  intros H. apply existsb_exists. exists x.
  assert (Hin : In x (filter f l)) by (rewrite H; left; reflexivity).
  apply filter_In in Hin. exact Hin.
Qed.

Lemma checkBookmark_postgres (u c : string) (w : World) :
  checkBookmark pg u c w
  = (match filter (is_pair u c) (bookmarks (db w)) with
     | [_] => Ok true
     | _ => Ok false
     end,
     record (DbCall "bookmarks" "select") w).
Proof.
  unfold checkBookmark, catch, bindM, query, postgres;
    cbn [bookmarks_id_of_pair].
  destruct (filter (is_pair u c) (bookmarks (db w))) as [ | row [ | row' rest]];
    reflexivity.
Qed.

(** the result and the tables of [addBookmark], by cases on the INSERT *)
Lemma addBookmark_cases (u c : string) (w : World) :
  (existsb (is_pair u c) (bookmarks (db w)) = true
   /\ fst (addBookmark pg u c w) = Throw duplicateBookmark
   /\ db (snd (addBookmark pg u c w)) = db w)
  \/ (existsb (is_pair u c) (bookmarks (db w)) = false
      /\ existsb (fun usr => String.eqb (id usr) u) (users (db w)) = false
      /\ fst (addBookmark pg u c w)
         = Throw (Error "Failed to add bookmark: insert or update on table bookmarks violates foreign key constraint")
      /\ db (snd (addBookmark pg u c w)) = db w)
  \/ (existsb (is_pair u c) (bookmarks (db w)) = false
      /\ existsb (fun usr => String.eqb (id usr) u) (users (db w)) = true
      /\ exists row,
           fst (addBookmark pg u c w) = Ok row
           /\ Bookmark.user_id row = u
           /\ Bookmark.content_id row = c
           /\ db (snd (addBookmark pg u c w))
              = {| users := users (db w); bookmarks := bookmarks (db w) ++ [row] |}).
Proof.
  destruct (existsb (is_pair u c) (bookmarks (db w))) eqn:Hpair.
  - left. rewrite (addBookmark_duplicate gen_random_uuid now u c w Hpair).
    repeat split; reflexivity.
  - right.
    destruct (existsb (fun usr => String.eqb (id usr) u) (users (db w))) eqn:Huser.
    + right. rewrite (addBookmark_fresh gen_random_uuid now u c w Hpair Huser).
      repeat split. eexists. repeat split.
    + left.
      unfold addBookmark, catch, bindM, query, postgres, insert_row;
        cbn [bookmarks_insert].
      rewrite Hpair, Huser. repeat split.
Qed.

Lemma delete_appended (u c : string) (l : list Bookmark.t) (row : Bookmark.t) :
  existsb (is_pair u c) l = false ->
  is_pair u c row = true ->
  filter (fun b => negb (is_pair u c b)) (l ++ [row]) = l.
Proof.
  intros Habsent Hrow. rewrite filter_app. cbn [filter]. rewrite Hrow.
  cbn [negb]. rewrite app_nil_r.
  induction l as [ | b l IH]; simpl in *; [reflexivity | ].
  apply orb_false_iff in Habsent. destruct Habsent as [Hb Hl].
  rewrite Hb. simpl. f_equal. auto.
Qed.

Lemma owned_by_other (u v c : string) (b : Bookmark.t) :
  v <> u -> owned_by v b = true -> is_pair u c b = false.
Proof.
  unfold owned_by, is_pair. intros Hne Hv.
  apply String.eqb_eq in Hv.
  destruct (String.eqb_spec (Bookmark.user_id b) u); [congruence | reflexivity].
Qed.

Lemma filter_filter_negb_pair (u v c : string) (l : list Bookmark.t) :
  v <> u ->
  filter (owned_by v) (filter (fun b => negb (is_pair u c b)) l)
  = filter (owned_by v) l.
Proof.
  intros Hne. induction l as [ | b l IH]; simpl; [reflexivity | ].
  destruct (is_pair u c b) eqn:Hp; simpl.
  - destruct (owned_by v b) eqn:Hv; [ | exact IH].
    rewrite (owned_by_other u v c b Hne Hv) in Hp. discriminate.
  - destruct (owned_by v b); [f_equal | ]; exact IH.
Qed.

(** the lookup by Clerk identity, when the identity has exactly one row *)
Lemma unique_clerk_row (clerkId : string) (l : list User) (usr : User) :
  NoDup (map clerk_id l) ->
  In usr l ->
  clerk_id usr = clerkId ->
  filter (fun x => String.eqb (clerk_id x) clerkId) l = [usr].
Proof.
  induction l as [ | x l IH]; simpl; intros Hnodup Hin Hclerk; [destruct Hin | ].
  inversion Hnodup as [ | k ks Hnotin Hrest]; subst.
  destruct Hin as [-> | Hin].
  - rewrite String.eqb_refl. f_equal.
    apply no_user_for. intros y Hy Heq. apply Hnotin.
    rewrite <- Heq. apply in_map. exact Hy.
  - destruct (String.eqb_spec (clerk_id x) (clerk_id usr)) as [Heq | _].
    + exfalso. apply Hnotin. rewrite Heq. apply in_map. exact Hin.
    + apply IH; auto.
Qed.

Lemma getSupabaseUserId_synced (clerkId : string) (w : World) (usr : User) :
  NoDup (map clerk_id (users (db w))) ->
  In usr (users (db w)) ->
  clerk_id usr = clerkId ->
  getSupabaseUserId pg clerkId w
  = (Ok (Some (id usr)), record (DbCall "users" "select") w).
Proof.
  intros Hnodup Hin Hclerk.
  unfold getSupabaseUserId, catch, bindM, query, postgres;
    cbn [users_id_by_clerk_id].
  rewrite (unique_clerk_row clerkId _ usr Hnodup Hin Hclerk). reflexivity.
Qed.

End MoreGatewayFacts.

(** X1. Over a table that satisfies [unique_user_bookmark], [checkBookmark]
    resolves to [true] exactly when the pair has a bookmark, and only reads
    the table. *)
Theorem checkBookmark_reflects_presence :
  forall (gen_random_uuid : Store.Db -> string) (now : Store.Db -> Z)
         (w : Store.World) (userId contentId : string),
    Store.unique_user_bookmark (Store.db w) ->
    fst (SupabaseApi.checkBookmark (Supabase.postgres gen_random_uuid now)
           userId contentId w)
    = Ok (existsb (Store.is_pair userId contentId) (Store.bookmarks (Store.db w)))
    /\ Store.db (snd (SupabaseApi.checkBookmark (Supabase.postgres gen_random_uuid now)
                        userId contentId w))
       = Store.db w.
Proof.
  intros gen now w u c Hunique.
  rewrite checkBookmark_postgres. cbn [fst snd]. split; [ | reflexivity].
  destruct (unique_pair_rows u c _ Hunique) as [Hnil | (row & Hrow)].
  - rewrite Hnil, (filter_nil_existsb _ _ Hnil). reflexivity.
  - rewrite Hrow, (filter_cons_existsb _ _ _ _ Hrow). reflexivity.
Qed.

Lemma checkBookmark_reflects_presence_witness :
  Store.unique_user_bookmark Samples.sharedDb
  /\ fst (SupabaseApi.checkBookmark Samples.pg "7f9c2f6e-0002" "125266"
            (Reference.world None Samples.sharedDb)) = Ok true
  /\ fst (SupabaseApi.checkBookmark Samples.pg "7f9c2f6e-0002" "126508"
            (Reference.world None Samples.sharedDb)) = Ok false.
Proof.
  assert (Hunique : Store.unique_user_bookmark Samples.sharedDb).
  { unfold Store.unique_user_bookmark. simpl.
    constructor; [intros [H | []]; discriminate | ].
    constructor; [intros [] | constructor]. }
  split; [exact Hunique | ].
  split.
  - exact (proj1 (checkBookmark_reflects_presence Reference.sample_uuid
                    Reference.sample_now (Reference.world None Samples.sharedDb)
                    "7f9c2f6e-0002" "125266" Hunique)).
  - exact (proj1 (checkBookmark_reflects_presence Reference.sample_uuid
                    Reference.sample_now (Reference.world None Samples.sharedDb)
                    "7f9c2f6e-0002" "126508" Hunique)).
Defined.

(** X2. [addBookmark] throws the duplicate error exactly when the pair is
    already bookmarked, and resolves exactly when the pair is new and the
    user exists; the row it resolves to carries the given user and content
    identifier and is the one row added to the table, and whenever it throws
    the tables are left as they were. *)
Theorem addBookmark_outcomes :
  forall (gen_random_uuid : Store.Db -> string) (now : Store.Db -> Z)
         (w : Store.World) (userId contentId : string),
    let pg := Supabase.postgres gen_random_uuid now in
    let present :=
      existsb (Store.is_pair userId contentId) (Store.bookmarks (Store.db w)) in
    let known :=
      existsb (fun usr => String.eqb (Store.id usr) userId)
              (Store.users (Store.db w)) in
    (fst (SupabaseApi.addBookmark pg userId contentId w)
     = Throw (Error "이미 북마크한 관광지입니다.") <-> present = true)
    /\ ((exists row, fst (SupabaseApi.addBookmark pg userId contentId w) = Ok row)
        <-> present = false /\ known = true)
    /\ (forall row,
          fst (SupabaseApi.addBookmark pg userId contentId w) = Ok row ->
          Bookmark.user_id row = userId
          /\ Bookmark.content_id row = contentId
          /\ Store.bookmarks (Store.db (snd (SupabaseApi.addBookmark pg userId contentId w)))
             = (Store.bookmarks (Store.db w) ++ [row])%list
          /\ Store.users (Store.db (snd (SupabaseApi.addBookmark pg userId contentId w)))
             = Store.users (Store.db w))
    /\ (forall e,
          fst (SupabaseApi.addBookmark pg userId contentId w) = Throw e ->
          Store.db (snd (SupabaseApi.addBookmark pg userId contentId w)) = Store.db w).
Proof.
  intros gen now w u c pg present known. subst pg present known.
  destruct (addBookmark_cases gen now u c w)
    as [(Hp & Hr & Hd) | [(Hp & Hk & Hr & Hd) | (Hp & Hk & row & Hr & Hu & Hc & Hd)]];
    rewrite Hr, Hp, ?Hk, ?Hd.
  - split; [tauto | ]. split.
    + split; [intros (row & H); discriminate | intros [H _]; discriminate].
    + split; [intros row H; discriminate | reflexivity].
  - split; [split; discriminate | ]. split.
    + split; [intros (row & H); discriminate | intros [_ H]; discriminate].
    + split; [intros row H; discriminate | reflexivity].
  - split; [split; discriminate | ]. split.
    + split; [auto | eauto].
    + split; [ | intros e H; discriminate].
      intros row' H. injection H as <-. cbn [Store.bookmarks Store.users]. auto.
Qed.

(** X3. [addBookmark] followed by [removeBookmark] of the same pair gives
    back the tables it started from, when the pair was not bookmarked and
    the user exists. *)
Theorem add_then_remove_restores :
  forall (gen_random_uuid : Store.Db -> string) (now : Store.Db -> Z)
         (w : Store.World) (userId contentId : string),
    existsb (Store.is_pair userId contentId) (Store.bookmarks (Store.db w)) = false ->
    In userId (map Store.id (Store.users (Store.db w))) ->
    let pg := Supabase.postgres gen_random_uuid now in
    let w1 := snd (SupabaseApi.addBookmark pg userId contentId w) in
    let w2 := snd (SupabaseApi.removeBookmark pg userId contentId w1) in
    existsb (Store.is_pair userId contentId) (Store.bookmarks (Store.db w1)) = true
    /\ Store.db w2 = Store.db w.
Proof.
  intros gen now w u c Habsent Huser pg w1 w2. subst pg.
  pose proof (addBookmark_fresh gen now u c w Habsent (user_exists u _ Huser)) as Hadd.
  cbv zeta in Hadd.
  assert (Hdb1 : Store.db w1 = snd (Supabase.insert_row gen now u c (Store.db w)))
    by apply addBookmark_db.
  split.
  - rewrite Hdb1. apply insert_row_present. exact Huser.
  - unfold w2. rewrite removeBookmark_postgres. cbn [snd].
    unfold w1. rewrite Hadd. cbn [snd Store.db Store.record Store.with_db].
    unfold Supabase.delete_rows. cbn [Store.users Store.bookmarks].
    rewrite delete_appended; [destruct (Store.db w); reflexivity | exact Habsent | ].
    unfold Store.is_pair. cbn. rewrite !String.eqb_refl. reflexivity.
Qed.

Lemma add_then_remove_restores_witness :
  existsb (Store.is_pair "7f9c2f6e-0001" "126508")
          (Store.bookmarks Samples.sharedDb) = false
  /\ In "7f9c2f6e-0001" (map Store.id (Store.users Samples.sharedDb))
  /\ Store.db (snd (SupabaseApi.removeBookmark Samples.pg "7f9c2f6e-0001" "126508"
                      (snd (SupabaseApi.addBookmark Samples.pg "7f9c2f6e-0001" "126508"
                              (Reference.world None Samples.sharedDb)))))
     = Samples.sharedDb.
Proof.
  assert (Habsent : existsb (Store.is_pair "7f9c2f6e-0001" "126508")
                      (Store.bookmarks Samples.sharedDb) = false) by reflexivity.
  assert (Huser : In "7f9c2f6e-0001" (map Store.id (Store.users Samples.sharedDb)))
    by (left; reflexivity).
  split; [exact Habsent | split; [exact Huser | ]].
  exact (proj2 (add_then_remove_restores Reference.sample_uuid Reference.sample_now
                  (Reference.world None Samples.sharedDb)
                  "7f9c2f6e-0001" "126508" Habsent Huser)).
Defined.

(** X4. Adding or removing a bookmark of one user leaves the rows of every
    other user, and hence what [getBookmarks] answers for them, as they
    were. *)
Theorem other_users_untouched :
  forall (gen_random_uuid : Store.Db -> string) (now : Store.Db -> Z)
         (w : Store.World) (userId contentId other : string),
    other <> userId ->
    let pg := Supabase.postgres gen_random_uuid now in
    let added := snd (SupabaseApi.addBookmark pg userId contentId w) in
    let removed := snd (SupabaseApi.removeBookmark pg userId contentId w) in
    filter (Store.owned_by other) (Store.bookmarks (Store.db added))
    = filter (Store.owned_by other) (Store.bookmarks (Store.db w))
    /\ filter (Store.owned_by other) (Store.bookmarks (Store.db removed))
       = filter (Store.owned_by other) (Store.bookmarks (Store.db w))
    /\ fst (SupabaseApi.getBookmarks pg other added)
       = fst (SupabaseApi.getBookmarks pg other w)
    /\ fst (SupabaseApi.getBookmarks pg other removed)
       = fst (SupabaseApi.getBookmarks pg other w).
Proof.
  intros gen now w u c v Hne pg added removed. subst pg.
  assert (Hadded : filter (Store.owned_by v) (Store.bookmarks (Store.db added))
                   = filter (Store.owned_by v) (Store.bookmarks (Store.db w))).
  { unfold added.
    destruct (addBookmark_cases gen now u c w)
      as [(_ & _ & Hd) | [(_ & _ & _ & Hd) | (_ & _ & row & _ & Hu & _ & Hd)]];
      rewrite Hd; try reflexivity.
    cbn [Store.bookmarks]. rewrite filter_app. cbn [filter].
    unfold Store.owned_by at 2. rewrite Hu.
    destruct (String.eqb_spec u v) as [Heq | _]; [congruence | ].
    apply app_nil_r. }
  assert (Hremoved : filter (Store.owned_by v) (Store.bookmarks (Store.db removed))
                     = filter (Store.owned_by v) (Store.bookmarks (Store.db w))).
  { unfold removed. rewrite removeBookmark_postgres.
    cbn [snd Store.db Store.record Store.with_db].
    unfold Supabase.delete_rows. cbn [Store.bookmarks].
    apply filter_filter_negb_pair. exact Hne. }
  split; [exact Hadded | split; [exact Hremoved | ]].
  rewrite !getBookmarks_postgres. cbn [fst]. rewrite Hadded, Hremoved. auto.
Qed.

Lemma other_users_untouched_witness :
  "7f9c2f6e-0002" <> "7f9c2f6e-0001"
  /\ fst (SupabaseApi.getBookmarks Samples.pg "7f9c2f6e-0002"
            (snd (SupabaseApi.removeBookmark Samples.pg "7f9c2f6e-0001" "125266"
                    (Reference.world None Samples.sharedDb))))
     = fst (SupabaseApi.getBookmarks Samples.pg "7f9c2f6e-0002"
              (Reference.world None Samples.sharedDb)).
Proof.
  assert (Hne : "7f9c2f6e-0002" <> "7f9c2f6e-0001") by discriminate.
  split; [exact Hne | ].
  exact (proj2 (proj2 (proj2
           (other_users_untouched Reference.sample_uuid Reference.sample_now
              (Reference.world None Samples.sharedDb)
              "7f9c2f6e-0001" "125266" "7f9c2f6e-0002" Hne)))).
Defined.

(** X5. When Clerk identities are unique in [users], [getSupabaseUserId]
    resolves to the identifier of the row that carries the given identity,
    and only reads the table. *)
Theorem getSupabaseUserId_finds_user :
  forall (gen_random_uuid : Store.Db -> string) (now : Store.Db -> Z)
         (w : Store.World) (usr : Store.User),
    NoDup (map Store.clerk_id (Store.users (Store.db w))) ->
    In usr (Store.users (Store.db w)) ->
    fst (SupabaseApi.getSupabaseUserId (Supabase.postgres gen_random_uuid now)
           (Store.clerk_id usr) w)
    = Ok (Some (Store.id usr))
    /\ Store.db (snd (SupabaseApi.getSupabaseUserId
                        (Supabase.postgres gen_random_uuid now)
                        (Store.clerk_id usr) w))
       = Store.db w.
Proof.
  intros gen now w usr Hnodup Hin.
  rewrite (getSupabaseUserId_synced gen now (Store.clerk_id usr) w usr Hnodup Hin eq_refl).
  split; reflexivity.
Qed.

Lemma getSupabaseUserId_finds_user_witness :
  NoDup (map Store.clerk_id (Store.users Samples.sharedDb))
  /\ In Samples.bob (Store.users Samples.sharedDb)
  /\ fst (SupabaseApi.getSupabaseUserId Samples.pg "user_2bob"
            (Reference.world (Some "user_2bob") Samples.sharedDb))
     = Ok (Some "7f9c2f6e-0002").
Proof.
  assert (Hnodup : NoDup (map Store.clerk_id (Store.users Samples.sharedDb))).
  { simpl. constructor; [intros [H | []]; discriminate | ].
    constructor; [intros [] | constructor]. }
  assert (Hin : In Samples.bob (Store.users Samples.sharedDb))
    by (right; left; reflexivity).
  split; [exact Hnodup | split; [exact Hin | ]].
  exact (proj1 (getSupabaseUserId_finds_user Reference.sample_uuid Reference.sample_now
                  (Reference.world (Some "user_2bob") Samples.sharedDb)
                  Samples.bob Hnodup Hin)).
Defined.

(* ================================================================== *)
(** * Further properties of the server actions *)
(* ================================================================== *)

Section MoreActionFacts.

Import Store Supabase Async SupabaseApi Actions Reference ActionSteps.
Local Open Scope list_scope.

Variable gen_random_uuid : Db -> string.
Variable now : Db -> Z.

Local Notation "'pg'" := (postgres gen_random_uuid now).

(** the lookup never fails over the tables: no row, or several, is [null] *)
Lemma getSupabaseUserId_total (clerkId : string) (w : World) :
  exists found,
    getSupabaseUserId pg clerkId w = (Ok found, record (DbCall "users" "select") w).
Proof.
  unfold getSupabaseUserId, catch, bindM, query, postgres;
    cbn [users_id_by_clerk_id].
  destruct (filter (fun usr => String.eqb (clerk_id usr) clerkId) (users (db w)))
    as [ | usr [ | usr' rest]]; eexists; reflexivity.
Qed.

Lemma addBookmark_throws_Error (u c : string) (w : World) (e : Thrown) :
  fst (addBookmark pg u c w) = Throw e -> instanceofError e = true.
Proof.
  destruct (addBookmark_cases gen_random_uuid now u c w)
    as [(_ & Hr & _) | [(_ & _ & Hr & _) | (_ & _ & row & Hr & _)]];
    rewrite Hr; intros H; try discriminate; injection H as <-; reflexivity.
Qed.

Lemma getBookmarksAction_cases (w : World) :
  getBookmarksAction pg w
  = match resolution pg w with
    | Unauthenticated => (Throw (Error notAuthenticated), record AuthCall w)
    | Unsynced => (Throw (Error notSynced), lookedUp w)
    | Resolved userId => getBookmarks pg userId (lookedUp w)
    end.
Proof.
  unfold getBookmarksAction, resolution, catch, bindM, auth.
  destruct (missing (session w)) eqn:Hsession; [reflexivity | ].
  destruct (getSupabaseUserId_total (orEmpty (session w)) (record AuthCall w))
    as (found & Hfound).
  rewrite Hfound. cbn [fst].
  destruct (missing found); [reflexivity | ].
  rewrite getBookmarks_postgres. reflexivity.
Qed.

Lemma addBookmarkAction_cases (contentId : string) (w : World) :
  addBookmarkAction pg contentId w
  = if invalidContentId contentId then (Throw (Error contentIdRequired), w)
    else match resolution pg w with
         | Unauthenticated => (Throw (Error notAuthenticated), record AuthCall w)
         | Unsynced => (Throw (Error notSynced), lookedUp w)
         | Resolved userId => addBookmark pg userId contentId (lookedUp w)
         end.
Proof.
  unfold addBookmarkAction, resolution, catch, bindM, auth.
  destruct (invalidContentId contentId); [reflexivity | ].
  destruct (missing (session w)) eqn:Hsession; [reflexivity | ].
  destruct (getSupabaseUserId_total (orEmpty (session w)) (record AuthCall w))
    as (found & Hfound).
  rewrite Hfound. cbn [fst].
  destruct (missing found); [reflexivity | ].
  fold (lookedUp w).
  pose proof (addBookmark_throws_Error (orEmpty found) contentId (lookedUp w)) as Herr.
  destruct (addBookmark pg (orEmpty found) contentId (lookedUp w)) as [[row | e] w'].
  - reflexivity.
  - unfold rethrow. rewrite (Herr e eq_refl). reflexivity.
Qed.

Lemma removeBookmarkAction_cases (contentId : string) (w : World) :
  removeBookmarkAction pg contentId w
  = if invalidContentId contentId then (Throw (Error contentIdRequired), w)
    else match resolution pg w with
         | Unauthenticated => (Throw (Error notAuthenticated), record AuthCall w)
         | Unsynced => (Throw (Error notSynced), lookedUp w)
         | Resolved userId => removeBookmark pg userId contentId (lookedUp w)
         end.
Proof.
  unfold removeBookmarkAction, resolution, catch, bindM, auth.
  destruct (invalidContentId contentId); [reflexivity | ].
  destruct (missing (session w)) eqn:Hsession; [reflexivity | ].
  destruct (getSupabaseUserId_total (orEmpty (session w)) (record AuthCall w))
    as (found & Hfound).
  rewrite Hfound. cbn [fst].
  destruct (missing found); [reflexivity | ].
  rewrite removeBookmark_postgres. reflexivity.
Qed.

Lemma resolution_synced (w : World) (usr : User) :
  session w = Some (clerk_id usr) ->
  clerk_id usr <> "" ->
  id usr <> "" ->
  NoDup (map clerk_id (users (db w))) ->
  In usr (users (db w)) ->
  resolution pg w = Resolved (id usr).
Proof.
  intros Hsession Hclerk Hid Hnodup Hin. unfold resolution.
  rewrite Hsession. cbn [missing orEmpty].
  rewrite (proj2 (String.eqb_neq _ _) Hclerk).
  rewrite (getSupabaseUserId_synced gen_random_uuid now (clerk_id usr)
             (record AuthCall w) usr Hnodup Hin eq_refl).
  cbn [fst missing orEmpty]. rewrite (proj2 (String.eqb_neq _ _) Hid). reflexivity.
Qed.

End MoreActionFacts.

Section ActionInvariantFacts.

Import Store Supabase Async SupabaseApi Actions Reference ActionSteps.
Local Open Scope list_scope.

Variable gen_random_uuid : Db -> string.
Variable now : Db -> Z.

Local Notation "'pg'" := (postgres gen_random_uuid now).

Lemma insert_row_users (u c : string) (d : Db) :
  users (snd (insert_row gen_random_uuid now u c d)) = users d.
Proof.
  unfold insert_row.
  destruct (existsb (is_pair u c) (bookmarks d)); [reflexivity | ].
  destruct (negb (existsb (fun usr => String.eqb (id usr) u) (users d)));
    reflexivity.
Qed.

(** what an action can have done to the tables *)
Lemma addBookmarkAction_db (contentId : string) (w : World) :
  db (snd (addBookmarkAction pg contentId w)) = db w
  \/ exists u,
       db (snd (addBookmarkAction pg contentId w))
       = snd (insert_row gen_random_uuid now u contentId (db w)).
Proof.
  rewrite addBookmarkAction_cases.
  destruct (invalidContentId contentId); [left; reflexivity | ].
  destruct (resolution pg w) as [ | | u]; [left; reflexivity | left; reflexivity | ].
  right. exists u. rewrite addBookmark_db. reflexivity.
Qed.

Lemma removeBookmarkAction_db (contentId : string) (w : World) :
  db (snd (removeBookmarkAction pg contentId w)) = db w
  \/ exists u,
       db (snd (removeBookmarkAction pg contentId w))
       = delete_rows u contentId (db w).
Proof.
  rewrite removeBookmarkAction_cases.
  destruct (invalidContentId contentId); [left; reflexivity | ].
  destruct (resolution pg w) as [ | | u]; [left; reflexivity | left; reflexivity | ].
  right. exists u. rewrite removeBookmark_postgres. reflexivity.
Qed.

Lemma getBookmarksAction_db (w : World) :
  db (snd (getBookmarksAction pg w)) = db w.
Proof.
  rewrite getBookmarksAction_cases.
  destruct (resolution pg w) as [ | | u]; try reflexivity.
Qed.

End ActionInvariantFacts.

(** X6. With nobody signed in (no Clerk user, or an empty one) no action
    gets past [auth()].  [getBookmarksAction] throws "로그인이 필요합니다."
    after that call and nothing else, and so do [addBookmarkAction] and
    [removeBookmarkAction] for a content identifier that is not blank;
    for a blank one they throw "관광지 ID가 필요합니다." before [auth()]
    is called.  In no case does a query reach the client, whichever
    client it is. *)
Theorem unauthenticated_actions_stop_at_auth :
  forall (client : Supabase.SupabaseClient) (w : Store.World) (contentId : string),
    Actions.missing (Store.session w) = true ->
    Actions.getBookmarksAction client w
    = (Throw (Error "로그인이 필요합니다."), Store.record Store.AuthCall w)
    /\ Actions.addBookmarkAction client contentId w
       = (if Actions.invalidContentId contentId
          then (Throw (Error "관광지 ID가 필요합니다."), w)
          else (Throw (Error "로그인이 필요합니다."), Store.record Store.AuthCall w))
    /\ Actions.removeBookmarkAction client contentId w
       = (if Actions.invalidContentId contentId
          then (Throw (Error "관광지 ID가 필요합니다."), w)
          else (Throw (Error "로그인이 필요합니다."), Store.record Store.AuthCall w))
    /\ (trim contentId <> "" -> Actions.invalidContentId contentId = false)
    /\ (Blank contentId -> Actions.invalidContentId contentId = true).
Proof.
  intros client w contentId Hmissing.
  unfold Actions.getBookmarksAction, Actions.addBookmarkAction,
    Actions.removeBookmarkAction, Async.catch, Async.bindM, Async.auth.
  split; [rewrite Hmissing; reflexivity | ].
  split;
    [destruct (Actions.invalidContentId contentId);
     [reflexivity | cbv beta iota; rewrite Hmissing; reflexivity] | ].
  split;
    [destruct (Actions.invalidContentId contentId);
     [reflexivity | cbv beta iota; rewrite Hmissing; reflexivity] | ].
  split; [apply invalidContentId_false | apply invalidContentId_Blank].
Qed.

Lemma unauthenticated_actions_stop_at_auth_witness :
  Actions.missing (Store.session (Reference.world None Reference.sampleDb)) = true
  /\ Actions.removeBookmarkAction Samples.pg "125266"
       (Reference.world None Reference.sampleDb)
     = (Throw (Error "로그인이 필요합니다."),
        {| Store.session := None;
           Store.db := Reference.sampleDb;
           Store.calls := [Store.AuthCall] |})
  /\ Actions.addBookmarkAction Samples.pg "  "
       (Reference.world None Reference.sampleDb)
     = (Throw (Error "관광지 ID가 필요합니다."),
        Reference.world None Reference.sampleDb).
Proof.
  split; [reflexivity | ].
  destruct (unauthenticated_actions_stop_at_auth Samples.pg
              (Reference.world None Reference.sampleDb) "125266" eq_refl)
    as (_ & _ & Hremove & _).
  destruct (unauthenticated_actions_stop_at_auth Samples.pg
              (Reference.world None Reference.sampleDb) "  " eq_refl)
    as (_ & Hadd & _).
  split; [rewrite Hremove | rewrite Hadd]; reflexivity.
Defined.

(** X7. For a signed-in user whose Clerk identity has its one row in
    [users], with an identifier that is not empty, each action is its
    helper applied to that row's identifier: [getBookmarksAction] lists,
    and answers only, that user's rows, and for a content identifier that
    is not blank [addBookmarkAction] and [removeBookmarkAction] add and
    remove the bookmark of that user for it; for a blank one they throw
    "관광지 ID가 필요합니다." and the helper is not called. *)
Theorem actions_serve_the_resolved_user :
  forall (gen_random_uuid : Store.Db -> string) (now : Store.Db -> Z)
         (w : Store.World) (usr : Store.User) (contentId : string),
    Store.session w = Some (Store.clerk_id usr) ->
    Store.clerk_id usr <> "" ->
    Store.id usr <> "" ->
    NoDup (map Store.clerk_id (Store.users (Store.db w))) ->
    In usr (Store.users (Store.db w)) ->
    let pg := Supabase.postgres gen_random_uuid now in
    Actions.getBookmarksAction pg w
    = SupabaseApi.getBookmarks pg (Store.id usr) (ActionSteps.lookedUp w)
    /\ Actions.addBookmarkAction pg contentId w
       = (if Actions.invalidContentId contentId
          then (Throw (Error "관광지 ID가 필요합니다."), w)
          else SupabaseApi.addBookmark pg (Store.id usr) contentId
                 (ActionSteps.lookedUp w))
    /\ Actions.removeBookmarkAction pg contentId w
       = (if Actions.invalidContentId contentId
          then (Throw (Error "관광지 ID가 필요합니다."), w)
          else SupabaseApi.removeBookmark pg (Store.id usr) contentId
                 (ActionSteps.lookedUp w))
    /\ (trim contentId <> "" -> Actions.invalidContentId contentId = false)
    /\ (Blank contentId -> Actions.invalidContentId contentId = true)
    /\ exists rows,
         fst (Actions.getBookmarksAction pg w) = Ok rows
         /\ forall b, In b rows <->
                      In b (Store.bookmarks (Store.db w))
                      /\ Bookmark.user_id b = Store.id usr.
Proof.
  intros gen now w usr contentId Hsession Hclerk Hid Hnodup Hin pg.
  subst pg.
  pose proof (resolution_synced gen now w usr Hsession Hclerk Hid Hnodup Hin) as Hres.
  rewrite getBookmarksAction_cases, addBookmarkAction_cases,
    removeBookmarkAction_cases, Hres.
  repeat (split; [reflexivity | ]).
  split; [apply invalidContentId_false | ].
  split; [apply invalidContentId_Blank | ].
  rewrite getBookmarks_postgres. eexists. split; [reflexivity | ].
  intros b. cbn [Store.db ActionSteps.lookedUp Store.record].
  split.
  - intros H.
    eapply Permutation_in in H;
      [ | apply Permutation_sym, order_by_created_at_desc_perm].
    apply filter_In in H. destruct H as [H Hu].
    apply String.eqb_eq in Hu. auto.
  - intros [H Hu].
    eapply Permutation_in; [apply order_by_created_at_desc_perm | ].
    apply filter_In. split; [exact H | ]. apply String.eqb_eq. exact Hu.
Qed.

Lemma actions_serve_the_resolved_user_witness :
  NoDup (map Store.clerk_id (Store.users Samples.sharedDb))
  /\ In Samples.bob (Store.users Samples.sharedDb)
  /\ fst (Actions.getBookmarksAction Samples.pg
            (Reference.world (Some "user_2bob") Samples.sharedDb))
     = Ok [Samples.bobsPalace]
  /\ fst (Actions.removeBookmarkAction Samples.pg " "
            (Reference.world (Some "user_2bob") Samples.sharedDb))
     = Throw (Error "관광지 ID가 필요합니다.").
Proof.
  assert (Hnodup : NoDup (map Store.clerk_id (Store.users Samples.sharedDb))).
  { simpl. constructor; [intros [H | []]; discriminate | ].
    constructor; [intros [] | constructor]. }
  assert (Hin : In Samples.bob (Store.users Samples.sharedDb))
    by (right; left; reflexivity).
  split; [exact Hnodup | split; [exact Hin | ]].
  unfold Samples.pg.
  destruct (actions_serve_the_resolved_user Reference.sample_uuid
              Reference.sample_now
              (Reference.world (Some "user_2bob") Samples.sharedDb)
              Samples.bob " " eq_refl ltac:(discriminate)
              ltac:(discriminate) Hnodup Hin)
    as (Hlist & _ & Hremove & _).
  split; [rewrite Hlist | rewrite Hremove]; reflexivity.
Defined.

(** X8. Whatever the session and the argument, no action changes the
    [users] table, [getBookmarksAction] changes no table at all, and
    every action leaves a [bookmarks] table that satisfies
    [unique_user_bookmark] if the one it found did. *)
Theorem actions_keep_the_tables_consistent :
  forall (gen_random_uuid : Store.Db -> string) (now : Store.Db -> Z)
         (w : Store.World) (contentId : string),
    Store.unique_user_bookmark (Store.db w) ->
    let pg := Supabase.postgres gen_random_uuid now in
    Store.db (snd (Actions.getBookmarksAction pg w)) = Store.db w
    /\ Store.users (Store.db (snd (Actions.addBookmarkAction pg contentId w)))
       = Store.users (Store.db w)
    /\ Store.users (Store.db (snd (Actions.removeBookmarkAction pg contentId w)))
       = Store.users (Store.db w)
    /\ Store.unique_user_bookmark
         (Store.db (snd (Actions.addBookmarkAction pg contentId w)))
    /\ Store.unique_user_bookmark
         (Store.db (snd (Actions.removeBookmarkAction pg contentId w))).
Proof.
  intros gen now w contentId Hunique pg. subst pg.
  split; [apply getBookmarksAction_db | ].
  destruct (addBookmarkAction_db gen now contentId w) as [Ha | (u & Ha)];
    destruct (removeBookmarkAction_db gen now contentId w) as [Hr | (v & Hr)];
    rewrite Ha, Hr;
    repeat split;
    try assumption;
    try apply insert_row_users;
    try apply insert_row_unique;
    try apply delete_rows_unique;
    assumption.
Qed.

Lemma actions_keep_the_tables_consistent_witness :
  Store.unique_user_bookmark Reference.sampleDb
  /\ Store.unique_user_bookmark
       (Store.db (snd (Actions.addBookmarkAction Samples.pg "126508"
                         (Reference.world (Some "user_2abc") Reference.sampleDb)))).
Proof.
  assert (Hunique : Store.unique_user_bookmark Reference.sampleDb).
  { unfold Store.unique_user_bookmark. simpl.
    constructor; [intros [] | constructor]. }
  split; [exact Hunique | ].
  exact (proj1 (proj2 (proj2 (proj2
           (actions_keep_the_tables_consistent Reference.sample_uuid
              Reference.sample_now
              (Reference.world (Some "user_2abc") Reference.sampleDb)
              "126508" Hunique))))).
Defined.

(* ================================================================== *)
(** * Further properties of the retry loop *)
(* ================================================================== *)

Section MoreRetryFacts.

Import TourApi Reference Trace.
Local Open Scope list_scope.

Variable toLowerCase : string -> string.
Context {B : Type}.
Variable net : Network B.
Variable retries : nat.

Local Notation "'once'" := (attemptOnce toLowerCase net).
Local Notation "'loop'" := (retryLoop toLowerCase net retries).

(** a run that resolves ends on the attempt that resolved *)
Lemma retryLoop_Ok (remaining : nat) :
  forall attempt lastError data events,
    loop remaining attempt lastError = (Ok data, events) ->
    exists pre n,
      events = pre ++ [Fetch n]
      /\ once n = Ok data
      /\ attempt <= n < attempt + remaining.
Proof.
  induction remaining as [ | remaining IH]; intros attempt lastError data events Hrun.
  - simpl in Hrun. destruct lastError; discriminate.
  - simpl in Hrun.
    destruct (once attempt) as [data' | error] eqn:Honce.
    + injection Hrun as <- <-. exists [], attempt.
      split; [reflexivity | split; [exact Honce | lia]].
    + destruct (failsFast (asError error)); [discriminate | ].
      destruct (loop remaining (S attempt) (Some (asError error)))
        as [r' events'] eqn:Hrest.
      destruct (attempt <? retries)%nat; injection Hrun as -> <-;
        destruct (IH _ _ _ _ Hrest) as (pre & n & -> & Hn & Hrange).
      * exists (Fetch attempt :: Sleep (backoff attempt) :: pre), n.
        split; [reflexivity | split; [exact Hn | lia]].
      * exists (Fetch attempt :: pre), n.
        split; [reflexivity | split; [exact Hn | lia]].
Qed.

(** an attempt that throws an error of the fail-fast kind ends the run *)
Lemma retryLoop_stops_at (n : nat) (e : Thrown) :
  once n = Throw e ->
  failsFast (asError e) = true ->
  forall remaining attempt lastError r events pre post,
    loop remaining attempt lastError = (r, events) ->
    events = pre ++ Fetch n :: post ->
    post = [] /\ r = Throw (asError e).
Proof.
  intros Honce Hfast.
  induction remaining as [ | remaining IH];
    intros attempt lastError r events pre post Hrun Hsplit.
  - simpl in Hrun. injection Hrun as _ <-. destruct pre; discriminate.
  - simpl in Hrun.
    destruct (Nat.eq_dec attempt n) as [-> | Hne].
    + rewrite Honce, Hfast in Hrun. injection Hrun as <- <-.
      apply singleton_split in Hsplit. intuition.
    + assert (Hhead : forall rest, Fetch attempt :: rest = pre ++ Fetch n :: post ->
                exists pre', pre = Fetch attempt :: pre'
                             /\ rest = pre' ++ Fetch n :: post).
      { intros rest H. destruct pre as [ | x pre]; cbn [app] in H.
        - injection H as H _. congruence.
        - injection H as <- H. eauto. }
      destruct (once attempt) as [data | error].
      { injection Hrun as _ <-. apply singleton_split in Hsplit.
        destruct Hsplit as (_ & _ & H). injection H as H. congruence. }
      destruct (failsFast (asError error)).
      { injection Hrun as _ <-. apply singleton_split in Hsplit.
        destruct Hsplit as (_ & _ & H). injection H as H. congruence. }
      destruct (loop remaining (S attempt) (Some (asError error)))
        as [r' events'] eqn:Hrest.
      destruct (attempt <? retries)%nat; injection Hrun as <- <-;
        apply Hhead in Hsplit; destruct Hsplit as (pre' & -> & Hsplit).
      * destruct pre' as [ | x pre']; cbn [app] in Hsplit; [discriminate | ].
        injection Hsplit as _ Hsplit.
        exact (IH _ _ _ _ _ _ Hrest Hsplit).
      * exact (IH _ _ _ _ _ _ Hrest Hsplit).
Qed.

(** when every attempt left fails with an error that is retried, the loop
    makes them all and then gives up with the last error *)
Lemma retryLoop_all_fail (remaining : nat) :
  forall attempt lastError,
    attempt + remaining = S retries ->
    (forall n, attempt <= n <= retries ->
       exists e, once n = Throw e /\ failsFast (asError e) = false) ->
    snd (loop remaining attempt lastError) = schedule attempt remaining
    /\ (1 <= remaining ->
        exists e, once retries = Throw e
                  /\ fst (loop remaining attempt lastError)
                     = exhausted toLowerCase (Some (asError e))).
Proof.
  induction remaining as [ | remaining IH]; intros attempt lastError Hinv Hall.
  - split; [reflexivity | lia].
  - simpl.
    destruct (Hall attempt ltac:(lia)) as (e & Honce & Hslow).
    rewrite Honce, Hslow.
    destruct (Nat.ltb_spec attempt retries) as [Hlt | Hge].
    + destruct (IH (S attempt) (Some (asError e)) ltac:(lia)
                  ltac:(intros n Hn; apply Hall; lia)) as (Hevents & Hlast).
      destruct (loop remaining (S attempt) (Some (asError e))) as [r' events'].
      cbn [fst snd] in *. subst events'.
      destruct remaining as [ | remaining']; [lia | ].
      split; [reflexivity | ].
      intros _. apply Hlast. lia.
    + assert (remaining = 0) by lia. subst remaining.
      assert (attempt = retries) by lia. subst attempt.
      simpl. split; [reflexivity | ].
      intros _. exists e. auto.
Qed.

Lemma fetchCount_schedule (k : nat) :
  forall attempt, fetchCount (schedule attempt k) = k.
Proof.
  induction k as [ | k IH]; intros attempt; [reflexivity | ].
  destruct k as [ | k]; [reflexivity | ].
  rewrite schedule_step. cbn [fetchCount]. rewrite IH. reflexivity.
Qed.

Lemma backoff_bounds (attempt : nat) :
  1 <= attempt -> (1000 <= backoff attempt <= 5000)%Z.
Proof.
  intros H. unfold backoff.
  assert (1 <= 2 ^ (Z.of_nat attempt - 1))%Z.
  { change 1%Z with (2 ^ 0)%Z at 1. apply Z.pow_le_mono_r; lia. }
  lia.
Qed.

Lemma totalPause_schedule (k : nat) :
  forall attempt,
    1 <= attempt ->
    (1000 * (Z.of_nat k - 1) <= totalPause (schedule attempt k)
     <= 5000 * (Z.of_nat k - 1))%Z
    \/ k = 0.
Proof.
  induction k as [ | k IH]; intros attempt Hattempt; [right; reflexivity | left].
  destruct k as [ | k]; [simpl; lia | ].
  rewrite schedule_step. cbn [totalPause].
  pose proof (backoff_bounds attempt Hattempt).
  destruct (IH (S attempt) ltac:(lia)) as [Hrest | Hk]; [ | discriminate].
  lia.
Qed.

End MoreRetryFacts.

Section StatusFacts.

Import TourApi Reference.
Local Open Scope list_scope.

Variable toLowerCase : string -> string.
Context {B : Type}.
Variable net : Network B.

(** the error built for a response that is not ok, by status *)
Lemma attemptOnce_not_ok (n : nat) (resp : HttpResponse B) :
  net n = Responded resp ->
  ok resp = false ->
  attemptOnce toLowerCase net n
  = Throw (if (status resp =? 401)%Z || (status resp =? 403)%Z
           then Error "API 인증 실패: API 키를 확인해주세요."
           else if (status resp =? 429)%Z
           then Error "API 호출 제한 초과: 잠시 후 다시 시도해주세요."
           else if (status resp >=? 500)%Z
           then Error "서버 에러: 잠시 후 다시 시도해주세요."
           else Error "데이터를 불러오는 중 오류가 발생했습니다.").
Proof.
  intros Hnet Hok. unfold attemptOnce. rewrite Hnet, Hok. cbn [negb].
  destruct ((status resp =? 401)%Z || (status resp =? 403)%Z); [reflexivity | ].
  destruct (status resp =? 429)%Z; [reflexivity | ].
  destruct (status resp >=? 500)%Z; reflexivity.
Qed.

Lemma attemptOnce_retried_status (n : nat) (resp : HttpResponse B) :
  net n = Responded resp ->
  ok resp = false ->
  status resp <> 401%Z ->
  status resp <> 403%Z ->
  exists e, attemptOnce toLowerCase net n = Throw e
            /\ failsFast (asError e) = false.
Proof.
  intros Hnet Hok H401 H403.
  rewrite (attemptOnce_not_ok n resp Hnet Hok).
  rewrite (proj2 (Z.eqb_neq _ _) H401), (proj2 (Z.eqb_neq _ _) H403). cbn [orb].
  destruct (status resp =? 429)%Z; [eexists; split; [reflexivity | vm_compute; reflexivity] | ].
  destruct (status resp >=? 500)%Z;
    eexists; (split; [reflexivity | vm_compute; reflexivity]).
Qed.

(** what an attempt that resolves was answered *)
Lemma attemptOnce_Ok (n : nat) (data : Data B) :
  attemptOnce toLowerCase net n = Ok data ->
  exists resp,
    net n = Responded resp
    /\ ok resp = true
    /\ json resp = Ok data
    /\ forall r h, response data = Some r -> header r = Some h ->
                   resultCode h = "0000".
Proof.
  unfold attemptOnce. intros H.
  destruct (net n) as [reason | resp]; [discriminate | ].
  exists resp. split; [reflexivity | ].
  destruct (ok resp) eqn:Hok; cbn [negb] in H.
  - split; [reflexivity | ].
    destruct (json resp) as [data' | e]; cbn [bind] in H; [ | discriminate].
    destruct (response data') as [[[h | ] bd] | ] eqn:Hresp.
    + destruct (String.eqb_spec (resultCode h) "0000") as [Hcode | Hcode];
        cbn [negb] in H.
      * injection H as <-. split; [reflexivity | ].
        intros r h' Hr Hh. rewrite Hresp in Hr. injection Hr as <-.
        cbn in Hh. injection Hh as <-. exact Hcode.
      * destruct (String.eqb (resultCode h) "SERVICE_KEY_NOT_REGISTERED");
          [discriminate | ].
        destruct (String.eqb (resultCode h) "SERVICE_KEY_IS_NOT_VALID");
          [discriminate | ].
        destruct (String.eqb (resultCode h) "NO_MANDATORY_REQUEST_PARAMETERS_ERROR");
          discriminate.
    + injection H as <-. split; [reflexivity | ].
      intros r h' Hr Hh. rewrite Hresp in Hr. injection Hr as <-. discriminate.
    + injection H as <-. split; [reflexivity | ].
      intros r h' Hr. rewrite Hresp in Hr. discriminate.
  - destruct ((status resp =? 401)%Z || (status resp =? 403)%Z); [discriminate | ].
    destruct (status resp =? 429)%Z; [discriminate | ].
    destruct (status resp >=? 500)%Z; discriminate.
Qed.

(** the three provider codes that are turned into fail-fast errors *)
Lemma attemptOnce_terminal_code (n : nat) (resp : HttpResponse B)
  (data : Data B) (r : Response B) (h : Header) :
  net n = Responded resp ->
  ok resp = true ->
  json resp = Ok data ->
  response data = Some r ->
  header r = Some h ->
  In (resultCode h)
     [ "SERVICE_KEY_NOT_REGISTERED"; "SERVICE_KEY_IS_NOT_VALID";
       "NO_MANDATORY_REQUEST_PARAMETERS_ERROR" ] ->
  exists e,
    attemptOnce toLowerCase net n = Throw e
    /\ failsFast (asError e) = true
    /\ asError e
       = Error (if String.eqb (resultCode h) "NO_MANDATORY_REQUEST_PARAMETERS_ERROR"
                then "입력한 정보를 확인해주세요. 필수 항목이 누락되었습니다."
                else "API 인증에 실패했습니다. 관리자에게 문의해주세요.").
Proof.
  intros Hnet Hok Hjson Hresp Hheader Hcode.
  unfold attemptOnce. rewrite Hnet, Hok, Hjson. cbn [negb bind].
  rewrite Hresp. destruct r as [hd bd]. cbn in Hheader. subst hd.
  destruct Hcode as [<- | [<- | [<- | []]]];
    eexists; (split; [reflexivity | split; vm_compute; reflexivity]).
Qed.

End StatusFacts.

(** X9. With an API key and at least one attempt allowed, when every
    attempt is answered by a failure status other than 401 and 403 (429,
    any 5xx, but also 404 or any other), [fetchTourAPI] makes all its
    attempts, pausing between them, and then throws the last error
    reworded by [formatError]. *)
Theorem failure_statuses_are_retried_to_the_cap :
  forall (toLowerCase : string -> string) (B : Type) (env : TourApi.Env)
         (net : TourApi.Network B) (retries : nat) (key : string),
    TourApi.getApiKey env = Ok key ->
    1 <= retries ->
    (forall n, 1 <= n <= retries ->
       exists resp,
         net n = TourApi.Responded resp
         /\ TourApi.ok resp = false
         /\ TourApi.status resp <> 401%Z
         /\ TourApi.status resp <> 403%Z) ->
    snd (TourApi.fetchTourAPI toLowerCase env net retries)
    = Reference.schedule 1 retries
    /\ Trace.fetchCount (snd (TourApi.fetchTourAPI toLowerCase env net retries))
       = retries
    /\ exists e,
         TourApi.attemptOnce toLowerCase net retries = Throw e
         /\ fst (TourApi.fetchTourAPI toLowerCase env net retries)
            = Throw (Error (ErrorHandler.formatError toLowerCase e)).
Proof.
  intros lower B env net retries key Hkey Hretries Hall.
  unfold TourApi.fetchTourAPI. rewrite Hkey.
  destruct (retryLoop_all_fail lower net retries retries 1 None ltac:(lia))
    as (Hevents & Hlast).
  { intros n Hn. destruct (Hall n Hn) as (resp & Hnet & Hok & H401 & H403).
    exact (attemptOnce_retried_status lower net n resp Hnet Hok H401 H403). }
  split; [exact Hevents | ].
  split; [rewrite Hevents; apply fetchCount_schedule | ].
  destruct (Hlast Hretries) as (e & Honce & Hfst).
  exists e. split; [exact Honce | ]. rewrite Hfst.
  destruct (Hall retries ltac:(lia)) as (resp & Hnet & Hok & H401 & H403).
  rewrite (attemptOnce_not_ok lower net retries resp Hnet Hok) in Honce.
  injection Honce as <-.
  destruct ((TourApi.status resp =? 401)%Z || (TourApi.status resp =? 403)%Z);
    [reflexivity | ].
  destruct (TourApi.status resp =? 429)%Z; [reflexivity | ].
  destruct (TourApi.status resp >=? 500)%Z; reflexivity.
Qed.

Lemma failure_statuses_are_retried_to_the_cap_witness :
  TourApi.getApiKey Reference.serverEnv = Ok "key"
  /\ 1 <= 3
  /\ snd (TourApi.fetchTourAPI toLowerCaseAscii Reference.serverEnv
            (Reference.always (B := unit) 404) 3)
     = [ TourApi.Fetch 1; TourApi.Sleep 1000; TourApi.Fetch 2; TourApi.Sleep 2000;
         TourApi.Fetch 3 ].
Proof.
  split; [reflexivity | split; [lia | ]].
  refine (proj1 (failure_statuses_are_retried_to_the_cap toLowerCaseAscii unit
                   Reference.serverEnv (Reference.always 404) 3 "key"
                   eq_refl ltac:(lia) _)).
  intros n _. eexists. split; [reflexivity | ].
  split; [reflexivity | split; discriminate].
Defined.

(** X10. Data that [fetchTourAPI] resolves to is the body of the last
    response it fetched, that response had a 2xx status, and its header, if
    it has one, carries the result code "0000"; the attempt is within the
    cap. *)
Theorem resolved_data_comes_from_an_accepted_response :
  forall (toLowerCase : string -> string) (B : Type) (env : TourApi.Env)
         (net : TourApi.Network B) (retries : nat)
         (data : TourApi.Data B) (events : list TourApi.Event),
    TourApi.fetchTourAPI toLowerCase env net retries = (Ok data, events) ->
    exists pre n resp,
      events = (pre ++ [TourApi.Fetch n])%list
      /\ 1 <= n <= retries
      /\ net n = TourApi.Responded resp
      /\ (200 <= TourApi.status resp <= 299)%Z
      /\ TourApi.json resp = Ok data
      /\ forall r h,
           TourApi.response data = Some r -> TourApi.header r = Some h ->
           TourApi.resultCode h = "0000".
Proof.
  intros lower B env net retries data events Hrun.
  unfold TourApi.fetchTourAPI in Hrun.
  destruct (TourApi.getApiKey env) as [key | e]; [ | discriminate].
  destruct (retryLoop_Ok lower net retries retries 1 None data events Hrun)
    as (pre & n & Hevents & Honce & Hn).
  destruct (attemptOnce_Ok lower net n data Honce)
    as (resp & Hnet & Hok & Hjson & Hcode).
  exists pre, n, resp.
  split; [exact Hevents | ]. split; [lia | ]. split; [exact Hnet | ].
  split; [ | split; assumption].
  unfold TourApi.ok in Hok. apply andb_true_iff in Hok. lia.
Qed.

Lemma resolved_data_comes_from_an_accepted_response_witness :
  TourApi.fetchTourAPI toLowerCaseAscii Reference.serverEnv
    (Reference.serving [Reference.palace]) 3
  = (Ok {| TourApi.response :=
             Some {| TourApi.header :=
                       Some {| TourApi.resultCode := "0000";
                               TourApi.resultMsg := "OK" |};
                     TourApi.body :=
                       Some {| TourApi.items :=
                                 Some {| TourApi.item :=
                                           Some (TourApi.Many [Reference.palace]) |} |} |} |},
     [TourApi.Fetch 1])
  /\ exists pre n,
       [TourApi.Fetch 1] = (pre ++ [TourApi.Fetch n])%list /\ 1 <= n <= 3.
Proof.
  split; [reflexivity | ].
  destruct (resolved_data_comes_from_an_accepted_response toLowerCaseAscii _
              Reference.serverEnv (Reference.serving [Reference.palace]) 3 _ _
              eq_refl) as (pre & n & resp & Hevents & Hn & _).
  exists pre, n. split; assumption.
Defined.

(** X11. A 2xx response whose header carries one of the provider codes
    SERVICE_KEY_NOT_REGISTERED, SERVICE_KEY_IS_NOT_VALID or
    NO_MANDATORY_REQUEST_PARAMETERS_ERROR is not retried: the attempt that
    receives it is the last event of the run, which throws the
    corresponding error. *)
Theorem provider_key_and_parameter_codes_are_terminal :
  forall (toLowerCase : string -> string) (B : Type) (env : TourApi.Env)
         (net : TourApi.Network B) (retries n : nat)
         (resp : TourApi.HttpResponse B) (data : TourApi.Data B)
         (resp0 : TourApi.Response B) (h : TourApi.Header)
         (r : Result (TourApi.Data B)) (events : list TourApi.Event),
    net n = TourApi.Responded resp ->
    TourApi.ok resp = true ->
    TourApi.json resp = Ok data ->
    TourApi.response data = Some resp0 ->
    TourApi.header resp0 = Some h ->
    In (TourApi.resultCode h)
       [ "SERVICE_KEY_NOT_REGISTERED"; "SERVICE_KEY_IS_NOT_VALID";
         "NO_MANDATORY_REQUEST_PARAMETERS_ERROR" ] ->
    TourApi.fetchTourAPI toLowerCase env net retries = (r, events) ->
    In (TourApi.Fetch n) events ->
    (exists pre, events = (pre ++ [TourApi.Fetch n])%list)
    /\ r = Throw (Error
                    (if String.eqb (TourApi.resultCode h)
                          "NO_MANDATORY_REQUEST_PARAMETERS_ERROR"
                     then "입력한 정보를 확인해주세요. 필수 항목이 누락되었습니다."
                     else "API 인증에 실패했습니다. 관리자에게 문의해주세요.")).
Proof.
  intros lower B env net retries n resp data resp0 h r events
    Hnet Hok Hjson Hresp Hheader Hcode Hrun Hin.
  destruct (attemptOnce_terminal_code lower net n resp data resp0 h
              Hnet Hok Hjson Hresp Hheader Hcode) as (e & Honce & Hfast & Herr).
  apply in_split in Hin. destruct Hin as (pre & post & Hsplit).
  unfold TourApi.fetchTourAPI in Hrun.
  destruct (TourApi.getApiKey env) as [key | e0].
  - destruct (retryLoop_stops_at lower net retries n e Honce Hfast
                _ _ _ _ _ _ _ Hrun Hsplit) as (-> & ->).
    split; [exists pre; exact Hsplit | rewrite Herr; reflexivity].
  - injection Hrun as _ <-. destruct pre; discriminate.
Qed.

Lemma provider_key_and_parameter_codes_are_terminal_witness :
  In (TourApi.Fetch 1)
     (snd (TourApi.fetchTourAPI toLowerCaseAscii Reference.serverEnv
             (fun _ => TourApi.Responded
                         (Samples.reporting "SERVICE_KEY_IS_NOT_VALID")) 3))
  /\ TourApi.fetchTourAPI toLowerCaseAscii Reference.serverEnv
       (fun _ => TourApi.Responded (Samples.reporting "SERVICE_KEY_IS_NOT_VALID")) 3
     = (Throw (Error "API 인증에 실패했습니다. 관리자에게 문의해주세요."),
        [TourApi.Fetch 1]).
Proof.
  assert (Hin : In (TourApi.Fetch 1)
     (snd (TourApi.fetchTourAPI toLowerCaseAscii Reference.serverEnv
             (fun _ => TourApi.Responded
                         (Samples.reporting "SERVICE_KEY_IS_NOT_VALID")) 3)))
    by (left; reflexivity).
  split; [exact Hin | ].
  destruct (provider_key_and_parameter_codes_are_terminal toLowerCaseAscii unit
              Reference.serverEnv
              (fun _ => TourApi.Responded (Samples.reporting "SERVICE_KEY_IS_NOT_VALID"))
              3 1 _ _ _ _ _ _
              eq_refl eq_refl eq_refl eq_refl eq_refl
              ltac:(right; left; reflexivity) (surjective_pairing _) Hin)
    as (_ & Hr).
  rewrite (surjective_pairing (TourApi.fetchTourAPI _ _ _ _)), Hr. reflexivity.
Defined.

(** X12. A run of [fetchTourAPI] never fetches more often than its cap and
    never pauses longer than 5000 ms per attempt beyond the first; with the
    default cap of three attempts it pauses 3000 ms at most in all. *)
Theorem run_is_bounded :
  forall (toLowerCase : string -> string) (B : Type) (env : TourApi.Env)
         (net : TourApi.Network B) (retries : nat),
    Trace.fetchCount (snd (TourApi.fetchTourAPI toLowerCase env net retries))
    <= retries
    /\ (0 <= Trace.totalPause (snd (TourApi.fetchTourAPI toLowerCase env net retries))
        <= 5000 * Z.of_nat (retries - 1))%Z
    /\ (Trace.totalPause (snd (TourApi.fetchTourAPI toLowerCase env net 3))
        <= 3000)%Z.
Proof.
  intros lower B env net retries.
  assert (Hshape : forall cap,
            exists k, k <= cap
              /\ snd (TourApi.fetchTourAPI lower env net cap) = Reference.schedule 1 k).
  { intros cap. unfold TourApi.fetchTourAPI.
    destruct (TourApi.getApiKey env) as [key | e].
    - destruct (TourApi.retryLoop lower net cap cap 1 None) as [r events] eqn:Hrun.
      exact (retryLoop_schedule lower net cap cap 1 None r events ltac:(lia) Hrun).
    - exists 0. split; [lia | reflexivity]. }
  destruct (Hshape retries) as (k & Hk & ->).
  destruct (Hshape 3) as (k3 & Hk3 & ->).
  split; [rewrite fetchCount_schedule; exact Hk | ].
  split.
  - destruct (totalPause_schedule k 1 ltac:(lia)) as [H | ->].
    + clear Hshape. revert H.
      generalize (Trace.totalPause (Reference.schedule 1 k)). intros z H. lia.
    + change (Trace.totalPause (Reference.schedule 1 0)) with 0%Z. lia.
  - destruct k3 as [ | [ | [ | [ | k3]]]]; try lia; vm_compute; discriminate.
Qed.

(** X13. What an error status does to the loop and how [getErrorInfo]
    classes the error built for it are two different tests: the loop
    leaves at once on 401 and 403 only, while the error counts as
    retryable exactly for 429 and for 500 and above; a 404, say, is
    retried by the loop although its error is not classed as retryable. *)
Theorem status_decides_retry_and_class :
  forall (toLowerCase : string -> string) (B : Type)
         (net : TourApi.Network B) (n : nat) (resp : TourApi.HttpResponse B),
    net n = TourApi.Responded resp ->
    TourApi.ok resp = false ->
    exists e,
      TourApi.attemptOnce toLowerCase net n = Throw e
      /\ (TourApi.failsFast (TourApi.asError e) = true <->
            TourApi.status resp = 401%Z \/ TourApi.status resp = 403%Z)
      /\ (ErrorHandler.isRetryableError toLowerCaseAscii e = true <->
            TourApi.status resp = 429%Z \/ (500 <= TourApi.status resp)%Z).
Proof.
  intros lower B net n resp Hnet Hok.
  eexists. split; [apply (attemptOnce_not_ok lower net n resp Hnet Hok) | ].
  destruct (Z.eqb_spec (TourApi.status resp) 401) as [H401 | H401]; cbn [orb].
  - split; [split; [intros _; left; exact H401 | intros _; vm_compute; reflexivity] | ].
    split; [vm_compute; discriminate | intros [H | H]; lia].
  - destruct (Z.eqb_spec (TourApi.status resp) 403) as [H403 | H403]; cbn [orb].
    + split; [split; [intros _; right; exact H403 | intros _; vm_compute; reflexivity] | ].
      split; [vm_compute; discriminate | intros [H | H]; lia].
    + destruct (Z.eqb_spec (TourApi.status resp) 429) as [H429 | H429].
      * split; [split; [vm_compute; discriminate | intros [H | H]; lia] | ].
        split; [intros _; left; exact H429 | intros _; vm_compute; reflexivity].
      * destruct (Z.geb_spec (TourApi.status resp) 500) as [H500 | H500].
        -- split; [split; [vm_compute; discriminate | intros [H | H]; lia] | ].
           split; [intros _; right; lia | intros _; vm_compute; reflexivity].
        -- split; [split; [vm_compute; discriminate | intros [H | H]; lia] | ].
           split; [vm_compute; discriminate | intros [H | H]; lia].
Qed.

Lemma status_decides_retry_and_class_witness :
  TourApi.ok (B := unit)
    {| TourApi.status := 404; TourApi.statusText := "Not Found";
       TourApi.json := Throw (Error "no body") |} = false
  /\ exists e,
       TourApi.attemptOnce toLowerCaseAscii
         (fun _ => TourApi.Responded (B := unit)
                     {| TourApi.status := 404; TourApi.statusText := "Not Found";
                        TourApi.json := Throw (Error "no body") |}) 1 = Throw e
       /\ TourApi.failsFast (TourApi.asError e) = false
       /\ ErrorHandler.isRetryableError toLowerCaseAscii e = false.
Proof.
  split; [reflexivity | ].
  destruct (status_decides_retry_and_class toLowerCaseAscii unit
              (fun _ => TourApi.Responded
                          {| TourApi.status := 404; TourApi.statusText := "Not Found";
                             TourApi.json := Throw (Error "no body") |})
              1 _ eq_refl eq_refl) as (e & He & Hfast & Hretry).
  exists e. split; [exact He | ]. split.
  - destruct (TourApi.failsFast (TourApi.asError e)); [ | reflexivity].
    destruct (proj1 Hfast eq_refl) as [H | H]; discriminate.
  - destruct (ErrorHandler.isRetryableError toLowerCaseAscii e); [ | reflexivity].
    destruct (proj1 Hretry eq_refl) as [H | H]; [discriminate | ].
    cbn in H. lia.
Defined.

(** X14. [getApiKey] succeeds exactly when a key that is not empty is
    configured for the side it runs on; the key it returns is never empty,
    it is the public key in the browser, and on the server it is the
    server key when there is one and the public key otherwise.  Without a
    key [fetchTourAPI] throws before any fetch. *)
Theorem getApiKey_chooses_by_side :
  forall (env : TourApi.Env),
    ((exists key, TourApi.getApiKey env = Ok key) <->
       if TourApi.isBrowser env
       then TourApi.present (TourApi.NEXT_PUBLIC_TOUR_API_KEY env) <> None
       else TourApi.present (TourApi.TOUR_API_KEY env) <> None
            \/ TourApi.present (TourApi.NEXT_PUBLIC_TOUR_API_KEY env) <> None)
    /\ (forall key,
          TourApi.getApiKey env = Ok key ->
          key <> ""
          /\ (if TourApi.isBrowser env
              then TourApi.NEXT_PUBLIC_TOUR_API_KEY env = Some key
              else TourApi.TOUR_API_KEY env = Some key
                   \/ (TourApi.present (TourApi.TOUR_API_KEY env) = None
                       /\ TourApi.NEXT_PUBLIC_TOUR_API_KEY env = Some key)))
    /\ (forall (toLowerCase : string -> string) (B : Type)
               (net : TourApi.Network B) (retries : nat) (e : Thrown),
          TourApi.getApiKey env = Throw e ->
          TourApi.fetchTourAPI toLowerCase env net retries = (Throw e, [])).
Proof.
  intros [browser server public].
  assert (Hpresent : forall v key, TourApi.present v = Some key ->
                       v = Some key /\ key <> "").
  { intros [s | ] key; cbn; [ | discriminate].
    destruct (String.eqb_spec s ""); [discriminate | ].
    intros H; injection H as <-. auto. }
  unfold TourApi.getApiKey; cbn [TourApi.isBrowser TourApi.TOUR_API_KEY
                                  TourApi.NEXT_PUBLIC_TOUR_API_KEY].
  split; [ | split].
  - destruct browser.
    + destruct (TourApi.present public);
        split; try (intros (key & H); discriminate); try congruence; eauto.
    + destruct (TourApi.present server), (TourApi.present public);
        split; try (intros (key & H); discriminate); eauto;
        try (intros _; left; discriminate); try (intros _; right; discriminate);
        intros [H | H]; congruence.
  - intros key. destruct browser.
    + destruct (TourApi.present public) eqn:Hp; [ | discriminate].
      intros H; injection H as <-. destruct (Hpresent _ _ Hp). auto.
    + destruct (TourApi.present server) eqn:Hs.
      * intros H; injection H as <-. destruct (Hpresent _ _ Hs). auto.
      * destruct (TourApi.present public) eqn:Hp; [ | discriminate].
        intros H; injection H as <-. destruct (Hpresent _ _ Hp). auto.
  - intros lower B net retries e He. unfold TourApi.fetchTourAPI, TourApi.getApiKey.
    cbn [TourApi.isBrowser TourApi.TOUR_API_KEY TourApi.NEXT_PUBLIC_TOUR_API_KEY].
    rewrite He. reflexivity.
Qed.


Section RequestFacts.

Import TourApi TourApiRequest.
Local Open Scope list_scope.

Context {V : Type}.

Lemma getKey_absent (k : string) (o : Object V) :
  ~ In k (map fst o) -> getKey k o = None.
Proof.
  induction o as [ | [k' v] o IH]; intros Hk; [reflexivity | ].
  cbn in *. destruct (String.eqb_spec k k') as [-> | Hne].
  - exfalso. apply Hk. left. reflexivity.
  - apply IH. intros Hin. apply Hk. right. exact Hin.
Qed.

Lemma getKey_assign (k k' : string) (v : V) (o : Object V) :
  getKey k (assign k' v o) = if String.eqb k k' then Some v else getKey k o.
Proof.
  induction o as [ | [k0 v0] o IH]; cbn.
  - reflexivity.
  - destruct (String.eqb_spec k' k0) as [-> | Hne]; cbn.
    + destruct (String.eqb k k0); reflexivity.
    + rewrite IH. destruct (String.eqb_spec k k0) as [-> | Hne'].
      * destruct (String.eqb_spec k0 k') as [<- | _]; [contradiction | reflexivity].
      * reflexivity.
Qed.

Lemma keys_assign (k k' : string) (v : V) (o : Object V) :
  In k (map fst (assign k' v o)) <-> k = k' \/ In k (map fst o).
Proof.
  induction o as [ | [k0 v0] o IH]; cbn.
  - intuition.
  - destruct (String.eqb_spec k' k0) as [-> | Hne]; cbn; [intuition | ].
    rewrite IH. intuition.
Qed.

Lemma NoDup_assign (k : string) (v : V) (o : Object V) :
  NoDup (map fst o) -> NoDup (map fst (assign k v o)).
Proof.
  induction o as [ | [k0 v0] o IH]; cbn; intros Hnd.
  - constructor; [intros [] | constructor].
  - inversion Hnd as [ | ? ? Hnotin Hnd']; subst.
    destruct (String.eqb_spec k k0) as [-> | Hne]; cbn.
    + constructor; assumption.
    + constructor; [ | apply IH; exact Hnd'].
      rewrite keys_assign. intros [Heq | Hin]; [congruence | contradiction].
Qed.

Lemma NoDup_spread (source target : Object V) :
  NoDup (map fst target) -> NoDup (map fst (spread target source)).
Proof.
  unfold spread. revert target.
  induction source as [ | [k v] source IH]; intros target Hnd; cbn.
  - exact Hnd.
  - apply IH. apply NoDup_assign. exact Hnd.
Qed.

Lemma getKey_spread (k : string) (source : Object V) :
  NoDup (map fst source) ->
  forall target,
    getKey k (spread target source)
    = match getKey k source with
      | Some v => Some v
      | None => getKey k target
      end.
Proof.
  unfold spread.
  induction source as [ | [k' v] source IH]; intros Hnd target; cbn.
  - reflexivity.
  - inversion Hnd as [ | ? ? Hnotin Hnd']; subst.
    rewrite (IH Hnd'). cbn [fst snd]. rewrite getKey_assign.
    destruct (String.eqb_spec k k') as [-> | Hne].
    + rewrite (getKey_absent k' source Hnotin). reflexivity.
    + reflexivity.
Qed.

End RequestFacts.

Section QueryFacts.

Import TourApi TourApiRequest.
Local Open Scope list_scope.

Lemma keys_defined (k : string) (params : Object (option ParamValue)) :
  In k (map fst (defined params)) -> In k (map fst params).
Proof.
  induction params as [ | [k' [v | ]] params IH]; cbn; intuition.
Qed.

Lemma NoDup_defined (params : Object (option ParamValue)) :
  NoDup (map fst params) -> NoDup (map fst (defined params)).
Proof.
  induction params as [ | [k' [v | ]] params IH]; cbn; intros Hnd;
    inversion Hnd as [ | ? ? Hnotin Hnd']; subst.
  - constructor.
  - constructor; [ | apply IH; exact Hnd'].
    intros Hin. apply Hnotin. apply keys_defined. exact Hin.
  - apply IH. exact Hnd'.
Qed.

Lemma getKey_defined (k : string) (params : Object (option ParamValue)) :
  NoDup (map fst params) ->
  getKey k (defined params)
  = match getKey k params with
    | Some (Some v) => Some (render v)
    | _ => None
    end.
Proof.
  induction params as [ | [k' [v | ]] params IH]; cbn; intros Hnd;
    [reflexivity | | ]; inversion Hnd as [ | ? ? Hnotin Hnd']; subst.
  - destruct (String.eqb k k'); [reflexivity | apply IH; exact Hnd'].
  - destruct (String.eqb_spec k k') as [-> | Hne]; [ | apply IH; exact Hnd'].
    apply getKey_absent. intros Hin. apply Hnotin. apply keys_defined. exact Hin.
Qed.

Lemma queryParams_getKey (apiKey : string) (params : Object (option ParamValue))
  (k : string) :
  NoDup (map fst params) ->
  getKey k (queryParams apiKey params)
  = match getKey k params with
    | Some (Some v) => Some (render v)
    | _ => if String.eqb k "serviceKey" then Some apiKey
           else getKey k DEFAULT_PARAMS
    end.
Proof.
  intros Hnd. unfold queryParams.
  rewrite (getKey_spread k (defined params) (NoDup_defined params Hnd)).
  rewrite (getKey_defined k params Hnd), getKey_assign.
  destruct (getKey k params) as [[v | ] | ]; reflexivity.
Qed.

Lemma queryParams_NoDup (apiKey : string) (params : Object (option ParamValue)) :
  NoDup (map fst (queryParams apiKey params)).
Proof.
  unfold queryParams. apply NoDup_spread. apply NoDup_assign.
  cbn. repeat constructor; cbn; intuition discriminate.
Qed.

Lemma keys_assignIfTruthy (k k' : string) (value : option string)
  (o : Object (option ParamValue)) :
  In k (map fst (assignIfTruthy k' value o)) -> k = k' \/ In k (map fst o).
Proof.
  unfold assignIfTruthy. destruct value as [s | ]; [ | auto].
  destruct (String.eqb s ""); [auto | ]. apply keys_assign.
Qed.

Lemma NoDup_assignIfTruthy (k : string) (value : option string)
  (o : Object (option ParamValue)) :
  NoDup (map fst o) -> NoDup (map fst (assignIfTruthy k value o)).
Proof.
  unfold assignIfTruthy. destruct value as [s | ]; [ | auto].
  destruct (String.eqb s ""); [auto | ]. apply NoDup_assign.
Qed.

Lemma values_assign (k : string) (v : option ParamValue)
  (o : Object (option ParamValue)) :
  v <> None ->
  (forall kv, In kv o -> snd kv <> None) ->
  forall kv, In kv (assign k v o) -> snd kv <> None.
Proof.
  intros Hv. induction o as [ | [k0 v0] o IH]; cbn; intros Ho kv Hin.
  - destruct Hin as [<- | []]. exact Hv.
  - destruct (String.eqb k k0).
    + destruct Hin as [<- | Hin]; [exact Hv | apply Ho; right; exact Hin].
    + destruct Hin as [<- | Hin]; [apply (Ho (k0, v0)); left; reflexivity | ].
      apply IH; [ | exact Hin]. intros kv' Hkv'. apply Ho. right. exact Hkv'.
Qed.

Lemma values_assignIfTruthy (k : string) (value : option string)
  (o : Object (option ParamValue)) :
  (forall kv, In kv o -> snd kv <> None) ->
  forall kv, In kv (assignIfTruthy k value o) -> snd kv <> None.
Proof.
  unfold assignIfTruthy. destruct value as [s | ]; [ | auto].
  destruct (String.eqb s ""); [auto | ]. apply values_assign. discriminate.
Qed.

(** the shape shared by every request the exported functions build *)
Lemma request_shape (r : Request) :
  (exists a, areaCode2 a = Ok r)
  \/ (exists o, areaBasedList2 o = Ok r)
  \/ (exists o, searchKeyword2 o = Ok r)
  \/ (exists c, TourApiRequest.detailCommon2 c = Ok r)
  \/ (exists c t, TourApiRequest.detailIntro2 c t = Ok r)
  \/ (exists c, TourApiRequest.detailImage2 c = Ok r) ->
  NoDup (map fst (params r))
  /\ (forall k, In k (map fst (params r)) -> In k UrlText.parameterNames)
  /\ (forall kv, In kv (params r) -> snd kv <> None).
Proof.
  assert (Hbase2 : forall (k1 k2 : string) (v1 v2 : option ParamValue),
            k1 <> k2 -> NoDup (map fst [(k1, v1); (k2, v2)])).
  { intros k1 k2 v1 v2 Hne. cbn. repeat constructor; cbn; intuition. }
  intros [(a & H) | [(o & H) | [(o & H) | [(c & H) | [(c & t & H) | (c & H)]]]]].
  - unfold areaCode2 in H. injection H as <-. cbn [params].
    split; [apply NoDup_assignIfTruthy; constructor | ].
    split.
    + intros k Hk. apply keys_assignIfTruthy in Hk.
      destruct Hk as [-> | []]. cbn. tauto.
    + apply values_assignIfTruthy. intros kv [].
  - unfold areaBasedList2 in H. injection H as <-. cbn [params].
    split; [repeat apply NoDup_assignIfTruthy; apply Hbase2; discriminate | ].
    split.
    + intros k Hk.
      repeat (apply keys_assignIfTruthy in Hk; destruct Hk as [-> | Hk];
              [cbn; tauto | ]).
      cbn in Hk. destruct Hk as [<- | [<- | []]]; cbn; tauto.
    + repeat apply values_assignIfTruthy.
      intros kv [<- | [<- | []]]; discriminate.
  - unfold searchKeyword2 in H.
    destruct (blank (keyword o)); [discriminate | ]. injection H as <-.
    cbn [params].
    split; [repeat apply NoDup_assignIfTruthy; cbn;
            repeat constructor; cbn; intuition discriminate | ].
    split.
    + intros k Hk.
      repeat (apply keys_assignIfTruthy in Hk; destruct Hk as [-> | Hk];
              [cbn; tauto | ]).
      cbn in Hk. destruct Hk as [<- | [<- | [<- | [<- | []]]]]; cbn; tauto.
    + repeat apply values_assignIfTruthy.
      intros kv [<- | [<- | [<- | [<- | []]]]]; discriminate.
  - unfold TourApiRequest.detailCommon2 in H.
    destruct (blank c); [discriminate | ]. injection H as <-. cbn [params].
    split; [cbn; repeat constructor; cbn; intuition | ].
    split; [intros k [<- | []]; cbn; tauto | intros kv [<- | []]; discriminate].
  - unfold TourApiRequest.detailIntro2 in H.
    destruct (blank c); [discriminate | ].
    destruct (blank t); [discriminate | ]. injection H as <-. cbn [params].
    split; [apply Hbase2; discriminate | ].
    split; [intros k [<- | [<- | []]]; cbn; tauto
           | intros kv [<- | [<- | []]]; discriminate].
  - unfold TourApiRequest.detailImage2 in H.
    destruct (blank c); [discriminate | ]. injection H as <-. cbn [params].
    split; [cbn; repeat constructor; cbn; intuition | ].
    split; [intros k [<- | []]; cbn; tauto | intros kv [<- | []]; discriminate].
Qed.

Lemma blank_by_trim (s : string) : blank s = (String.length (trim s) =? 0)%nat.
Proof.
  unfold blank. destruct (String.eqb_spec s "") as [-> | _]; reflexivity.
Qed.

Lemma count_app (c : ascii) (a b : string) :
  UrlText.count c (a ++ b)%string = UrlText.count c a + UrlText.count c b.
Proof.
  induction a as [ | c' a IH]; cbn; [reflexivity | ]. rewrite IH. lia.
Qed.

Lemma count_urlencode_step (c : ascii) (rest : string) :
  UrlText.count "&" (urlencode (String c rest)) = UrlText.count "&" (urlencode rest)
  /\ UrlText.count "=" (urlencode (String c rest)) = UrlText.count "=" (urlencode rest).
Proof.
  destruct c as [[] [] [] [] [] [] [] []]; split; reflexivity.
Qed.

Lemma count_urlencode (s : string) :
  UrlText.count "&" (urlencode s) = 0 /\ UrlText.count "=" (urlencode s) = 0.
Proof.
  induction s as [ | c s [IHa IHe]]; [split; reflexivity | ].
  destruct (count_urlencode_step c s) as [-> ->]. split; assumption.
Qed.

Lemma count_serialize (q : Object string) :
  UrlText.count "&" (serialize q) = length q - 1
  /\ UrlText.count "=" (serialize q) = length q.
Proof.
  induction q as [ | [k v] q [IHa IHe]]; [split; reflexivity | ].
  destruct (count_urlencode k) as [Hka Hke].
  destruct (count_urlencode v) as [Hva Hve].
  destruct q as [ | kv q].
  - cbn [serialize length]. rewrite !count_app, Hka, Hke, Hva, Hve.
    split; reflexivity.
  - change (serialize ((k, v) :: kv :: q))
      with (urlencode k ++ "=" ++ urlencode v ++ "&" ++ serialize (kv :: q))%string.
    rewrite !count_app, Hka, Hke, Hva, Hve, IHa, IHe. cbn. split; lia.
Qed.

End QueryFacts.

(** X15. The query [fetchTourAPI] sends looks a name up in this order: a
    parameter of the caller that is not undefined, then the API key under
    serviceKey, then the defaults MobileOS, MobileApp and _type.  So a
    caller's parameter would override the key or a default, an undefined
    one leaves them in place, and no name occurs twice. *)
Theorem query_lookup_order :
  forall (apiKey : string)
         (params : TourApiRequest.Object (option TourApiRequest.ParamValue))
         (k : string),
    NoDup (map fst params) ->
    TourApiRequest.getKey k (TourApiRequest.queryParams apiKey params)
    = match TourApiRequest.getKey k params with
      | Some (Some v) => Some (TourApiRequest.render v)
      | _ => if String.eqb k "serviceKey" then Some apiKey
             else TourApiRequest.getKey k TourApiRequest.DEFAULT_PARAMS
      end
    /\ NoDup (map fst (TourApiRequest.queryParams apiKey params)).
Proof.
  intros apiKey params k Hnd.
  split; [apply queryParams_getKey; exact Hnd | apply queryParams_NoDup].
Qed.

Lemma query_lookup_order_witness :
  NoDup (map fst [ ("pageNo", Some (TourApiRequest.PNum 2));
                   ("_type", Some (TourApiRequest.PStr "xml"));
                   ("MobileOS", None) ])
  /\ TourApiRequest.queryParams "key"
       [ ("pageNo", Some (TourApiRequest.PNum 2));
         ("_type", Some (TourApiRequest.PStr "xml"));
         ("MobileOS", None) ]
     = [ ("MobileOS", "ETC"); ("MobileApp", "MyTrip"); ("_type", "xml");
         ("serviceKey", "key"); ("pageNo", "2") ]
  /\ TourApiRequest.getKey "_type"
       (TourApiRequest.queryParams "key"
          [ ("pageNo", Some (TourApiRequest.PNum 2));
            ("_type", Some (TourApiRequest.PStr "xml"));
            ("MobileOS", None) ])
     = Some "xml".
Proof.
  assert (Hnd : NoDup (map fst [ ("pageNo", Some (TourApiRequest.PNum 2));
                                 ("_type", Some (TourApiRequest.PStr "xml"));
                                 ("MobileOS", @None TourApiRequest.ParamValue) ])).
  { cbn. repeat constructor; cbn; intuition discriminate. }
  split; [exact Hnd | ]. split; [reflexivity | ].
  exact (proj1 (query_lookup_order "key" _ "_type" Hnd)).
Defined.

(** X16. Whatever request one of the six exported functions of tour-api.ts
    builds, its parameters have distinct names taken from a fixed list and
    none is undefined; hence the query that is sent always carries the
    configured API key under serviceKey and the three defaults
    unchanged. *)
Theorem every_request_carries_key_and_defaults :
  forall (apiKey : string) (r : TourApiRequest.Request),
    (exists a, TourApiRequest.areaCode2 a = Ok r)
    \/ (exists o, TourApiRequest.areaBasedList2 o = Ok r)
    \/ (exists o, TourApiRequest.searchKeyword2 o = Ok r)
    \/ (exists c, TourApiRequest.detailCommon2 c = Ok r)
    \/ (exists c t, TourApiRequest.detailIntro2 c t = Ok r)
    \/ (exists c, TourApiRequest.detailImage2 c = Ok r) ->
    NoDup (map fst (TourApiRequest.params r))
    /\ (forall k, In k (map fst (TourApiRequest.params r)) ->
                  In k UrlText.parameterNames)
    /\ (forall kv, In kv (TourApiRequest.params r) -> snd kv <> None)
    /\ TourApiRequest.getKey "serviceKey"
         (TourApiRequest.queryParams apiKey (TourApiRequest.params r))
       = Some apiKey
    /\ TourApiRequest.getKey "MobileOS"
         (TourApiRequest.queryParams apiKey (TourApiRequest.params r))
       = Some "ETC"
    /\ TourApiRequest.getKey "MobileApp"
         (TourApiRequest.queryParams apiKey (TourApiRequest.params r))
       = Some "MyTrip"
    /\ TourApiRequest.getKey "_type"
         (TourApiRequest.queryParams apiKey (TourApiRequest.params r))
       = Some "json"
    /\ length (TourApiRequest.queryParams apiKey (TourApiRequest.params r))
       = 4 + length (TourApiRequest.params r).
Proof.
  intros apiKey r Hbuilt.
  destruct (request_shape r Hbuilt) as (Hnd & Hnames & Hvalues).
  assert (Hreserved : forall k,
            In k ["serviceKey"; "MobileOS"; "MobileApp"; "_type"] ->
            TourApiRequest.getKey k (TourApiRequest.params r) = None).
  { intros k Hk. apply getKey_absent. intros Hin. apply Hnames in Hin.
    cbn in Hk, Hin.
    destruct Hk as [<- | [<- | [<- | [<- | []]]]];
      repeat (destruct Hin as [Hin | Hin]; [discriminate | ]); exact Hin. }
  split; [exact Hnd | ]. split; [exact Hnames | ]. split; [exact Hvalues | ].
  rewrite !(queryParams_getKey apiKey _ _ Hnd).
  rewrite !Hreserved by (cbn; tauto).
  repeat (split; [reflexivity | ]).
  (* every parameter is a new entry of the query *)
  unfold TourApiRequest.queryParams.
  assert (Hlen : forall (source target : TourApiRequest.Object string),
            NoDup (map fst source) ->
            (forall k, In k (map fst source) -> ~ In k (map fst target)) ->
            length (TourApiRequest.spread target source)
            = (length target + length source)%nat).
  { unfold TourApiRequest.spread.
    induction source as [ | [k v] source IH]; intros target Hs Hfresh; cbn.
    - lia.
    - inversion Hs as [ | ? ? Hnotin Hs']; subst.
      assert (Hk : ~ In k (map fst target)) by (apply Hfresh; left; reflexivity).
      assert (Hassign : TourApiRequest.assign k v target = (target ++ [(k, v)])%list).
      { clear - Hk. induction target as [ | [k0 v0] target IHt]; cbn; [reflexivity | ].
        destruct (String.eqb_spec k k0) as [-> | Hne].
        - exfalso. apply Hk. left. reflexivity.
        - rewrite IHt; [reflexivity | ]. intros Hin. apply Hk. right. exact Hin. }
      rewrite Hassign, IH.
      + rewrite length_app. cbn. lia.
      + exact Hs'.
      + intros k' Hk' Hin. rewrite map_app, in_app_iff in Hin.
        destruct Hin as [Hin | [<- | []]].
        * apply (Hfresh k'); [right; exact Hk' | exact Hin].
        * contradiction.
  }
  rewrite Hlen.
  - assert (Hdef : forall p : TourApiRequest.Object (option TourApiRequest.ParamValue),
              (forall kv, In kv p -> snd kv <> None) ->
              length (TourApiRequest.defined p) = length p).
    { induction p as [ | [k [v | ]] p IHp]; cbn; intros Hp.
      - reflexivity.
      - f_equal. apply IHp. intros kv Hkv. apply Hp. right. exact Hkv.
      - exfalso. apply (Hp (k, None)); [left; reflexivity | reflexivity]. }
    rewrite (Hdef _ Hvalues). reflexivity.
  - apply NoDup_defined. exact Hnd.
  - intros k Hk Hin. apply keys_defined in Hk. apply Hnames in Hk.
    cbn in Hk, Hin.
    destruct Hin as [<- | [<- | [<- | [<- | []]]]];
      repeat (destruct Hk as [Hk | Hk]; [discriminate | ]); exact Hk.
Qed.

Lemma every_request_carries_key_and_defaults_witness :
  TourApiRequest.detailCommon2 " 126508 "
  = Ok {| TourApiRequest.endpoint := "/detailCommon2";
          TourApiRequest.params :=
            [("contentId", Some (TourApiRequest.PStr "126508"))] |}
  /\ TourApiRequest.getKey "serviceKey"
       (TourApiRequest.queryParams "key"
          [("contentId", Some (TourApiRequest.PStr "126508"))])
     = Some "key".
Proof.
  split; [reflexivity | ].
  refine (proj1 (proj2 (proj2 (proj2
    (every_request_carries_key_and_defaults "key"
       {| TourApiRequest.endpoint := "/detailCommon2";
          TourApiRequest.params :=
            [("contentId", Some (TourApiRequest.PStr "126508"))] |} _))))).
  right. right. right. left. exists " 126508 ". reflexivity.
Defined.

Lemma assignIfTruthy_given (k : string) (value value' : option string)
  (o : TourApiRequest.Object (option TourApiRequest.ParamValue)) :
  UrlText.given value = UrlText.given value' ->
  TourApiRequest.assignIfTruthy k value o = TourApiRequest.assignIfTruthy k value' o.
Proof.
  unfold UrlText.given, TourApiRequest.assignIfTruthy.
  destruct value as [s | ], value' as [s' | ];
    try destruct (String.eqb s ""); try destruct (String.eqb s' "");
    intros H; try discriminate; try reflexivity.
  injection H as ->. reflexivity.
Qed.

(** X17. The requests depend on their text arguments only up to
    surrounding white space: two content ids, content type ids or keywords
    with the same trimmed text give the same request (or the same
    refusal).  And they depend on each optional filter (of [areaCode2],
    [areaBasedList2] and [searchKeyword2]) only through whether it is
    given and not empty: a filter given as the empty string gives the same
    request as one left out. *)
Theorem requests_ignore_surrounding_space :
  forall (a b : string),
    trim a = trim b ->
    TourApiRequest.detailCommon2 a = TourApiRequest.detailCommon2 b
    /\ TourApiRequest.detailImage2 a = TourApiRequest.detailImage2 b
    /\ (forall t, TourApiRequest.detailIntro2 a t = TourApiRequest.detailIntro2 b t)
    /\ (forall c, TourApiRequest.detailIntro2 c a = TourApiRequest.detailIntro2 c b)
    /\ (forall area type rows page yn arrange c1 c2 c3,
          TourApiRequest.searchKeyword2
            (TourApiRequest.mkSearchOptions a area type rows page yn arrange c1 c2 c3)
          = TourApiRequest.searchKeyword2
              (TourApiRequest.mkSearchOptions b area type rows page yn arrange c1 c2 c3))
    /\ (forall type rows page sigungu c1 c2 c3,
          TourApiRequest.areaBasedList2
            (TourApiRequest.mkListOptions (Some "") type rows page sigungu c1 c2 c3)
          = TourApiRequest.areaBasedList2
              (TourApiRequest.mkListOptions None type rows page sigungu c1 c2 c3))
    /\ UrlText.given (Some "") = UrlText.given None
    /\ (forall area area',
          UrlText.given area = UrlText.given area' ->
          TourApiRequest.areaCode2 area = TourApiRequest.areaCode2 area')
    /\ (forall area area' type type' sigungu sigungu' c1 c1' c2 c2' c3 c3' rows page,
          UrlText.given area = UrlText.given area' ->
          UrlText.given type = UrlText.given type' ->
          UrlText.given sigungu = UrlText.given sigungu' ->
          UrlText.given c1 = UrlText.given c1' ->
          UrlText.given c2 = UrlText.given c2' ->
          UrlText.given c3 = UrlText.given c3' ->
          TourApiRequest.areaBasedList2
            (TourApiRequest.mkListOptions area type rows page sigungu c1 c2 c3)
          = TourApiRequest.areaBasedList2
              (TourApiRequest.mkListOptions area' type' rows page sigungu' c1' c2' c3'))
    /\ (forall keyword area area' type type' arrange arrange' c1 c1' c2 c2' c3 c3'
               rows page yn,
          UrlText.given area = UrlText.given area' ->
          UrlText.given type = UrlText.given type' ->
          UrlText.given arrange = UrlText.given arrange' ->
          UrlText.given c1 = UrlText.given c1' ->
          UrlText.given c2 = UrlText.given c2' ->
          UrlText.given c3 = UrlText.given c3' ->
          TourApiRequest.searchKeyword2
            (TourApiRequest.mkSearchOptions keyword area type rows page yn
               arrange c1 c2 c3)
          = TourApiRequest.searchKeyword2
              (TourApiRequest.mkSearchOptions keyword area' type' rows page yn
                 arrange' c1' c2' c3')).
Proof.
  intros a b Htrim.
  assert (Hblank : TourApi.blank a = TourApi.blank b)
    by (rewrite !blank_by_trim, Htrim; reflexivity).
  split; [ | split; [ | split; [ | split; [ | split; [ | split]]]]].
  - unfold TourApiRequest.detailCommon2. rewrite Hblank, Htrim. reflexivity.
  - unfold TourApiRequest.detailImage2. rewrite Hblank, Htrim. reflexivity.
  - intros t. unfold TourApiRequest.detailIntro2. rewrite Hblank, Htrim. reflexivity.
  - intros c. unfold TourApiRequest.detailIntro2. rewrite Hblank, Htrim. reflexivity.
  - intros area type rows page yn arrange c1 c2 c3.
    unfold TourApiRequest.searchKeyword2. cbn [TourApiRequest.keyword].
    rewrite Hblank, Htrim. reflexivity.
  - reflexivity.
  - split; [reflexivity | ]. split; [ | split].
    + intros area area' Harea. unfold TourApiRequest.areaCode2.
      rewrite (assignIfTruthy_given "areaCode" area area' _ Harea). reflexivity.
    + intros area area' type type' sigungu sigungu' c1 c1' c2 c2' c3 c3' rows page
        Harea Htype Hsigungu Hc1 Hc2 Hc3.
      unfold TourApiRequest.areaBasedList2.
      cbn [TourApiRequest.areaCode TourApiRequest.contentTypeId
           TourApiRequest.sigunguCode TourApiRequest.cat1 TourApiRequest.cat2
           TourApiRequest.cat3 TourApiRequest.numOfRows TourApiRequest.pageNo].
      rewrite (assignIfTruthy_given "areaCode" area area' _ Harea),
        (assignIfTruthy_given "contentTypeId" type type' _ Htype),
        (assignIfTruthy_given "sigunguCode" sigungu sigungu' _ Hsigungu),
        (assignIfTruthy_given "cat1" c1 c1' _ Hc1),
        (assignIfTruthy_given "cat2" c2 c2' _ Hc2),
        (assignIfTruthy_given "cat3" c3 c3' _ Hc3).
      reflexivity.
    + intros keyword area area' type type' arrange arrange' c1 c1' c2 c2' c3 c3'
        rows page yn Harea Htype Harrange Hc1 Hc2 Hc3.
      unfold TourApiRequest.searchKeyword2.
      cbn [TourApiRequest.keyword TourApiRequest.s_areaCode
           TourApiRequest.s_contentTypeId TourApiRequest.arrange
           TourApiRequest.s_cat1 TourApiRequest.s_cat2 TourApiRequest.s_cat3
           TourApiRequest.s_numOfRows TourApiRequest.s_pageNo TourApiRequest.listYN].
      destruct (TourApi.blank keyword); [reflexivity | ].
      rewrite (assignIfTruthy_given "areaCode" area area' _ Harea),
        (assignIfTruthy_given "contentTypeId" type type' _ Htype),
        (assignIfTruthy_given "arrange" arrange arrange' _ Harrange),
        (assignIfTruthy_given "cat1" c1 c1' _ Hc1),
        (assignIfTruthy_given "cat2" c2 c2' _ Hc2),
        (assignIfTruthy_given "cat3" c3 c3' _ Hc3).
      reflexivity.
Qed.

Lemma requests_ignore_surrounding_space_witness :
  trim " 126508 " = trim "126508"
  /\ TourApiRequest.detailCommon2 " 126508 " = TourApiRequest.detailCommon2 "126508"
  /\ TourApiRequest.searchKeyword2
       (TourApiRequest.mkSearchOptions "palace" (Some "1") (Some "") None None None
          (Some "") None None (Some ""))
     = TourApiRequest.searchKeyword2
         (TourApiRequest.mkSearchOptions "palace" (Some "1") None None None None
            None None None None).
Proof.
  split; [reflexivity | ].
  destruct (requests_ignore_surrounding_space " 126508 " "126508" eq_refl)
    as (Hcommon & _ & _ & _ & _ & _ & _ & _ & _ & Hsearch).
  split; [exact Hcommon | ].
  apply Hsearch; reflexivity.
Defined.

(** X18. In the serialized query the separators come from the structure
    only: there is one = per parameter and one & between two parameters,
    whatever characters the API key, a keyword or any other value holds.
    A keyword therefore cannot add or end a parameter. *)
Theorem query_separators_come_from_structure :
  forall (apiKey : string)
         (params : TourApiRequest.Object (option TourApiRequest.ParamValue)),
    UrlText.count "&" (TourApiRequest.serialize (TourApiRequest.queryParams apiKey params))
    = length (TourApiRequest.queryParams apiKey params) - 1
    /\ UrlText.count "=" (TourApiRequest.serialize (TourApiRequest.queryParams apiKey params))
       = length (TourApiRequest.queryParams apiKey params)
    /\ 4 <= length (TourApiRequest.queryParams apiKey params).
Proof.
  intros apiKey params.
  destruct (count_serialize (TourApiRequest.queryParams apiKey params)) as [Ha He].
  split; [exact Ha | ]. split; [exact He | ].
  unfold TourApiRequest.queryParams, TourApiRequest.spread.
  assert (Hgrow : forall (source target : TourApiRequest.Object string),
            length target
            <= length (fold_left
                         (fun acc kv => TourApiRequest.assign (fst kv) (snd kv) acc)
                         source target)).
  { induction source as [ | [k v] source IH]; intros target; cbn; [lia | ].
    etransitivity; [ | apply IH].
    clear. induction target as [ | [k0 v0] target IHt]; cbn; [lia | ].
    destruct (String.eqb k k0); cbn; lia. }
  etransitivity; [ | apply Hgrow]. cbn. lia.
Qed.

Example search_url_example :
  TourApiRequest.requestUrl Reference.serverEnv
    {| TourApiRequest.endpoint := "/searchKeyword2";
       TourApiRequest.params :=
         [ ("keyword", Some (TourApiRequest.PStr "a&b=c d"));
           ("pageNo", Some (TourApiRequest.PNum 1)) ] |}
  = Ok "https://apis.data.go.kr/B551011/KorService2/searchKeyword2?MobileOS=ETC&MobileApp=MyTrip&_type=json&serviceKey=key&keyword=a%26b%3Dc+d&pageNo=1".
Proof. reflexivity. Qed.


(** X19. [formatError] answers with one of nine fixed sentences, whatever
    the error; [getErrorInfo] carries the same sentence; an error that may
    be retried always gets a sentence that asks to try again; and a thrown
    value that is not an [Error] is of unknown type, not retryable, and
    gets the sentence for unexpected errors. *)
Theorem formatError_shows_fixed_sentences :
  forall (toLowerCase : string -> string) (error : Thrown),
    In (ErrorHandler.formatError toLowerCase error)
       [ "네트워크 연결에 문제가 있습니다. 인터넷 연결을 확인하고 다시 시도해주세요.";
         "API 인증에 실패했습니다. 관리자에게 문의해주세요.";
         "인증에 실패했습니다. 다시 로그인해주세요.";
         "API 호출 제한에 도달했습니다. 잠시 후 다시 시도해주세요.";
         "서버에 일시적인 문제가 발생했습니다. 잠시 후 다시 시도해주세요.";
         "데이터를 불러오는 중 오류가 발생했습니다. 잠시 후 다시 시도해주세요.";
         "입력한 정보를 확인해주세요. 필수 항목이 누락되었거나 형식이 올바르지 않습니다.";
         "요청하신 정보를 찾을 수 없습니다.";
         "예상치 못한 오류가 발생했습니다. 잠시 후 다시 시도해주세요." ]
    /\ ErrorHandler.userMessage (ErrorHandler.getErrorInfo toLowerCase error)
       = ErrorHandler.formatError toLowerCase error
    /\ (ErrorHandler.isRetryableError toLowerCase error = true ->
        includes (ErrorHandler.formatError toLowerCase error) "다시 시도해주세요."
        = true)
    /\ (instanceofError error = false ->
        ErrorHandler.getErrorType toLowerCase error = ErrorHandler.UNKNOWN
        /\ ErrorHandler.isRetryableError toLowerCase error = false
        /\ ErrorHandler.formatError toLowerCase error
           = "예상치 못한 오류가 발생했습니다. 잠시 후 다시 시도해주세요.").
Proof.
  intros lower error.
  unfold ErrorHandler.isRetryableError, ErrorHandler.getErrorInfo,
    ErrorHandler.formatError, ErrorHandler.getUserFriendlyMessage.
  cbn [ErrorHandler.userMessage ErrorHandler.canRetry].
  split; [ | split; [reflexivity | split]].
  - destruct (ErrorHandler.getErrorType lower error); cbn [In];
      repeat match goal with
             | |- context [if ?b then _ else _] => destruct b
             end; tauto.
  - destruct (ErrorHandler.getErrorType lower error);
      cbn [ErrorHandler.ErrorType_eqb orb]; try discriminate; intros _;
      repeat match goal with
             | |- context [if ?b then _ else _] => destruct b
             end; vm_compute; reflexivity.
  - destruct error as [name message | text]; cbn [instanceofError];
      [discriminate | ]. intros _. repeat split.
Qed.

Section PageOutcomeFacts.

Import TourApi Pages.

Variable toLowerCase : string -> string.
Variable env : Env.

Lemma toDetail_id (item : TourDetail.t) : toDetail item = item.
Proof. destruct item. reflexivity. Qed.

Lemma nonNull_length {A} (l : list (option A)) :
  List.length (nonNull l) <= List.length l.
Proof.
  induction l as [ | [a | ] l IH]; cbn; lia.
Qed.

Lemma fetchTours_length (nets : Bookmark.t -> Network (Body TourDetail.t))
  (bookmarks : list Bookmark.t) :
  List.length (fetchTours toLowerCase env nets bookmarks) <= List.length bookmarks.
Proof.
  unfold fetchTours. etransitivity; [apply nonNull_length | ].
  rewrite length_map. lia.
Qed.

End PageOutcomeFacts.

(** X20. The outcomes of [PlaceDetailPage], read backwards.  A rendered
    page shows the first item of an answer of [detailCommon2] that holds
    an array of items, field by field as it came.  The page ends in
    not-found exactly for a blank content id or an answer without items.
    Anything else it throws is an [Error]: the one [detailCommon2] threw
    (the page's own when a value that is no [Error] was thrown), or the
    [TypeError] the page itself raises when [detailCommon2] resolved with
    a single object in place of the array.  A failure of the intro or
    image request never shows in the outcome. *)
Theorem PlaceDetailPage_outcomes :
  forall (toLowerCase : string -> string) (env : TourApi.Env)
         (netCommon : TourApi.Network (TourApi.Body TourDetail.t))
         (netIntro : TourApi.Network (TourApi.Body TourIntro.t))
         (netImage : TourApi.Network (TourApi.Body TourImage.t))
         (contentId : string),
    match Pages.PlaceDetailPage toLowerCase env netCommon netIntro netImage contentId with
    | Pages.Returns view =>
        TourApi.blank contentId = false
        /\ exists response item rest,
             fst (TourApi.detailCommon2 toLowerCase env netCommon contentId)
             = Ok response
             /\ TourApi.itemsOf response = Some (TourApi.Many (item :: rest))
             /\ Pages.detail view = item
    | Pages.Throws Pages.NotFoundError =>
        TourApi.blank contentId = true
        \/ exists response,
             fst (TourApi.detailCommon2 toLowerCase env netCommon contentId)
             = Ok response
             /\ (TourApi.itemsOf response = None
                 \/ TourApi.itemsOf response = Some (TourApi.Many []))
    | Pages.Throws Pages.RedirectError => False
    | Pages.Throws (Pages.Js e) =>
        TourApi.blank contentId = false
        /\ instanceofError e = true
        /\ ((exists err,
               fst (TourApi.detailCommon2 toLowerCase env netCommon contentId)
               = Throw err
               /\ e = (if instanceofError err then err
                       else Error "관광지 정보를 불러오는 중 오류가 발생했습니다."))
            \/ (exists response x,
                  fst (TourApi.detailCommon2 toLowerCase env netCommon contentId)
                  = Ok response
                  /\ TourApi.itemsOf response = Some (TourApi.One x)
                  /\ e = TypeError
                           "Cannot read properties of undefined (reading 'contentid')"))
    end.
Proof.
  intros lower env netCommon netIntro netImage contentId.
  unfold Pages.PlaceDetailPage, Pages.loadDetail.
  destruct (TourApi.blank contentId) eqn:Hblank; [left; reflexivity | ].
  destruct (fst (TourApi.detailCommon2 lower env netCommon contentId))
    as [response | err] eqn:Hcommon.
  - destruct (TourApi.itemsOf response) as [[[ | item rest] | x] | ] eqn:Hitems;
      cbn [Pages.isError].
    + right. exists response. split; [reflexivity | right; exact Hitems].
    + split; [reflexivity | ]. exists response, item, rest.
      split; [reflexivity | ]. split; [exact Hitems | ].
      apply toDetail_id.
    + cbn [instanceofError Pages.readOfUndefined TypeError].
      split; [reflexivity | ]. split; [reflexivity | ].
      right. exists response, x. split; [reflexivity | ].
      split; [exact Hitems | reflexivity].
    + right. exists response. split; [reflexivity | left; exact Hitems].
  - cbn [Pages.isError].
    destruct (instanceofError err) eqn:Herr.
    + split; [reflexivity | ]. split; [exact Herr | ].
      left. exists err. rewrite Herr. split; reflexivity.
    + split; [reflexivity | ]. split; [reflexivity | ].
      left. exists err. rewrite Herr. split; reflexivity.
Qed.

Example PlaceDetailPage_single_object :
  Pages.PlaceDetailPage toLowerCaseAscii Reference.serverEnv
    (Samples.servingOne Reference.palace) (Reference.always 500)
    (Reference.serving [Reference.palaceImage]) "125266"
  = Pages.Throws
      (Pages.Js (TypeError
                   "Cannot read properties of undefined (reading 'contentid')")).
Proof. vm_compute. reflexivity. Qed.

(** X21. [BookmarksPage] turns a failed listing into the empty state: when
    [getBookmarksAction] throws, whatever it throws, the page renders with
    no bookmarks and no tours.  In general the list is shown exactly when
    at least one tour was fetched, and there are never more tours than
    bookmarks.  For a visitor without a session, a throwing
    [redirectToSignIn] ends the page before any query. *)
Theorem BookmarksPage_views :
  forall (toLowerCase : string -> string) (env : TourApi.Env)
         (client : Supabase.SupabaseClient)
         (redirectToSignIn : Pages.Completion unit)
         (nets : Bookmark.t -> TourApi.Network (TourApi.Body TourDetail.t))
         (w : Store.World),
    (forall e,
       Actions.missing (Store.session w) = false ->
       fst (Actions.getBookmarksAction client (Store.record Store.AuthCall w))
       = Throw e ->
       fst (Pages.BookmarksPage toLowerCase env client redirectToSignIn nets w)
       = Pages.Returns {| Pages.bookmarks := [];
                          Pages.tours := [];
                          Pages.listShown := false |})
    /\ (forall view,
          fst (Pages.BookmarksPage toLowerCase env client redirectToSignIn nets w)
          = Pages.Returns view ->
          List.length (Pages.tours view) <= List.length (Pages.bookmarks view)
          /\ (Pages.listShown view = true <-> Pages.tours view <> []))
    /\ (forall x,
          Actions.missing (Store.session w) = true ->
          redirectToSignIn = Pages.Throws x ->
          Pages.BookmarksPage toLowerCase env client redirectToSignIn nets w
          = (Pages.Throws x, Store.record Store.AuthCall w)).
Proof.
  intros lower env client redirect nets w.
  unfold Pages.BookmarksPage, Async.auth.
  split; [ | split].
  - intros e Hsession Hthrow. rewrite Hsession.
    destruct (Actions.getBookmarksAction client (Store.record Store.AuthCall w))
      as [r w2]. cbn [fst] in Hthrow. subst r. reflexivity.
  - intros view.
    destruct (if Actions.missing (Store.session w) then redirect else Pages.Returns tt)
      as [[] | x]; [ | discriminate].
    destruct (Actions.getBookmarksAction client (Store.record Store.AuthCall w))
      as [[bookmarks | err] w2]; cbn [fst].
    + destruct bookmarks as [ | b bookmarks]; cbn [List.length Nat.eqb].
      * intros H; injection H as <-. cbn. split; [lia | ].
        split; [discriminate | intros H; contradiction].
      * intros H; injection H as <-. cbn [Pages.tours Pages.bookmarks Pages.listShown].
        split; [apply fetchTours_length | ].
        cbn [Nat.ltb Nat.leb andb].
        destruct (Pages.fetchTours lower env nets (b :: bookmarks)); cbn.
        -- split; [discriminate | intros H; contradiction].
        -- split; [discriminate | reflexivity].
    + intros H; injection H as <-. cbn. split; [lia | ].
      split; [discriminate | intros H; contradiction].
  - intros x Hsession ->. rewrite Hsession. reflexivity.
Qed.


Section PaginationFacts.

Import Pagination.
Local Open Scope Z_scope.
Local Open Scope list_scope.

Ltac decide_comparisons :=
  repeat (cbn [unique sort insert withEllipses existsb filter app fold_right
               negb andb orb upFrom];
          match goal with
          | |- context [Z.eqb ?a ?b] => destruct (Z.eqb_spec a b); try lia
          | |- context [Z.leb ?a ?b] => destruct (Z.leb_spec a b); try lia
          | |- context [Z.gtb ?a ?b] => destruct (Z.gtb_spec a b); try lia
          end).

(** the closed form of the page numbers for more than five pages *)
Lemma getPageNumbers_closed (currentPage totalPages : Z) :
  5 < totalPages ->
  1 <= currentPage <= totalPages ->
  getPageNumbers currentPage totalPages
  = if totalPages =? 6 then [1; 2; 3; 4; 5; 6]
    else if currentPage <=? 3 then [1; 2; 3; 4; 5; -1; totalPages]
    else if totalPages - 2 <=? currentPage
    then [1; -1; totalPages - 4; totalPages - 3; totalPages - 2;
          totalPages - 1; totalPages]
    else [1; -1; currentPage - 1; currentPage; currentPage + 1; -1; totalPages].
Proof.
  intros Hmany Hcurrent. unfold getPageNumbers.
  destruct (Z.leb_spec totalPages 5) as [ | _]; [lia | ].
  destruct (Z.gtb_spec totalPages 1) as [_ | ]; [ | lia].
  destruct (Z.leb_spec currentPage 3) as [Hfront | Hfront];
    destruct (Z.geb_spec currentPage (totalPages - 2)) as [Hback | Hback];
    try lia; unfold range.
  - (* near the front *)
    replace (Z.to_nat (Z.min 5 (totalPages - 1) + 1 - 2)) with 4%nat by lia.
    destruct (Z.eqb_spec totalPages 6) as [-> | Hsix]; [reflexivity | ].
    decide_comparisons. reflexivity.
  - (* near the back *)
    destruct (Z.eqb_spec totalPages 6) as [-> | Hsix]; [reflexivity | ].
    destruct (Z.leb_spec (totalPages - 2) currentPage) as [_ | ]; [ | lia].
    replace (Z.max 2 (totalPages - 4)) with (totalPages - 4) by lia.
    replace (Z.to_nat (totalPages - 1 + 1 - (totalPages - 4))) with 4%nat by lia.
    decide_comparisons.
    repeat (apply (f_equal2 (@cons Z)); [lia | ]). reflexivity.
  - (* in the middle *)
    destruct (Z.eqb_spec totalPages 6) as [-> | Hsix]; [lia | ].
    destruct (Z.leb_spec (totalPages - 2) currentPage) as [ | _]; [lia | ].
    replace (Z.max 2 (currentPage - 1)) with (currentPage - 1) by lia.
    replace (Z.min (totalPages - 1) (currentPage + 1)) with (currentPage + 1) by lia.
    replace (Z.to_nat (currentPage + 1 + 1 - (currentPage - 1))) with 3%nat by lia.
    decide_comparisons.
    repeat (apply (f_equal2 (@cons Z)); [lia | ]). reflexivity.
Qed.

Lemma getPageNumbers_few (currentPage totalPages : Z) :
  1 <= totalPages <= 5 ->
  getPageNumbers currentPage totalPages
  = if totalPages =? 1 then [1]
    else if totalPages =? 2 then [1; 2]
    else if totalPages =? 3 then [1; 2; 3]
    else if totalPages =? 4 then [1; 2; 3; 4]
    else [1; 2; 3; 4; 5].
Proof.
  intros Hfew.
  assert (Hcases : totalPages = 1 \/ totalPages = 2 \/ totalPages = 3
                   \/ totalPages = 4 \/ totalPages = 5) by lia.
  destruct Hcases as [-> | [-> | [-> | [-> | ->]]]]; reflexivity.
Qed.

Ltac decide_buttons :=
  unfold buttons;
  repeat (cbn [filter negb];
          match goal with
          | |- context [Z.eqb ?a ?b] => destruct (Z.eqb_spec a b); try lia
          | H : context [Z.eqb ?a ?b] |- _ => destruct (Z.eqb_spec a b); try lia
          end).

Lemma getPageNumbers_facts (currentPage totalPages : Z) :
  1 <= currentPage <= totalPages ->
  In currentPage (getPageNumbers currentPage totalPages)
  /\ In 1 (getPageNumbers currentPage totalPages)
  /\ In totalPages (getPageNumbers currentPage totalPages)
  /\ (forall page, In page (getPageNumbers currentPage totalPages) ->
                   page = -1 \/ 1 <= page <= totalPages)
  /\ NoDup (buttons (getPageNumbers currentPage totalPages))
  /\ (List.length (getPageNumbers currentPage totalPages) <= 7)%nat.
Proof.
  intros Hcurrent.
  destruct (Z.le_gt_cases totalPages 5) as [Hfew | Hmany].
  - rewrite (getPageNumbers_few currentPage totalPages) by lia.
    assert (Hcases : totalPages = 1 \/ totalPages = 2 \/ totalPages = 3
                     \/ totalPages = 4 \/ totalPages = 5) by lia.
    destruct Hcases as [-> | [-> | [-> | [-> | ->]]]]; cbn;
      (split; [lia | ]); (split; [lia | ]); (split; [lia | ]);
      (split; [intros page Hpage; lia | ]);
      (split; [repeat constructor; cbn; lia | lia]).
  - rewrite (getPageNumbers_closed currentPage totalPages) by lia.
    destruct (Z.eqb_spec totalPages 6) as [-> | Hsix];
      [ | destruct (Z.leb_spec currentPage 3);
          [ | destruct (Z.leb_spec (totalPages - 2) currentPage)]];
      (split; [cbn; lia | ]); (split; [cbn; lia | ]); (split; [cbn; lia | ]);
      (split; [cbn; intros page Hpage; lia | ]);
      (split; [ | cbn; lia]);
      decide_buttons; repeat constructor; cbn; lia.
Qed.

End PaginationFacts.

(** X22. For a current page between 1 and the number of pages,
    [getPageNumbers] lists the first page, the last page and the current
    page; every entry is a page in range or the ellipsis mark -1; no page
    is listed twice; and there are at most seven entries.  With more than
    five pages the list is the first page, a window of up to four pages
    around the current one, and the last page, with an ellipsis wherever
    two listed pages do not follow each other. *)
Theorem page_numbers_window :
  forall (currentPage totalPages : Z),
    (1 <= currentPage <= totalPages)%Z ->
    In currentPage (Pagination.getPageNumbers currentPage totalPages)
    /\ In 1%Z (Pagination.getPageNumbers currentPage totalPages)
    /\ In totalPages (Pagination.getPageNumbers currentPage totalPages)
    /\ (forall page,
          In page (Pagination.getPageNumbers currentPage totalPages) ->
          page = (-1)%Z \/ (1 <= page <= totalPages)%Z)
    /\ NoDup (Pagination.buttons (Pagination.getPageNumbers currentPage totalPages))
    /\ List.length (Pagination.getPageNumbers currentPage totalPages) <= 7
    /\ ((5 < totalPages)%Z ->
        Pagination.getPageNumbers currentPage totalPages
        = (if totalPages =? 6 then [1; 2; 3; 4; 5; 6]
           else if currentPage <=? 3 then [1; 2; 3; 4; 5; -1; totalPages]
           else if totalPages - 2 <=? currentPage
           then [1; -1; totalPages - 4; totalPages - 3; totalPages - 2;
                 totalPages - 1; totalPages]
           else [1; -1; currentPage - 1; currentPage; currentPage + 1; -1;
                 totalPages])%Z).
Proof.
  intros currentPage totalPages Hcurrent.
  destruct (getPageNumbers_facts currentPage totalPages Hcurrent)
    as (Hin & Hfirst & Hlast & Hrange & Hnodup & Hlen).
  repeat (split; [assumption | ]).
  intros Hmany. apply getPageNumbers_closed; assumption.
Qed.

Lemma page_numbers_window_witness :
  (1 <= 7 <= 20)%Z
  /\ Pagination.getPageNumbers 7 20 = [1; -1; 6; 7; 8; -1; 20]%Z
  /\ In 7%Z (Pagination.getPageNumbers 7 20).
Proof.
  split; [lia | ]. split; [reflexivity | ].
  exact (proj1 (page_numbers_window 7 20 ltac:(lia))).
Defined.

(** X23. The handlers of the pagination bar only ever ask for a page in
    range: previous and next move by one and do nothing exactly where
    their buttons are disabled (on the first and on the last page), every
    numbered button asks for its own page, and a click on anything out of
    range, the ellipsis mark included, asks for nothing. *)
Theorem pagination_handlers_stay_in_range :
  forall (currentPage totalPages : Z),
    (1 <= currentPage <= totalPages)%Z ->
    (Pagination.handlePrevious currentPage
     = if (currentPage =? 1)%Z then None else Some (currentPage - 1)%Z)
    /\ (Pagination.handleNext currentPage totalPages
        = if (currentPage =? totalPages)%Z then None else Some (currentPage + 1)%Z)
    /\ (forall page,
          Pagination.handlePrevious currentPage = Some page
          \/ Pagination.handleNext currentPage totalPages = Some page ->
          (1 <= page <= totalPages)%Z)
    /\ (forall page,
          In page (Pagination.buttons
                     (Pagination.getPageNumbers currentPage totalPages)) ->
          Pagination.handlePageClick totalPages page = Some page)
    /\ (forall page asked,
          Pagination.handlePageClick totalPages page = Some asked ->
          asked = page /\ (1 <= asked <= totalPages)%Z)
    /\ Pagination.handlePageClick totalPages (-1) = None.
Proof.
  intros currentPage totalPages Hcurrent.
  unfold Pagination.handlePrevious, Pagination.handleNext,
    Pagination.handlePageClick.
  split; [ | split; [ | split; [ | split; [ | split]]]].
  - destruct (Z.gtb_spec currentPage 1), (Z.eqb_spec currentPage 1);
      try lia; reflexivity.
  - destruct (Z.ltb_spec currentPage totalPages),
      (Z.eqb_spec currentPage totalPages); try lia; reflexivity.
  - intros page.
    destruct (Z.gtb_spec currentPage 1), (Z.ltb_spec currentPage totalPages);
      intros [Hasked | Hasked]; try discriminate; injection Hasked as <-; lia.
  - intros page Hpage. unfold Pagination.buttons in Hpage.
    apply filter_In in Hpage. destruct Hpage as [Hpage Hmark].
    destruct (getPageNumbers_facts currentPage totalPages Hcurrent)
      as (_ & _ & _ & Hrange & _).
    destruct (Hrange page Hpage) as [-> | Hin]; [discriminate | ].
    destruct (Z.gtb_spec page 0), (Z.leb_spec page totalPages);
      try lia; reflexivity.
  - intros page asked.
    destruct (Z.gtb_spec page 0), (Z.leb_spec page totalPages);
      cbn [andb]; intros Hasked; try discriminate; injection Hasked as <-; lia.
  - reflexivity.
Qed.

Lemma pagination_handlers_stay_in_range_witness :
  (1 <= 20 <= 20)%Z
  /\ Pagination.handleNext 20 20 = None
  /\ Pagination.handlePrevious 20 = Some 19%Z.
Proof.
  split; [lia | ].
  destruct (pagination_handlers_stay_in_range 20 20 ltac:(lia))
    as (Hprevious & Hnext & _).
  split; [exact Hnext | exact Hprevious].
Defined.


Section EnvFacts.

Import EnvValidation EnvNames.
Local Open Scope list_scope.

Variable env : ProcessEnv.

Lemma checkEach_clean (variablesToCheck : list EnvVariable) :
  forallb (fun v => negb (isServerOnly v && startsWith (name v) "NEXT_PUBLIC_"))
    variablesToCheck = true ->
  forall missing invalidPrefix,
    checkEach env variablesToCheck missing invalidPrefix
    = (missing ++ filter (fun v => required v && negb (isSet (env (name v))))
                    variablesToCheck,
       invalidPrefix).
Proof.
  induction variablesToCheck as [ | v rest IH]; cbn [forallb checkEach filter];
    intros Hclean missing invalidPrefix.
  - rewrite app_nil_r. reflexivity.
  - apply andb_true_iff in Hclean. destruct Hclean as [Hv Hrest].
    apply negb_true_iff in Hv.
    destruct (required v && negb (isSet (env (name v)))).
    + rewrite (IH Hrest), <- app_assoc. reflexivity.
    + rewrite Hv.
      replace (isSet (env (name v)) && isServerOnly v
               && startsWith (name v) "NEXT_PUBLIC_") with false.
      * apply (IH Hrest).
      * rewrite <- andb_assoc, Hv, andb_false_r. reflexivity.
Qed.

Lemma checkExposed_clean (serverOnlyVars : list EnvVariable) :
  forallb (fun v => negb (startsWith (name v) "NEXT_PUBLIC_")) serverOnlyVars = true ->
  forall invalidPrefix, checkExposed serverOnlyVars invalidPrefix = invalidPrefix.
Proof.
  induction serverOnlyVars as [ | v rest IH]; cbn [forallb checkExposed];
    intros Hclean invalidPrefix; [reflexivity | ].
  apply andb_true_iff in Hclean. destruct Hclean as [Hv Hrest].
  apply negb_true_iff in Hv. rewrite Hv. apply (IH Hrest).
Qed.

Lemma no_missing {A} (f : A -> bool) (l : list A) :
  (List.length (filter f l) =? 0)%nat = forallb (fun x => negb (f x)) l.
Proof.
  induction l as [ | x l IH]; cbn; [reflexivity | ].
  destruct (f x); cbn; [reflexivity | exact IH].
Qed.

Lemma validateEnvVariables_server :
  validateEnvVariables env true
  = {| isValid :=
         forallb (fun name => isSet (env name)) (publicNames ++ secretNames);
       missing :=
         filter (fun v => required v && negb (isSet (env (name v))))
           REQUIRED_ENV_VARIABLES;
       invalidPrefix := [];
       warnings :=
         if isSet (env "NEXT_PUBLIC_TOUR_API_KEY") || isSet (env "TOUR_API_KEY")
         then []
         else [ "한국관광공사 API 키가 누락되었습니다. NEXT_PUBLIC_TOUR_API_KEY 또는 TOUR_API_KEY 중 하나를 설정하세요." ] |}.
Proof.
  unfold validateEnvVariables.
  rewrite (checkEach_clean REQUIRED_ENV_VARIABLES) by (vm_compute; reflexivity).
  rewrite checkExposed_clean by (vm_compute; reflexivity).
  cbn [app List.length Nat.eqb]. rewrite andb_true_r, no_missing.
  f_equal.
  - cbn [forallb REQUIRED_ENV_VARIABLES publicNames secretNames app required name
         andb negb].
    generalize (isSet (env "NEXT_PUBLIC_CLERK_PUBLISHABLE_KEY")),
      (isSet (env "CLERK_SECRET_KEY")), (isSet (env "NEXT_PUBLIC_SUPABASE_URL")),
      (isSet (env "NEXT_PUBLIC_SUPABASE_ANON_KEY")),
      (isSet (env "SUPABASE_SERVICE_ROLE_KEY")),
      (isSet (env "NEXT_PUBLIC_STORAGE_BUCKET")),
      (isSet (env "NEXT_PUBLIC_NAVER_MAP_CLIENT_ID")).
    intros [] [] [] [] [] [] []; reflexivity.
  - destruct (isSet (env "NEXT_PUBLIC_TOUR_API_KEY")), (isSet (env "TOUR_API_KEY"));
      reflexivity.
Qed.

Lemma validateEnvVariables_client :
  validateEnvVariables env false
  = {| isValid := forallb (fun name => isSet (env name)) publicNames;
       missing :=
         filter (fun v => required v && negb (isSet (env (name v))))
           (filter (fun v => negb (isServerOnly v)) REQUIRED_ENV_VARIABLES);
       invalidPrefix := [];
       warnings :=
         if isSet (env "NEXT_PUBLIC_TOUR_API_KEY") || isSet (env "TOUR_API_KEY")
         then []
         else [ "한국관광공사 API 키가 누락되었습니다. NEXT_PUBLIC_TOUR_API_KEY 또는 TOUR_API_KEY 중 하나를 설정하세요." ] |}.
Proof.
  unfold validateEnvVariables.
  rewrite (checkEach_clean (filter _ REQUIRED_ENV_VARIABLES))
    by (vm_compute; reflexivity).
  cbn [app List.length Nat.eqb]. rewrite andb_true_r, no_missing.
  f_equal.
  - cbn [forallb filter REQUIRED_ENV_VARIABLES publicNames required name
         serverOnly isServerOnly andb negb].
    generalize (isSet (env "NEXT_PUBLIC_CLERK_PUBLISHABLE_KEY")),
      (isSet (env "NEXT_PUBLIC_SUPABASE_URL")),
      (isSet (env "NEXT_PUBLIC_SUPABASE_ANON_KEY")),
      (isSet (env "NEXT_PUBLIC_STORAGE_BUCKET")),
      (isSet (env "NEXT_PUBLIC_NAVER_MAP_CLIENT_ID")).
    intros [] [] [] [] []; reflexivity.
  - destruct (isSet (env "NEXT_PUBLIC_TOUR_API_KEY")), (isSet (env "TOUR_API_KEY"));
      reflexivity.
Qed.

Lemma isSet_present (value : option string) :
  isSet value = match TourApi.present value with Some _ => true | None => false end.
Proof.
  destruct value as [s | ]; cbn; [ | reflexivity].
  destruct (String.eqb s ""); reflexivity.
Qed.

End EnvFacts.

(** X24. [validateEnvVariables] never reports a wrong prefix; its result
    is valid exactly when the five public names, and on the server also
    the two secret ones, are set to something not empty; the missing ones
    are listed in the order of the table.  A missing tour API key is a
    warning only and has no part in validity, although the warning is
    raised exactly when [getApiKey] would throw on the server. *)
Theorem validation_depends_on_the_required_names :
  forall (env : EnvValidation.ProcessEnv) (isServer : bool),
    EnvValidation.invalidPrefix (EnvValidation.validateEnvVariables env isServer) = []
    /\ EnvValidation.isValid (EnvValidation.validateEnvVariables env isServer)
       = forallb (fun name => EnvValidation.isSet (env name))
           (EnvNames.publicNames ++ (if isServer then EnvNames.secretNames else []))
    /\ EnvValidation.missing (EnvValidation.validateEnvVariables env isServer)
       = filter (fun v => EnvValidation.required v
                          && negb (EnvValidation.isSet (env (EnvValidation.name v))))
           (if isServer then EnvValidation.REQUIRED_ENV_VARIABLES
            else filter (fun v => negb (EnvValidation.isServerOnly v))
                   EnvValidation.REQUIRED_ENV_VARIABLES)
    /\ (EnvValidation.warnings (EnvValidation.validateEnvVariables env isServer) = []
        <-> exists key, TourApi.getApiKey (EnvNames.tourEnv env false) = Ok key).
Proof.
  intros env [ | ].
  - rewrite validateEnvVariables_server.
    cbn [EnvValidation.invalidPrefix EnvValidation.isValid EnvValidation.missing
         EnvValidation.warnings].
    split; [reflexivity | ]. split; [reflexivity | ]. split; [reflexivity | ].
    unfold TourApi.getApiKey, EnvNames.tourEnv.
    cbn [TourApi.isBrowser TourApi.TOUR_API_KEY TourApi.NEXT_PUBLIC_TOUR_API_KEY].
    rewrite !isSet_present.
    destruct (TourApi.present (env "TOUR_API_KEY")),
      (TourApi.present (env "NEXT_PUBLIC_TOUR_API_KEY")); cbn;
      split; eauto; try discriminate; intros (key & Hkey); discriminate.
  - rewrite validateEnvVariables_client.
    cbn [EnvValidation.invalidPrefix EnvValidation.isValid EnvValidation.missing
         EnvValidation.warnings].
    rewrite app_nil_r.
    split; [reflexivity | ]. split; [reflexivity | ]. split; [reflexivity | ].
    unfold TourApi.getApiKey, EnvNames.tourEnv.
    cbn [TourApi.isBrowser TourApi.TOUR_API_KEY TourApi.NEXT_PUBLIC_TOUR_API_KEY].
    rewrite !isSet_present.
    destruct (TourApi.present (env "TOUR_API_KEY")),
      (TourApi.present (env "NEXT_PUBLIC_TOUR_API_KEY")); cbn;
      split; eauto; try discriminate; intros (key & Hkey); discriminate.
Qed.

(** X25. [validateAndThrow] throws only in development, and there exactly
    when the result is not valid; the guard around it in middleware.ts
    never changes that outcome.  So outside development the middleware
    always loads, and in development it loads exactly when the seven
    required names are set. *)
Theorem middleware_loads_unless_development_is_misconfigured :
  forall (env : EnvValidation.ProcessEnv),
    EnvValidation.middleware env = EnvValidation.validateAndThrow env true
    /\ (EnvValidation.middleware env = Ok tt <->
          EnvValidation.isDevelopment env = false
          \/ forallb (fun name => EnvValidation.isSet (env name))
               (EnvNames.publicNames ++ EnvNames.secretNames) = true)
    /\ (forall isServer e,
          EnvValidation.validateAndThrow env isServer = Throw e ->
          env "NODE_ENV" = Some "development"
          /\ EnvValidation.isValid (EnvValidation.validateEnvVariables env isServer)
             = false
          /\ e = Error (EnvValidation.errorMessage
                          (EnvValidation.validateEnvVariables env isServer))).
Proof.
  intros env.
  assert (Hsame : EnvValidation.middleware env
                  = EnvValidation.validateAndThrow env true).
  { unfold EnvValidation.middleware, EnvValidation.validateAndThrow, try_catch.
    destruct (negb _); [ | reflexivity].
    destruct (EnvValidation.isDevelopment env); reflexivity. }
  split; [exact Hsame | ]. split.
  - rewrite Hsame. unfold EnvValidation.validateAndThrow.
    rewrite validateEnvVariables_server. cbn [EnvValidation.isValid].
    destruct (forallb _ _); cbn [negb].
    + split; [right; reflexivity | reflexivity].
    + destruct (EnvValidation.isDevelopment env).
      * split; [discriminate | intros [H | H]; discriminate].
      * split; [left; reflexivity | reflexivity].
  - intros isServer e. unfold EnvValidation.validateAndThrow.
    destruct (EnvValidation.isValid _); cbn [negb]; [discriminate | ].
    unfold EnvValidation.isDevelopment.
    destruct (env "NODE_ENV") as [mode | ]; [ | discriminate].
    destruct (String.eqb_spec mode "development") as [-> | _]; [ | discriminate].
    intros H; injection H as <-. repeat split.
Qed.

(** X26. The three lookups agree except on a variable set to the empty
    string: [getRequiredEnvVariable] returns exactly the values that are
    set and not empty, [hasEnvVariable] tells when it does, and
    [getEnvVariable] falls back to the default only for a variable that is
    not set at all, so it returns the empty string where the other two
    see nothing. *)
Theorem env_lookups_differ_on_empty_values :
  forall (env : EnvValidation.ProcessEnv) (name : string),
    (forall value,
       EnvValidation.getRequiredEnvVariable env name = Ok value
       <-> env name = Some value /\ value <> "")
    /\ (EnvValidation.hasEnvVariable env name = true
        <-> exists value, EnvValidation.getRequiredEnvVariable env name = Ok value)
    /\ (forall defaultValue,
          EnvValidation.getEnvVariable env name defaultValue
          = match env name with
            | Some value => Some value
            | None => defaultValue
            end)
    /\ (env name = Some "" ->
        EnvValidation.hasEnvVariable env name = false
        /\ (exists e, EnvValidation.getRequiredEnvVariable env name = Throw e)
        /\ forall fallback,
             EnvValidation.getEnvVariable env name (Some fallback) = Some "").
Proof.
  intros env name.
  unfold EnvValidation.getRequiredEnvVariable, EnvValidation.hasEnvVariable,
    EnvValidation.getEnvVariable, EnvValidation.isSet.
  destruct (env name) as [s | ].
  - destruct (String.eqb_spec s "") as [-> | Hne]; cbn [negb].
    + split; [ | split; [ | split]].
      * intros value. split; [discriminate | ].
        intros [H Hvalue]. injection H as <-. contradiction.
      * split; [discriminate | intros (value & H); discriminate].
      * reflexivity.
      * intros _. split; [reflexivity | ]. split; [eexists; reflexivity | reflexivity].
    + split; [ | split; [ | split]].
      * intros value. split.
        -- intros H; injection H as <-. split; [reflexivity | exact Hne].
        -- intros [H _]. injection H as <-. reflexivity.
      * split; [intros _; exists s; reflexivity | reflexivity].
      * reflexivity.
      * intros H. injection H as ->. contradiction.
  - split; [ | split; [ | split]].
    + intros value. split; [discriminate | intros [H _]; discriminate].
    + split; [discriminate | intros (value & H); discriminate].
    + reflexivity.
    + discriminate.
Qed.


Section ButtonFacts.

Import Store Supabase Async SupabaseApi Actions Reference ActionSteps.
Local Open Scope list_scope.

Lemma existsb_perm {A} (f : A -> bool) (l l' : list A) :
  Permutation l l' -> existsb f l = existsb f l'.
Proof.
  induction 1 as [ | x l l' _ IH | x y l | l l' l'' _ IH1 _ IH2]; cbn.
  - reflexivity.
  - rewrite IH. reflexivity.
  - destruct (f x), (f y); reflexivity.
  - congruence.
Qed.

Lemma existsb_owned (u c : string) (l : list Bookmark.t) :
  existsb (fun b => String.eqb (Bookmark.content_id b) c) (filter (owned_by u) l)
  = existsb (is_pair u c) l.
Proof.
  induction l as [ | b l IH]; cbn; [reflexivity | ].
  unfold owned_by at 1, is_pair at 1.
  destruct (String.eqb (Bookmark.user_id b) u); cbn; rewrite IH; reflexivity.
Qed.

Lemma existsb_deleted (u c : string) (l : list Bookmark.t) :
  existsb (is_pair u c) (filter (fun b => negb (is_pair u c b)) l) = false.
Proof.
  induction l as [ | b l IH]; cbn; [reflexivity | ].
  destruct (is_pair u c b) eqn:Hb; cbn; [exact IH | ].
  rewrite Hb, IH. reflexivity.
Qed.

End ButtonFacts.

(** X27. The bookmark button ends up telling the truth.  For a signed-in,
    synced user and a content id that is not blank, the flag set by the
    check on mount and the flag left by a toggle both say whether the
    store holds the bookmark, whatever the flag was before the toggle: a
    stale flag is put right, by the delete that removes nothing or by the
    duplicate error, provided the text of that error reaches the
    browser.  Such a toggle never shows an error. *)
Theorem bookmark_button_reflects_the_store :
  forall (gen_random_uuid : Store.Db -> string) (now : Store.Db -> Z)
         (received : Thrown -> Thrown)
         (w : Store.World) (usr : Store.User) (userId : option string)
         (contentId : string) (s : BookmarkButton.State),
    Store.session w = Some (Store.clerk_id usr) ->
    Store.clerk_id usr <> "" ->
    Store.id usr <> "" ->
    NoDup (map Store.clerk_id (Store.users (Store.db w))) ->
    In usr (Store.users (Store.db w)) ->
    Actions.missing userId = false ->
    Actions.invalidContentId contentId = false ->
    BookmarkButton.isLoading s = false ->
    received Reference.duplicateBookmark = Reference.duplicateBookmark ->
    (BookmarkButton.isBookmarked
       (fst (BookmarkButton.checkBookmarkStatus
               (Supabase.postgres gen_random_uuid now) received
               true userId contentId s w))
     = existsb (Store.is_pair (Store.id usr) contentId)
         (Store.bookmarks (Store.db w))
     /\ Store.db (snd (BookmarkButton.checkBookmarkStatus
                         (Supabase.postgres gen_random_uuid now) received
                         true userId contentId s w))
        = Store.db w)
    /\ BookmarkButton.isBookmarked
         (fst (fst (BookmarkButton.handleToggle
                      (Supabase.postgres gen_random_uuid now) received
                      userId contentId s w)))
       = existsb (Store.is_pair (Store.id usr) contentId)
           (Store.bookmarks
              (Store.db (snd (BookmarkButton.handleToggle
                                (Supabase.postgres gen_random_uuid now) received
                                userId contentId s w))))
    /\ BookmarkButton.isLoading
         (fst (fst (BookmarkButton.handleToggle
                      (Supabase.postgres gen_random_uuid now) received
                      userId contentId s w)))
       = false
    /\ exists text,
         snd (fst (BookmarkButton.handleToggle
                     (Supabase.postgres gen_random_uuid now) received
                     userId contentId s w))
         = [BookmarkButton.ToastSuccess text]
         \/ snd (fst (BookmarkButton.handleToggle
                        (Supabase.postgres gen_random_uuid now) received
                        userId contentId s w))
            = [BookmarkButton.ToastInfo text].
Proof.
  intros gen now received w usr userId contentId s
    Hsession Hclerk Hid Hnodup Hin Huser Hcontent Hidle Hreceived.
  pose proof (resolution_synced gen now w usr Hsession Hclerk Hid Hnodup Hin)
    as Hresolved.
  split.
  - unfold BookmarkButton.checkBookmarkStatus, BookmarkButton.call.
    rewrite Huser. cbn [negb orb].
    rewrite getBookmarksAction_cases, Hresolved, getBookmarks_postgres.
    cbn [fst snd BookmarkButton.isBookmarked].
    split; [ | reflexivity].
    rewrite (existsb_perm _ _ _
               (Permutation_sym (order_by_created_at_desc_perm _))).
    apply existsb_owned.
  - unfold BookmarkButton.handleToggle, BookmarkButton.call.
    rewrite Huser, Hidle.
    destruct (BookmarkButton.isBookmarked s).
    + rewrite removeBookmarkAction_cases, Hcontent, Hresolved,
        removeBookmark_postgres.
      cbn [fst snd BookmarkButton.isBookmarked BookmarkButton.isLoading].
      split; [ | split; [reflexivity | eexists; left; reflexivity]].
      symmetry. apply existsb_deleted.
    + rewrite addBookmarkAction_cases, Hcontent, Hresolved.
      destruct (addBookmark_cases gen now (Store.id usr) contentId
                  (ActionSteps.lookedUp w))
        as [(Hpair & Hr & Hdb) | [(_ & Hnone & _) | (Hpair & _ & row & Hr & Hu & Hc & Hdb)]].
      * destruct (SupabaseApi.addBookmark (Supabase.postgres gen now)
                    (Store.id usr) contentId (ActionSteps.lookedUp w))
          as [r w'] eqn:Hadd.
        cbn [fst snd] in Hr, Hdb. subst r. rewrite Hreceived.
        cbn [fst snd]. rewrite Hdb.
        split; [ | split; [reflexivity | eexists; right; reflexivity]].
        symmetry. exact Hpair.
      * exfalso.
        rewrite (user_exists (Store.id usr) (Store.db (ActionSteps.lookedUp w)))
          in Hnone; [discriminate | ].
        apply in_map. exact Hin.
      * destruct (SupabaseApi.addBookmark (Supabase.postgres gen now)
                    (Store.id usr) contentId (ActionSteps.lookedUp w))
          as [r w'] eqn:Hadd.
        cbn [fst snd] in Hr, Hdb. subst r.
        cbn [fst snd BookmarkButton.isBookmarked BookmarkButton.isLoading].
        rewrite Hdb. cbn [Store.bookmarks].
        split; [ | split; [reflexivity | eexists; left; reflexivity]].
        rewrite existsb_app. cbn [existsb].
        unfold Store.is_pair at 2. rewrite Hu, Hc, !String.eqb_refl.
        cbn. rewrite orb_true_r. reflexivity.
Qed.

Lemma bookmark_button_reflects_the_store_witness :
  Store.session (Reference.world (Some "user_2abc") Reference.sampleDb)
  = Some (Store.clerk_id Reference.alice)
  /\ Actions.invalidContentId "125266" = false
  /\ BookmarkButton.isBookmarked
       (fst (fst (BookmarkButton.handleToggle Samples.pg (fun e => e)
                    (Some "user_2abc") "125266"
                    {| BookmarkButton.isBookmarked := false;
                       BookmarkButton.isLoading := false;
                       BookmarkButton.isChecking := false |}
                    (Reference.world (Some "user_2abc") Reference.sampleDb))))
     = true.
Proof.
  split; [reflexivity | ]. split; [reflexivity | ].
  assert (Hnodup : NoDup (map Store.clerk_id
                            (Store.users
                               (Store.db (Reference.world (Some "user_2abc")
                                            Reference.sampleDb)))))
    by (repeat constructor; intros []).
  destruct (bookmark_button_reflects_the_store
              Reference.sample_uuid Reference.sample_now (fun e => e)
              (Reference.world (Some "user_2abc") Reference.sampleDb)
              Reference.alice (Some "user_2abc") "125266"
              {| BookmarkButton.isBookmarked := false;
                 BookmarkButton.isLoading := false;
                 BookmarkButton.isChecking := false |}
              eq_refl ltac:(discriminate) ltac:(discriminate) Hnodup
              (or_introl eq_refl) eq_refl eq_refl eq_refl eq_refl)
    as (_ & Hflag & _).
  unfold Samples.pg. rewrite Hflag. reflexivity.
Defined.

Section ListFacts.

Import BookmarkList.
Local Open Scope list_scope.

Lemma has_In (selectedIds : list string) (contentId : string) :
  has selectedIds contentId = true <-> In contentId selectedIds.
Proof.
  unfold has. rewrite existsb_exists. split.
  - intros (x & Hin & Heq). apply String.eqb_eq in Heq. subst. exact Hin.
  - intros Hin. exists contentId. split; [exact Hin | apply String.eqb_refl].
Qed.

End ListFacts.

(** X28. [bookmarkItems] keeps, in the order of the bookmarks, exactly the
    bookmarks whose content id is the id of some tour, each paired with
    the first such tour; a bookmark whose tour was not fetched drops out
    of the list. *)
Theorem bookmarkItems_pairs_by_content_id :
  forall (bookmarks : list Bookmark.t) (tours : list TourItem.t),
    map BookmarkList.bookmark (BookmarkList.bookmarkItems bookmarks tours)
    = filter (fun b => existsb (fun t => String.eqb (TourItem.contentid t)
                                           (Bookmark.content_id b)) tours)
        bookmarks
    /\ (forall item,
          In item (BookmarkList.bookmarkItems bookmarks tours) ->
          TourItem.contentid (BookmarkList.tour item)
          = Bookmark.content_id (BookmarkList.bookmark item)
          /\ find (fun t => String.eqb (TourItem.contentid t)
                              (Bookmark.content_id (BookmarkList.bookmark item)))
               tours
             = Some (BookmarkList.tour item))
    /\ List.length (BookmarkList.bookmarkItems bookmarks tours)
       <= List.length bookmarks.
Proof.
  intros bookmarks tours.
  induction bookmarks as [ | b bookmarks (IHmap & IHin & IHlen)];
    [cbn; split; [reflexivity | split; [intros item [] | lia]] | ].
  cbn [BookmarkList.bookmarkItems filter].
  destruct (find (fun t => String.eqb (TourItem.contentid t) (Bookmark.content_id b))
              tours) as [tour | ] eqn:Hfind.
  - assert (Hex : existsb (fun t => String.eqb (TourItem.contentid t)
                                      (Bookmark.content_id b)) tours = true).
    { apply existsb_exists. exists tour. apply find_some in Hfind. exact Hfind. }
    rewrite Hex. cbn [map BookmarkList.bookmark List.length].
    split; [rewrite IHmap; reflexivity | ].
    split; [ | lia].
    intros item [<- | Hitem]; [ | apply IHin; exact Hitem].
    cbn [BookmarkList.tour BookmarkList.bookmark].
    split; [ | exact Hfind].
    apply find_some in Hfind. apply String.eqb_eq. apply Hfind.
  - assert (Hex : existsb (fun t => String.eqb (TourItem.contentid t)
                                      (Bookmark.content_id b)) tours = false).
    { destruct (existsb _ tours) eqn:Hex; [ | reflexivity].
      apply existsb_exists in Hex. destruct Hex as (t & Hin & Ht).
      pose proof (find_none _ _ Hfind t Hin) as Hnone. cbn in Hnone.
      rewrite Ht in Hnone. discriminate. }
    rewrite Hex. split; [exact IHmap | ]. split; [exact IHin | ].
    cbn [List.length]. lia.
Qed.

(** X29. Ticking a row toggles exactly its id in the selection: the id is
    selected afterwards exactly when it was not before, every other id
    keeps its state, no id gets into the selection twice, and ticking
    twice gives back a selection with the same members. *)
Theorem handleToggleCheck_toggles_one_id :
  forall (contentId : string) (prev : list string),
    NoDup prev ->
    BookmarkList.has (BookmarkList.handleToggleCheck contentId prev) contentId
    = negb (BookmarkList.has prev contentId)
    /\ (forall other,
          other <> contentId ->
          BookmarkList.has (BookmarkList.handleToggleCheck contentId prev) other
          = BookmarkList.has prev other)
    /\ NoDup (BookmarkList.handleToggleCheck contentId prev)
    /\ (forall x,
          In x (BookmarkList.handleToggleCheck contentId
                  (BookmarkList.handleToggleCheck contentId prev))
          <-> In x prev).
Proof.
  intros contentId prev Hnodup.
  assert (Hflip : forall l,
            BookmarkList.has (BookmarkList.handleToggleCheck contentId l) contentId
            = negb (BookmarkList.has l contentId)).
  { intros l. unfold BookmarkList.handleToggleCheck.
    destruct (BookmarkList.has l contentId) eqn:Hhas; cbn [negb].
    - destruct (BookmarkList.has (filter _ l) contentId) eqn:Hafter; [ | reflexivity].
      apply has_In in Hafter. apply filter_In in Hafter.
      destruct Hafter as [_ Hne]. rewrite String.eqb_refl in Hne. discriminate.
    - apply has_In. apply in_or_app. right. left. reflexivity. }
  assert (Hother : forall l other,
            other <> contentId ->
            (In other (BookmarkList.handleToggleCheck contentId l) <-> In other l)).
  { intros l other Hne. unfold BookmarkList.handleToggleCheck.
    destruct (BookmarkList.has l contentId).
    - rewrite filter_In. split; [intros [H _]; exact H | ].
      intros H. split; [exact H | ].
      destruct (String.eqb_spec contentId other); [congruence | reflexivity].
    - rewrite in_app_iff. cbn. split; [ | auto].
      intros [H | [H | []]]; [exact H | congruence]. }
  split; [apply Hflip | ]. split; [ | split].
  - intros other Hne.
    destruct (BookmarkList.has prev other) eqn:Hhas.
    + apply (proj2 (has_In _ _)). apply (proj2 (Hother prev other Hne)).
      apply (proj1 (has_In _ _)). exact Hhas.
    + destruct (BookmarkList.has (BookmarkList.handleToggleCheck contentId prev) other)
        eqn:Hafter; [ | reflexivity].
      apply (proj1 (has_In _ _)) in Hafter.
      apply (proj1 (Hother prev other Hne)) in Hafter.
      apply (proj2 (has_In _ _)) in Hafter. rewrite Hhas in Hafter. discriminate.
  - unfold BookmarkList.handleToggleCheck.
    destruct (BookmarkList.has prev contentId) eqn:Hhas.
    + apply NoDup_filter. exact Hnodup.
    + apply NoDup_app; [exact Hnodup | repeat constructor; intros [] | ].
      intros x Hx [<- | []]. apply has_In in Hx. congruence.
  - intros x. destruct (String.eqb_spec x contentId) as [-> | Hne].
    + rewrite <- !has_In, !Hflip, negb_involutive. reflexivity.
    + rewrite !Hother by exact Hne. reflexivity.
Qed.

Lemma handleToggleCheck_toggles_one_id_witness :
  NoDup ["125266"; "126535"]
  /\ BookmarkList.handleToggleCheck "125266" ["125266"; "126535"] = ["126535"]
  /\ BookmarkList.has
       (BookmarkList.handleToggleCheck "125266" ["125266"; "126535"]) "125266"
     = false.
Proof.
  assert (Hnodup : NoDup ["125266"; "126535"]).
  { repeat constructor; cbn; intuition discriminate. }
  split; [exact Hnodup | ]. split; [reflexivity | ].
  exact (proj1 (handleToggleCheck_toggles_one_id "125266" _ Hnodup)).
Defined.

Example validateEnvVariables_example :
  map EnvValidation.name
    (EnvValidation.missing
       (EnvValidation.validateEnvVariables
          (EnvNames.ofEntries
             [ ("NEXT_PUBLIC_CLERK_PUBLISHABLE_KEY", "pk_test");
               ("CLERK_SECRET_KEY", "");
               ("NEXT_PUBLIC_SUPABASE_URL", "https://example.supabase.co");
               ("NEXT_PUBLIC_STORAGE_BUCKET", "uploads") ])
          true))
  = [ "CLERK_SECRET_KEY"; "NEXT_PUBLIC_SUPABASE_ANON_KEY";
      "SUPABASE_SERVICE_ROLE_KEY"; "NEXT_PUBLIC_NAVER_MAP_CLIENT_ID" ].
Proof. vm_compute. reflexivity. Qed.

Example middleware_example :
  EnvValidation.middleware
    (EnvNames.ofEntries [ ("NODE_ENV", "production") ]) = Ok tt
  /\ exists e,
       EnvValidation.middleware
         (EnvNames.ofEntries [ ("NODE_ENV", "development") ]) = Throw e.
Proof. split; [vm_compute; reflexivity | eexists; vm_compute; reflexivity]. Qed.

(** the sentence is fixed, not new: an error that already carries one of the
    sentences can get the same text back *)
Example formatError_can_return_the_message :
  ErrorHandler.formatError toLowerCaseAscii (Error "요청하신 정보를 찾을 수 없습니다.")
  = "요청하신 정보를 찾을 수 없습니다.".
Proof. vm_compute. reflexivity. Qed.
